(** * XJog: durable statechart engine — verification of the specification

    A shallow embedding of the parts of the XJog sources that the
    specification's claims are about: the PostgreSQL persistence adapter
    (packages/core-pg, packages/core-persistence), the journal adapter
    (packages/journal-pg and the abstract JournalPersistenceAdapter), the
    deferred-event manager, the startup manager, the chart executor's
    [send], the engine's [shutdown] and the [ChartIdentifier] utility.

    Conventions.  A database table is the list of its rows in scan order;
    an SQL statement is a function from the database to the new database
    (and its result).  Columns whose value no modelled statement reads
    (the [timestamp] columns filled in by the database) are left out.
    JavaScript exceptions are an explicit outcome.  Timers are deadlines in
    an explicit state; wall-clock time is an integer number of
    milliseconds. *)

From Stdlib Require Import ZArith List String Ascii Bool Lia.
From stdpp Require Import base option list gmap strings.
Import ListNotations.

Local Open Scope string_scope.
Local Open Scope list_scope.

(** ** Shared data *)

(** [ChartReference]: the pair that identifies one chart. *)
Record ChartReference := mkRef { machineId : string; chartId : string }.

(** The two fields under names that stay visible where a module has a
    [machineId] or [chartId] of its own. *)
Definition refMachineId (r : ChartReference) : string := machineId r.
Definition refChartId (r : ChartReference) : string := chartId r.

Definition ref_eqb (a b : ChartReference) : bool :=
  String.eqb (machineId a) (machineId b) && String.eqb (chartId a) (chartId b).

(** Outcome of a JavaScript call that may throw. *)
Inductive Outcome (A : Type) : Type :=
| Returned (a : A)
| Thrown (message : string).
Arguments Returned {A} a.
Arguments Thrown {A} message.

Definition option_eqb {A} (eqb : A -> A -> bool) (x y : option A) : bool :=
  match x, y with
  | Some a, Some b => eqb a b
  | None, None => true
  | _, _ => false
  end.

(** ** The persistence store (PostgresPersistenceAdapter, PersistenceAdapter) *)

Module Persistence.

(** Row of [instances]. *)
Record InstanceRow := mkInstance { instanceId : string; dying : bool }.

(** Row of [charts].  [state] is the BYTEA holding [JSON.stringify(state)]. *)
Record ChartRow := mkChart {
  ownerId : option string;
  chart_machineId : string;
  chart_chartId : string;
  parentMachineId : option string;
  parentChartId : option string;
  state : string;
  paused : bool
}.

(** Row of [ongoingActivities]. *)
Record OngoingActivityRow := mkActivity {
  act_machineId : string;
  act_chartId : string;
  activityId : string
}.

(** Identifier of a send action or deferred event: [string | number]. *)
Inductive EventIdent := IdString (s : string) | IdNumber (n : Z).

Definition EventIdent_eqb (a b : EventIdent) : bool :=
  match a, b with
  | IdString s, IdString t => String.eqb s t
  | IdNumber n, IdNumber m => Z.eqb n m
  | _, _ => false
  end.

(** Routing target of a deferred event ([eventTo]): a string or number (a
    URI, an activity id, the special parent target), as the column stores
    it. *)
Inductive EventTarget := ToString (s : string) | ToNumber (n : Z).

(** [PersistedDeferredEvent]: a row of [deferredEvents] as the adapter
    returns it ([parseSqlDeferredEventRow] only regroups the columns).  The
    event payload is kept as its JSON text; all times in milliseconds. *)
Record PersistedDeferredEvent := mkDeferred {
  id : Z;
  ref : ChartReference;
  eventId : EventIdent;
  eventTo : option EventTarget;
  event : string;
  timestamp : Z;
  delay : Z;
  due : Z;
  lock : option string
}.

Record Db := mkDb {
  instances : list InstanceRow;
  charts : list ChartRow;
  ongoingActivities : list OngoingActivityRow;
  deferredEvents : list PersistedDeferredEvent;
  (** next value of the [deferredEvents.id] SERIAL sequence *)
  deferredEventSeq : Z
}.

Definition set_instances (f : list InstanceRow -> list InstanceRow) (db : Db) : Db :=
  mkDb (f (instances db)) (charts db) (ongoingActivities db)
       (deferredEvents db) (deferredEventSeq db).
Definition set_charts (f : list ChartRow -> list ChartRow) (db : Db) : Db :=
  mkDb (instances db) (f (charts db)) (ongoingActivities db)
       (deferredEvents db) (deferredEventSeq db).
Definition set_ongoingActivities
    (f : list OngoingActivityRow -> list OngoingActivityRow) (db : Db) : Db :=
  mkDb (instances db) (charts db) (f (ongoingActivities db))
       (deferredEvents db) (deferredEventSeq db).
Definition set_deferredEvents
    (f : list PersistedDeferredEvent -> list PersistedDeferredEvent) (db : Db) : Db :=
  mkDb (instances db) (charts db) (ongoingActivities db)
       (f (deferredEvents db)) (deferredEventSeq db).

Definition chart_ref (c : ChartRow) : ChartReference :=
  mkRef (chart_machineId c) (chart_chartId c).
Definition act_ref (a : OngoingActivityRow) : ChartReference :=
  mkRef (act_machineId a) (act_chartId a).

(** [withTransaction]: BEGIN; run the routine; COMMIT when it returns,
    ROLLBACK and rethrow when it throws. *)
Definition withTransaction {A} (routine : Db -> Db * Outcome A) (db : Db)
  : Db * Outcome A :=
  match routine db with
  | (db', Returned a) => (db', Returned a)
  | (_, Thrown e) => (db, Thrown e)
  end.

(** SELECT COUNT( * ) FROM instances WHERE dying = FALSE *)
Definition countAliveInstances (db : Db) : nat :=
  length (List.filter (fun i => negb (dying i)) (instances db)).

(** INSERT INTO instances (instanceId) VALUES (:id); [dying] defaults to
    false; the primary key rejects a second row with the same id. *)
Definition insertInstance (id : string) (db : Db) : Db * Outcome unit :=
  if existsb (fun i => String.eqb (instanceId i) id) (instances db)
  then (db, Thrown "duplicate key value violates unique constraint")
  else (set_instances (fun l => l ++ [mkInstance id false]) db, Returned tt).

(** The body of [deleteInstance] is commented out in the source: the
    statement [DELETE FROM instances WHERE instanceId = $1] is not run. *)
Definition deleteInstance (id : string) (db : Db) : Db := db.

(** UPDATE instances SET dying = TRUE *)
Definition markAllInstancesDying (db : Db) : Db :=
  set_instances (List.map (fun i => mkInstance (instanceId i) true)) db.

Definition pause (c : ChartRow) : ChartRow :=
  mkChart (ownerId c) (chart_machineId c) (chart_chartId c)
          (parentMachineId c) (parentChartId c) (state c) true.

(** UPDATE charts SET paused = TRUE *)
Definition markAllChartsPaused (db : Db) : Db :=
  set_charts (List.map pause) db.

(** SELECT COUNT( * ) FROM charts WHERE paused = TRUE *)
Definition countPausedCharts (db : Db) : nat :=
  length (List.filter paused (charts db)).

(** SELECT machineId, chartId FROM charts WHERE paused = TRUE *)
Definition getPausedChartIds (db : Db) : list ChartReference :=
  List.map chart_ref (List.filter paused (charts db)).

(** EXISTS (SELECT * FROM ongoingActivities WHERE machineId = c.machineId
    AND chartId = c.chartId) *)
Definition hasOngoingActivity (acts : list OngoingActivityRow) (c : ChartRow) : bool :=
  existsb (fun a => ref_eqb (act_ref a) (chart_ref c)) acts.

(** SELECT machineId, chartId FROM charts WHERE paused = TRUE AND NOT EXISTS
    (SELECT * FROM ongoingActivities WHERE ...) *)
Definition getPausedChartWithNoOngoingActivitiesIds (db : Db) : list ChartReference :=
  List.map chart_ref
    (List.filter (fun c => paused c && negb (hasOngoingActivity (ongoingActivities db) c))
                 (charts db)).

(** SELECT COUNT( * ) FROM charts WHERE ownerId = :instanceId *)
Definition countOwnCharts (instanceId : string) (db : Db) : nat :=
  length (List.filter (fun c => option_eqb String.eqb (ownerId c) (Some instanceId))
                      (charts db)).

(** EXISTS (SELECT * FROM charts WHERE machineId = a.machineId AND
    chartId = a.chartId AND paused = TRUE) *)
Definition hasPausedChart (cs : list ChartRow) (a : OngoingActivityRow) : bool :=
  existsb (fun c => String.eqb (chart_machineId c) (act_machineId a)
                    && String.eqb (chart_chartId c) (act_chartId a)
                    && paused c) cs.

(** DELETE FROM ongoingActivities WHERE NOT EXISTS (SELECT * FROM charts
    WHERE machineId = ongoingActivities.machineId AND chartId =
    ongoingActivities.chartId AND paused = TRUE); returns the row count.
    A row is deleted when the sub-select is empty, so the rows that stay
    are those that do have a paused chart. *)
Definition deleteOngoingActivitiesForPausedCharts (db : Db) : Db * nat :=
  let kept := List.filter (hasPausedChart (charts db)) (ongoingActivities db) in
  (set_ongoingActivities (fun _ => kept) db,
   length (ongoingActivities db) - length kept).

Definition resume (id : string) (c : ChartRow) : ChartRow :=
  mkChart (Some id) (chart_machineId c) (chart_chartId c)
          (parentMachineId c) (parentChartId c) (state c) false.

(** UPDATE charts SET paused = FALSE, ownerId = :id WHERE paused = TRUE *)
Definition changeOwnerAndResumePausedCharts (id : string) (db : Db) : Db :=
  set_charts (List.map (fun c => if paused c then resume id c else c)) db.

(** One UPDATE per reference:
    UPDATE charts SET paused = FALSE, ownerId = :instanceId
    WHERE machineId = :machineId AND chartId = :chartId *)
Fixpoint changeOwnerAndResumeCharts (instanceId : string)
    (refs : list ChartReference) (db : Db) : Db :=
  match refs with
  | [] => db
  | ref :: rest =>
      changeOwnerAndResumeCharts instanceId rest
        (set_charts
           (List.map (fun c => if ref_eqb (chart_ref c) ref
                               then resume instanceId c else c)) db)
  end.

(** Higher-level methods of the abstract adapter. *)

Definition overthrowOtherInstances (instanceId : string) (db : Db) : Db * Outcome unit :=
  withTransaction
    (fun connection =>
       let c1 := markAllInstancesDying connection in
       let c2 := markAllChartsPaused c1 in
       insertInstance instanceId c2)
    db.

Definition removeInstance (instanceId : string) (db : Db) : Db :=
  deleteInstance instanceId db.

Definition getPausedChartCount (db : Db) : nat := countPausedCharts db.

Definition gentlyAdoptCharts (instanceId : string) (db : Db)
  : Db * list ChartReference :=
  let adoptedChartIds := getPausedChartWithNoOngoingActivitiesIds db in
  (changeOwnerAndResumeCharts instanceId adoptedChartIds db, adoptedChartIds).

Definition forciblyAdoptCharts (instanceId : string) (db : Db)
  : Db * Outcome (list ChartReference) :=
  withTransaction
    (fun connection =>
       let adoptedChartIds := getPausedChartIds connection in
       let c1 := fst (deleteOngoingActivitiesForPausedCharts connection) in
       let c2 := changeOwnerAndResumePausedCharts instanceId c1 in
       (c2, Returned adoptedChartIds))
    db.

(** UPDATE charts SET state = :state WHERE machineId = :machineId AND
    chartId = :chartId, with [:state] the bytes of [JSON.stringify(state)]. *)
Definition updateChartState (r : ChartReference) (serializedState : string) (db : Db) : Db :=
  set_charts
    (List.map (fun c => if ref_eqb (chart_ref c) r
                        then mkChart (ownerId c) (chart_machineId c) (chart_chartId c)
                                     (parentMachineId c) (parentChartId c)
                                     serializedState (paused c)
                        else c)) db.

Definition updateChart (r : ChartReference) (serializedState : string) (db : Db) : Db :=
  updateChartState r serializedState db.

(** INSERT INTO ongoingActivities ... ON CONFLICT DO NOTHING *)
Definition registerActivity (r : ChartReference) (activity : string) (db : Db) : Db :=
  if existsb (fun a => ref_eqb (act_ref a) r && String.eqb (activityId a) activity)
             (ongoingActivities db)
  then db
  else set_ongoingActivities
         (fun l => l ++ [mkActivity (machineId r) (chartId r) activity]) db.

(** DELETE FROM ongoingActivities WHERE machineId = .. AND chartId = .. AND
    activityId = .. *)
Definition unregisterActivity (r : ChartReference) (activity : string) (db : Db) : Db :=
  set_ongoingActivities
    (List.filter (fun a => negb (ref_eqb (act_ref a) r && String.eqb (activityId a) activity)))
    db.

(** INSERT INTO deferredEvents (machineId, chartId, eventId, eventTo, event,
    timestamp, delay, due) VALUES (..., transaction_timestamp(),
    :delay::bigint, transaction_timestamp() + make_interval(secs =>
    :delay::bigint / 1000)) RETURNING ...; [now] is the transaction
    timestamp.  The division is the integer division of two bigints.  The
    column list has no [lock]: whatever [lock] the argument carries, the
    row is stored, and returned, with the column's default, NULL.  The
    delay is an integer that fits the [bigint] cast. *)
Definition insertDeferredEvent (now : Z) (r : ChartReference) (eid : EventIdent)
    (target : option EventTarget) (payload : string) (dly : Z) (lck : option string)
    (db : Db) : Db * option PersistedDeferredEvent :=
  let row := mkDeferred (deferredEventSeq db) r eid target payload now dly
                        (now + 1000 * Z.quot dly 1000) None in
  (mkDb (instances db) (charts db) (ongoingActivities db)
        (deferredEvents db ++ [row]) (deferredEventSeq db + 1),
   Some row).

(** [deferEvent]: one transaction around [insertDeferredEvent]; throws when
    nothing was inserted.  The caller has already chosen the event id. *)
Definition deferEvent (now : Z) (r : ChartReference) (eid : EventIdent)
    (target : option EventTarget) (payload : string) (dly : Z) (lck : option string)
    (db : Db) : Db * Outcome PersistedDeferredEvent :=
  withTransaction
    (fun connection =>
       match insertDeferredEvent now r eid target payload dly lck connection with
       | (c1, Some insertedEventRow) => (c1, Returned insertedEventRow)
       | (c1, None) => (c1, Thrown "Failed to insert deferred event")
       end)
    db.

(** DELETE FROM deferredEvents WHERE id = $1; returns the row count. *)
Definition deleteDeferredEvent (i : Z) (db : Db) : Db * nat :=
  let kept := List.filter (fun e => negb (Z.eqb (id e) i)) (deferredEvents db) in
  (set_deferredEvents (fun _ => kept) db, length (deferredEvents db) - length kept).

Definition removeDeferredEvent (row : PersistedDeferredEvent) (db : Db) : Db :=
  fst (deleteDeferredEvent (id row) db).

(** UPDATE deferredEvents SET lock = NULL *)
Definition unmarkAllDeferredEventsForProcessing (db : Db) : Db :=
  set_deferredEvents
    (List.map (fun e => mkDeferred (id e) (ref e) (eventId e) (eventTo e) (event e)
                                   (timestamp e) (delay e) (due e) None)) db.

Definition releaseAllDeferredEvents (db : Db) : Db :=
  unmarkAllDeferredEventsForProcessing db.

(** ORDER BY due ASC, id ASC *)
Definition dueIdLeb (a b : PersistedDeferredEvent) : bool :=
  Z.ltb (due a) (due b) || (Z.eqb (due a) (due b) && Z.leb (id a) (id b)).

Fixpoint insertByDueId (e : PersistedDeferredEvent) (l : list PersistedDeferredEvent)
  : list PersistedDeferredEvent :=
  match l with
  | [] => [e]
  | x :: rest => if dueIdLeb e x then e :: l else x :: insertByDueId e rest
  end.

Definition orderByDueId (l : list PersistedDeferredEvent) : list PersistedDeferredEvent :=
  fold_right insertByDueId [] l.

Definition isUnlocked (e : PersistedDeferredEvent) : bool :=
  match lock e with None => true | Some _ => false end.

(** WITH updated AS (UPDATE deferredEvents SET lock = $3 WHERE id IN
    (SELECT id FROM deferredEvents WHERE due < transaction_timestamp() +
    make_interval(secs => $1::bigint / 1000) AND lock IS NULL
    ORDER BY due ASC, id ASC LIMIT $2) RETURNING * )
    SELECT ... FROM updated ORDER BY due ASC, id ASC

    The statement as it runs for a look-ahead and a batch size that are
    integers from 0 to [Number.MAX_SAFE_INTEGER].  PostgreSQL refuses a
    negative LIMIT, and a parameter that does not fit its [bigint] cast,
    with an error; those cases are left out here: the deferred-event
    manager passes its resolved options, a batch size of at least 1 and a
    look-ahead of at least 50. *)
Definition readDeferredEventRowBatch (now : Z) (self : string) (lookAhead batchSize : Z)
    (db : Db) : Db * list PersistedDeferredEvent :=
  let horizon := (now + 1000 * Z.quot lookAhead 1000)%Z in
  let selected :=
    firstn (Z.to_nat batchSize)
      (orderByDueId
         (List.filter (fun e => Z.ltb (due e) horizon && isUnlocked e) (deferredEvents db))) in
  let isSelected e := existsb (fun s => Z.eqb (id s) (id e)) selected in
  let take e := mkDeferred (id e) (ref e) (eventId e) (eventTo e) (event e)
                           (timestamp e) (delay e) (due e) (Some self) in
  (set_deferredEvents (List.map (fun e => if isSelected e then take e else e)) db,
   List.map take selected).

Definition takeUpcomingDeferredEvents (now : Z) (self : string) (lookAhead batchSize : Z)
    (db : Db) : Db * list PersistedDeferredEvent :=
  readDeferredEventRowBatch now self lookAhead batchSize db.

(** *** Charts: insert, read, delete

    The table [charts] has the primary key [(machineId, chartId)], and the
    column [paused] defaults to false (migration, src/unnamed/part_016). *)

(** INSERT INTO charts (ownerId, machineId, chartId, parentMachineId,
    parentChartId, state) VALUES (...); the primary key rejects a second
    row for the same chart, and the statement fails. *)
Definition insertChart (instanceId : string) (r : ChartReference)
    (parentRef : option ChartReference) (serializedState : string) (db : Db)
  : Db * Outcome unit :=
  if existsb (fun c => ref_eqb (chart_ref c) r) (charts db)
  then (db, Thrown "duplicate key value violates unique constraint charts_pkey")
  else
    (set_charts
       (fun l => l ++ [mkChart (Some instanceId) (machineId r) (chartId r)
                               (option_map machineId parentRef)
                               (option_map chartId parentRef)
                               serializedState false]) db,
     Returned tt).

(** [createChart(instanceId, ref, state, parentRef)] of the abstract adapter. *)
Definition createChart (instanceId : string) (r : ChartReference)
    (serializedState : string) (parentRef : option ChartReference) (db : Db)
  : Db * Outcome unit :=
  insertChart instanceId r parentRef serializedState db.

(** [PersistedChart]: a row of [charts] as [parseSqlChartRow] returns it.
    The parent reference keeps [parentMachineId] as the column has it. *)
Record PersistedChart := mkPersistedChart {
  pc_ownerId : option string;
  pc_ref : ChartReference;
  pc_parentRef : option (option string * string);
  pc_state : string;
  pc_paused : bool
}.

(** [parentRef: row.parentChartId ? {...} : null]: NULL and the empty string
    both give [null]. *)
Definition parseSqlChartRow (row : ChartRow) : PersistedChart :=
  mkPersistedChart (ownerId row) (chart_ref row)
    (match parentChartId row with
     | Some (String c rest) => Some (parentMachineId row, String c rest)
     | _ => None
     end)
    (state row) (paused row).

(** SELECT * FROM charts WHERE machineId = :machineId AND chartId = :chartId;
    [null] without a row, else the first row. *)
Definition readChart (r : ChartReference) (db : Db) : option PersistedChart :=
  option_map parseSqlChartRow
    (List.find (fun c => ref_eqb (chart_ref c) r) (charts db)).

(** [loadChart]: [readChart], then [State.create(chartRow.state)] with no
    test of [chartRow]: reading [state] of [null] is a TypeError.  The state
    is the configuration read from the row. *)
Definition loadChart (r : ChartReference) (db : Db)
  : Outcome (ChartReference * option (option string * string) * string) :=
  match readChart r db with
  | None => Thrown "TypeError: Cannot read properties of null (reading 'state')"
  | Some chartRow => Returned (pc_ref chartRow, pc_parentRef chartRow, pc_state chartRow)
  end.

(** DELETE FROM charts WHERE machineId = :machineId AND chartId = :chartId;
    returns the row count. *)
Definition deleteChart (r : ChartReference) (db : Db) : Db * nat :=
  let kept := List.filter (fun c => negb (ref_eqb (chart_ref c) r)) (charts db) in
  (set_charts (fun _ => kept) db, length (charts db) - length kept).

(** DELETE FROM deferredEvents WHERE machineId = :machineId AND
    chartId = :chartId; returns the row count. *)
Definition deleteAllDeferredEvents (r : ChartReference) (db : Db) : Db * nat :=
  let kept := List.filter (fun e => negb (ref_eqb (ref e) r)) (deferredEvents db) in
  (set_deferredEvents (fun _ => kept) db, length (deferredEvents db) - length kept).

(** SELECT 1 FROM ongoingActivities WHERE machineId = .. AND chartId = ..
    AND activityId = ..; [rows.length > 0] *)
Definition isActivityRegistered (r : ChartReference) (activity : string) (db : Db) : bool :=
  existsb (fun a => ref_eqb (act_ref a) r && String.eqb (activityId a) activity)
          (ongoingActivities db).

(** *** External identifiers (table [externalId]) *)

Record ExternalIdRow := mkExternalId {
  x_machineId : string;
  x_chartId : string;
  x_key : string;
  x_value : string
}.

Definition x_ref (x : ExternalIdRow) : ChartReference :=
  mkRef (x_machineId x) (x_chartId x).

(** SELECT value FROM externalId WHERE machineId = .. AND chartId = .. AND
    key = .. *)
Definition getExternalIdentifiers (key : string) (r : ChartReference)
    (xs : list ExternalIdRow) : list string :=
  List.map x_value
    (List.filter (fun x => ref_eqb (x_ref x) r && String.eqb (x_key x) key) xs).

(** SELECT machineId, chartId FROM externalId WHERE key = $1 AND value = $2;
    [rows[0] ?? null] *)
Definition getChartByExternalIdentifier (key value : string) (xs : list ExternalIdRow)
  : option ChartReference :=
  option_map x_ref
    (List.find (fun x => String.eqb (x_key x) key && String.eqb (x_value x) value) xs).

(** DELETE FROM externalId WHERE key = $1 AND value = $2 *)
Definition dropExternalId (key value : string) (xs : list ExternalIdRow)
  : list ExternalIdRow * nat :=
  let kept := List.filter
                (fun x => negb (String.eqb (x_key x) key && String.eqb (x_value x) value)) xs in
  (kept, length xs - length kept).

(** DELETE FROM externalId WHERE machineId = $1 AND chartId = $2 *)
Definition deleteExternalIdentifiers (r : ChartReference) (xs : list ExternalIdRow)
  : list ExternalIdRow * nat :=
  let kept := List.filter (fun x => negb (ref_eqb (x_ref x) r)) xs in
  (kept, length xs - length kept).

(** [destroyChart] as the PostgreSQL adapter overrides it: delete the chart;
    when no row was deleted, return; otherwise delete the deferred events of
    the chart and call [deleteExternalIdentifiers(ref)].  That last call is
    made without [await]: the method returns while the DELETE on
    [externalId] has not run yet.  The result therefore carries, next to
    the two tables, the references whose external identifiers are still to
    be deleted. *)
Definition destroyChart (r : ChartReference) (s : Db * list ExternalIdRow)
  : Db * list ExternalIdRow * list ChartReference :=
  let '(db, xs) := s in
  let '(db1, deletedRecords) := deleteChart r db in
  if Nat.ltb deletedRecords 1 then (db1, xs, [])
  else
    let '(db2, _) := deleteAllDeferredEvents r db1 in
    (db2, xs, [r]).

(** The table [externalId] once the pending DELETE statements have run. *)
Definition settleExternalIdentifiers (pending : list ChartReference)
    (xs : list ExternalIdRow) : list ExternalIdRow :=
  fold_left (fun acc r => fst (deleteExternalIdentifiers r acc)) pending xs.

(** *** Death notification

    [onDeathNote] creates a closure with two variables, [cancelled] and
    [timer], and an interval of 500 ms.  [timer] tells whether the variable
    still holds the handle, [armed] whether the interval is still scheduled
    in the event loop, [callbackCalls] counts the calls of [callback]. *)
Record DeathNoteListener := mkListener {
  cancelled : bool;
  timer : bool;
  armed : bool;
  callbackCalls : nat
}.

Definition onDeathNote : DeathNoteListener := mkListener false true true 0.

(** SELECT COUNT( * ) AS dying FROM instances WHERE instanceId = :instanceId
    AND dying = TRUE *)
Definition countDying (self : string) (db : Db) : nat :=
  length (List.filter (fun i => String.eqb (instanceId i) self && dying i) (instances db)).

(** One run of the interval's handler, with [db] the database the query
    sees.  The statements are those of the source, in order: in the dying
    branch [cancelled] is set before it is tested. *)
Definition onDeathNote_poll (self : string) (db : Db) (l : DeathNoteListener)
  : DeathNoteListener :=
  if negb (armed l) then l
  else if cancelled l then
    (if timer l then mkListener (cancelled l) false false (callbackCalls l) else l)
  else
    let isDying := Nat.ltb 0 (countDying self db) in
    if isDying then
      let l1 := mkListener true (timer l) (armed l) (callbackCalls l) in
      let l2 := if timer l1 then mkListener (cancelled l1) false false (callbackCalls l1)
                else l1 in
      if negb (cancelled l2)
      then mkListener (cancelled l2) (timer l2) (armed l2) (S (callbackCalls l2))
      else l2
    else l.

(** The function [onDeathNote] returns: cancel the listener. *)
Definition onDeathNote_cancel (l : DeathNoteListener) : DeathNoteListener :=
  if timer l then mkListener true (timer l) false (callbackCalls l)
  else mkListener true (timer l) (armed l) (callbackCalls l).

Inductive DeathNoteEvent :=
| Poll (db : Db)
| Cancel.

Definition onDeathNote_step (self : string) (l : DeathNoteListener) (e : DeathNoteEvent)
  : DeathNoteListener :=
  match e with
  | Poll db => onDeathNote_poll self db l
  | Cancel => onDeathNote_cancel l
  end.

Definition onDeathNote_run (self : string) (events : list DeathNoteEvent)
  : DeathNoteListener :=
  fold_left (onDeathNote_step self) events onDeathNote.

End Persistence.

(** ** JavaScript strings

    [String.prototype.split] with a one-character separator, [join] and
    [startsWith]. *)

Module JsString.

Fixpoint split (sep : ascii) (s : string) : list string :=
  match s with
  | EmptyString => [EmptyString]
  | String c rest =>
      if Ascii.eqb c sep then EmptyString :: split sep rest
      else match split sep rest with
           | [] => [String c EmptyString]
           | seg :: segs => String c seg :: segs
           end
  end.

Fixpoint join (sep : string) (parts : list string) : string :=
  match parts with
  | [] => EmptyString
  | [p] => p
  | p :: rest => String.append p (String.append sep (join sep rest))
  end.

Definition startsWith (s : string) (c : ascii) : bool :=
  match s with
  | String d _ => Ascii.eqb d c
  | EmptyString => false
  end.

(** [Boolean(s)] for a string: it is not empty. *)
Definition truthy (s : string) : bool :=
  match s with EmptyString => false | String _ _ => true end.

End JsString.

(** ** JavaScript arrays

    [Array.prototype.findIndex] and [Array.prototype.splice] as ECMAScript
    defines them; an array is the list of its elements. *)

Module JsArray.

Local Open Scope Z_scope.

Fixpoint findIndexFrom {A} (p : A -> bool) (l : list A) (i : Z) : Z :=
  match l with
  | [] => -1
  | x :: rest => if p x then i else findIndexFrom p rest (i + 1)
  end.

(** [l.findIndex(p)]: index of the first element satisfying [p], or -1. *)
Definition findIndex {A} (p : A -> bool) (l : list A) : Z := findIndexFrom p l 0.

(** Relative start of [splice]: a negative [start] counts from the end. *)
Definition actualStart (len start : Z) : Z :=
  if start <? 0 then Z.max (len + start) 0 else Z.min start len.

(** [l.splice(start, deleteCount, ...items)]: the array afterwards and the
    array of removed elements. *)
Definition splice {A} (start deleteCount : Z) (items : list A) (l : list A)
  : list A * list A :=
  let len := Z.of_nat (length l) in
  let from := actualStart len start in
  let count := Z.min (Z.max deleteCount 0) (len - from) in
  let k := Z.to_nat from in
  let d := Z.to_nat count in
  (firstn k l ++ items ++ skipn (k + d) l, firstn d (skipn k l)).

End JsArray.

(** ** The deferred-event manager (XJogDeferredEventManager) *)

Module DeferredEventManager.

Local Open Scope Z_scope.

Record Options := mkOptions { batchSize : Z; interval : Z; lookAhead : Z }.

(** The manager's fields.  A timer handle is the time at which it fires. *)
Record Manager := mkManager {
  nextReadAt : Z;
  deferredEventHandlerTimer : option Z;
  deferredEvents : list Persistence.PersistedDeferredEvent;
  deferredEventTimers : gmap Z Z
}.

Definition MAX_SAFE_INTEGER : Z := 9007199254740991.

Definition initial : Manager := mkManager MAX_SAFE_INTEGER None [] ∅.

Definition rescheduleNextRead (at_ dly now : Z) (m : Manager) : Manager :=
  mkManager at_ (Some (now + dly)) (deferredEvents m) (deferredEventTimers m).

Definition rescheduleNextReadAfter (nextReadDelay now : Z) (m : Manager) : Manager :=
  rescheduleNextRead (now + nextReadDelay) nextReadDelay now m.

Definition rescheduleNextReadAt (dueAt now : Z) (m : Manager) : Manager :=
  rescheduleNextRead dueAt (Z.max (dueAt - now) 0) now m.

(** The predicate of [schedule]'s [findIndex]: the existing event is due
    later, or due at the same time with a greater id. *)
Definition isLater (e existing : Persistence.PersistedDeferredEvent) : bool :=
  (Persistence.due existing >? Persistence.due e)
  || ((Persistence.due existing =? Persistence.due e)
      && (Persistence.id existing >? Persistence.id e)).

(** [schedule]: arm the event's timer, store the handle under the row id and
    splice the event into the list at the index [findIndex] returned. *)
Definition schedule (now : Z) (e : Persistence.PersistedDeferredEvent) (m : Manager)
  : Manager :=
  let dly := Persistence.due e - now in
  let dly := if dly <? 0 then 0 else dly in
  let timers := <[Persistence.id e := now + dly]> (deferredEventTimers m) in
  let indexOfLaterDeferredEvent := JsArray.findIndex (isLater e) (deferredEvents m) in
  mkManager (nextReadAt m) (deferredEventHandlerTimer m)
            (fst (JsArray.splice indexOfLaterDeferredEvent 0 [e] (deferredEvents m)))
            timers.

(** [unschedule]: find the event by its [eventId]; when found, remove it
    from the list and clear its timer. *)
Definition unschedule (eid : Persistence.EventIdent) (m : Manager)
  : Manager * option Persistence.PersistedDeferredEvent :=
  let deferredEventIndex :=
    JsArray.findIndex (fun candidate =>
                         Persistence.EventIdent_eqb (Persistence.eventId candidate) eid)
                      (deferredEvents m) in
  if deferredEventIndex =? -1 then (m, None)
  else
    let '(events, removed) := JsArray.splice deferredEventIndex 1 [] (deferredEvents m) in
    match removed with
    | e :: _ =>
        (mkManager (nextReadAt m) (deferredEventHandlerTimer m) events
                   (delete (Persistence.id e) (deferredEventTimers m)),
         Some e)
    | [] => (mkManager (nextReadAt m) (deferredEventHandlerTimer m) events
                       (deferredEventTimers m), None)
    end.

(** The clean-up at the end of an event's timer callback, after the event
    was sent: remove it from the list (by row id) and drop the handle. *)
Definition cleanUpAfterSending (e : Persistence.PersistedDeferredEvent) (m : Manager)
  : Manager :=
  let eventIndex :=
    JsArray.findIndex (fun candidate => Persistence.id candidate =? Persistence.id e)
                      (deferredEvents m) in
  mkManager (nextReadAt m) (deferredEventHandlerTimer m)
            (fst (JsArray.splice eventIndex 1 [] (deferredEvents m)))
            (delete (Persistence.id e) (deferredEventTimers m)).

(** [cancel]: unschedule, then delete the row when the event was scheduled. *)
Definition cancel (eid : Persistence.EventIdent) (m : Manager) (db : Persistence.Db)
  : Manager * Persistence.Db :=
  match unschedule eid m with
  | (m', Some e) => (m', Persistence.removeDeferredEvent e db)
  | (m', None) => (m', db)
  end.

(** [releaseAll]: clear every timer and the list, release the locks. *)
Definition releaseAll (m : Manager) (db : Persistence.Db) : Manager * Persistence.Db :=
  (mkManager (nextReadAt m) None [] ∅, Persistence.releaseAllDeferredEvents db).

(** [defer]: persist the event with no lock; when the next read is not
    earlier than the due time, reschedule the read. *)
Definition defer (now : Z) (r : ChartReference) (eid : Persistence.EventIdent)
    (target : option Persistence.EventTarget) (payload : string) (dly : Z)
    (m : Manager) (db : Persistence.Db)
  : Manager * Persistence.Db * Outcome unit :=
  let dueTime := now + dly in
  match Persistence.deferEvent now r eid target payload dly None db with
  | (db', Thrown err) => (m, db', Thrown err)
  | (db', Returned _) =>
      if nextReadAt m >=? dueTime then
        match last (deferredEvents m) with
        | None => (rescheduleNextReadAt dueTime now m, db', Returned tt)
        | Some lastEvent =>
            (rescheduleNextReadAt (Z.min dueTime (Persistence.due lastEvent)) now m,
             db', Returned tt)
        end
      else (m, db', Returned tt)
  end.

(** The order of the in-memory list: by [due], then by [id]. *)
Definition dueIdLe := Persistence.dueIdLeb.

Fixpoint sortedByDueId (l : list Persistence.PersistedDeferredEvent) : bool :=
  match l with
  | [] => true
  | a :: rest =>
      match rest with
      | [] => true
      | b :: _ => dueIdLe a b && sortedByDueId rest
      end
  end.

(** The events handed to [schedule] one after the other, as
    [scheduleUpcoming] does with a batch. *)
Definition scheduleAll (now : Z) (batch : list Persistence.PersistedDeferredEvent)
    (m : Manager) : Manager :=
  fold_left (fun acc e => schedule now e acc) batch m.

(** [scheduleUpcoming]: the batch cycle.  Nothing is scheduled when the
    engine is dying; otherwise a batch is reserved, each event of it is
    scheduled, and the next read is planned. *)
Definition scheduleUpcoming (dying : bool) (self : string) (opts : Options) (now : Z)
    (m : Manager) (db : Persistence.Db) : Manager * Persistence.Db :=
  let m := mkManager (nextReadAt m) None (deferredEvents m) (deferredEventTimers m) in
  if dying then (m, db)
  else
    let '(db, batch) :=
      Persistence.takeUpcomingDeferredEvents now self (lookAhead opts) (batchSize opts) db in
    let m := scheduleAll now batch m in
    if Z.of_nat (length batch) =? batchSize opts then
      match last batch with
      | Some lastDeferredEvent =>
          (rescheduleNextReadAt (Persistence.due lastDeferredEvent) now m, db)
      | None => (rescheduleNextReadAfter 0 now m, db)
      end
    else (rescheduleNextReadAfter (interval opts) now m, db).

End DeferredEventManager.

(** ** JSON values and JSON Patch (RFC 6901, RFC 6902)

    The values the journal diffs.  Numbers are integers here; an object is
    the list of its members in insertion order. *)

Module JsonPatch.

Local Unset Elimination Schemes.
Inductive Json :=
| JNull
| JBool (b : bool)
| JNumber (n : Z)
| JString (s : string)
| JArray (items : list Json)
| JObject (members : list (string * Json)).
Local Set Elimination Schemes.

Fixpoint lookupMember (k : string) (members : list (string * Json)) : option Json :=
  match members with
  | [] => None
  | (k', v) :: rest => if String.eqb k' k then Some v else lookupMember k rest
  end.

(** Equality of JSON values; the order of an object's members is irrelevant. *)
Fixpoint json_eqb (a b : Json) {struct a} : bool :=
  match a, b with
  | JNull, JNull => true
  | JBool x, JBool y => Bool.eqb x y
  | JNumber x, JNumber y => Z.eqb x y
  | JString x, JString y => String.eqb x y
  | JArray xs, JArray ys =>
      (fix items (xs ys : list Json) {struct xs} : bool :=
         match xs, ys with
         | [], [] => true
         | x :: xs', y :: ys' => json_eqb x y && items xs' ys'
         | _, _ => false
         end) xs ys
  | JObject ms, JObject ns =>
      Nat.eqb (length ms) (length ns)
      && (fix members (ms : list (string * Json)) {struct ms} : bool :=
            match ms with
            | [] => true
            | (k, v) :: ms' =>
                match lookupMember k ns with
                | Some w => json_eqb v w && members ms'
                | None => false
                end
            end) ms
  | _, _ => false
  end.

(** The six operations of RFC 6902, as the [Operation] type of the rfc6902
    package has them.  A [value] or [from] that is absent is [None]. *)
Inductive OpKind := OpAdd | OpRemove | OpReplace | OpMove | OpCopy | OpTest.

Record Operation := mkOp {
  op : OpKind;
  path : string;
  value : option Json;
  from : option string
}.

Definition isReplace (k : OpKind) : bool :=
  match k with OpReplace => true | _ => false end.

(** *** JSON Pointer *)

(** [~1] stands for [/] and [~0] for [~]. *)
Fixpoint unescapeToken (s : string) : string :=
  match s with
  | EmptyString => EmptyString
  | String c rest =>
      if Ascii.eqb c "~"%char then
        match rest with
        | String d rest' =>
            if Ascii.eqb d "1"%char then String "/"%char (unescapeToken rest')
            else if Ascii.eqb d "0"%char then String "~"%char (unescapeToken rest')
            else String c (unescapeToken rest)
        | EmptyString => String c EmptyString
        end
      else String c (unescapeToken rest)
  end.

(** The reference tokens of a pointer: the empty pointer is the root, any
    other pointer starts with [/]. *)
Definition parsePointer (p : string) : option (list string) :=
  match p with
  | EmptyString => Some []
  | String c rest =>
      if Ascii.eqb c "/"%char then Some (List.map unescapeToken (JsString.split "/"%char rest))
      else None
  end.

Definition digitValue (c : ascii) : option nat :=
  let n := nat_of_ascii c in
  if Nat.leb 48 n && Nat.leb n 57 then Some (n - 48)%nat else None.

Fixpoint parseDigits (s : string) (acc : nat) : option nat :=
  match s with
  | EmptyString => Some acc
  | String c rest =>
      match digitValue c with
      | Some d => parseDigits rest (10 * acc + d)%nat
      | None => None
      end
  end.

(** An array index: [0], or digits without a leading zero. *)
Definition parseIndex (s : string) : option nat :=
  match s with
  | EmptyString => None
  | String c rest =>
      if Ascii.eqb c "0"%char
      then (match rest with EmptyString => Some 0%nat | _ => None end)
      else parseDigits s 0
  end.

(** *** Applying a patch (RFC 6902, section 4) *)

Definition getChild (k : string) (doc : Json) : option Json :=
  match doc with
  | JObject ms => lookupMember k ms
  | JArray items => match parseIndex k with
                    | Some i => nth_error items i
                    | None => None
                    end
  | _ => None
  end.

Fixpoint replaceMember (k : string) (v : Json) (ms : list (string * Json))
  : list (string * Json) :=
  match ms with
  | [] => []
  | (k', w) :: rest =>
      if String.eqb k' k then (k', v) :: rest else (k', w) :: replaceMember k v rest
  end.

Definition removeMember (k : string) (ms : list (string * Json)) : list (string * Json) :=
  List.filter (fun kv => negb (String.eqb (fst kv) k)) ms.

Definition hasMember (k : string) (ms : list (string * Json)) : bool :=
  match lookupMember k ms with Some _ => true | None => false end.

Definition replaceItem (i : nat) (v : Json) (items : list Json) : list Json :=
  firstn i items ++ v :: skipn (S i) items.

(** Replace the existing child [k] of [doc]. *)
Definition setChild (k : string) (v : Json) (doc : Json) : option Json :=
  match doc with
  | JObject ms => if hasMember k ms then Some (JObject (replaceMember k v ms)) else None
  | JArray items =>
      match parseIndex k with
      | Some i => if Nat.ltb i (length items) then Some (JArray (replaceItem i v items))
                  else None
      | None => None
      end
  | _ => None
  end.

(** [add] at the last token: set the member, or insert before index [k]
    ([-] appends). *)
Definition addChild (v : Json) (k : string) (doc : Json) : option Json :=
  match doc with
  | JObject ms =>
      Some (JObject (if hasMember k ms then replaceMember k v ms else ms ++ [(k, v)]))
  | JArray items =>
      if String.eqb k "-" then Some (JArray (items ++ [v]))
      else match parseIndex k with
           | Some i => if Nat.leb i (length items)
                       then Some (JArray (firstn i items ++ v :: skipn i items))
                       else None
           | None => None
           end
  | _ => None
  end.

(** [remove] at the last token: the target must exist. *)
Definition removeChild (k : string) (doc : Json) : option Json :=
  match doc with
  | JObject ms => if hasMember k ms then Some (JObject (removeMember k ms)) else None
  | JArray items =>
      match parseIndex k with
      | Some i => if Nat.ltb i (length items)
                  then Some (JArray (firstn i items ++ skipn (S i) items))
                  else None
      | None => None
      end
  | _ => None
  end.

(** Walk down to the parent of the target and change it there. *)
Fixpoint modifyAt (tokens : list string) (atParent : string -> Json -> option Json)
    (doc : Json) : option Json :=
  match tokens with
  | [] => None
  | k :: rest =>
      match rest with
      | [] => atParent k doc
      | _ :: _ =>
          match getChild k doc with
          | Some child =>
              match modifyAt rest atParent child with
              | Some child' => setChild k child' doc
              | None => None
              end
          | None => None
          end
      end
  end.

Fixpoint getAt (tokens : list string) (doc : Json) : option Json :=
  match tokens with
  | [] => Some doc
  | k :: rest => match getChild k doc with
                 | Some child => getAt rest child
                 | None => None
                 end
  end.

Definition addAt (tokens : list string) (v : Json) (doc : Json) : option Json :=
  match tokens with
  | [] => Some v
  | _ => modifyAt tokens (addChild v) doc
  end.

Definition removeAt (tokens : list string) (doc : Json) : option Json :=
  modifyAt tokens removeChild doc.

Definition replaceAt (tokens : list string) (v : Json) (doc : Json) : option Json :=
  match tokens with
  | [] => Some v
  | _ => modifyAt tokens (fun k parent => setChild k v parent) doc
  end.

Definition valueOrNull (v : option Json) : Json :=
  match v with Some j => j | None => JNull end.

(** One operation; [None] when the operation fails. *)
Definition applyOperation (o : Operation) (doc : Json) : option Json :=
  match parsePointer (path o) with
  | None => None
  | Some tokens =>
      match op o with
      | OpAdd => addAt tokens (valueOrNull (value o)) doc
      | OpRemove => removeAt tokens doc
      | OpReplace => replaceAt tokens (valueOrNull (value o)) doc
      | OpTest =>
          match getAt tokens doc with
          | Some found => if json_eqb found (valueOrNull (value o)) then Some doc else None
          | None => None
          end
      | OpCopy =>
          match from o with
          | Some f =>
              match parsePointer f with
              | Some fromTokens =>
                  match getAt fromTokens doc with
                  | Some found => addAt tokens found doc
                  | None => None
                  end
              | None => None
              end
          | None => None
          end
      | OpMove =>
          match from o with
          | Some f =>
              match parsePointer f with
              | Some fromTokens =>
                  match getAt fromTokens doc with
                  | Some found =>
                      match removeAt fromTokens doc with
                      | Some doc' => addAt tokens found doc'
                      | None => None
                      end
                  | None => None
                  end
              | None => None
              end
          | None => None
          end
      end
  end.

(** The document a patch produces: the operations applied in order. *)
Fixpoint patched (doc : Json) (patch : list Operation) : option Json :=
  match patch with
  | [] => Some doc
  | o :: rest => match applyOperation o doc with
                 | Some doc' => patched doc' rest
                 | None => None
                 end
  end.

(** *** [nullSafeApplyJsonDiff] (packages/util)

    [applyPatch] is the rfc6902 function, which changes its first argument
    in place: here it maps the document to the document afterwards. *)

Definition isRootReplace (patch : list Operation) : bool :=
  match patch with
  | [o] => isReplace (op o) && String.eqb (path o) EmptyString
  | _ => false
  end.

(** [typeof input === 'string' || typeof input === 'number' ||
    input === null || input === undefined] *)
Definition isStringNumberOrNull (input : Json) : bool :=
  match input with
  | JString _ | JNumber _ | JNull => true
  | _ => false
  end.

Definition nullSafeApplyJsonDiff (applyPatch : Json -> list Operation -> Json)
    (input : Json) (patch : list Operation) : Outcome Json :=
  if isRootReplace patch then
    match patch with
    | o :: _ => Returned (valueOrNull (value o))
    | [] => Returned JNull
    end
  else if isStringNumberOrNull input then
    Thrown "Complex patch but input is not an object"
  else
    let output := input in
    Returned (applyPatch output patch).

End JsonPatch.

(** ** The journal store (JournalPersistenceAdapter and its PostgreSQL
    implementation) *)

Module Journal.

Import JsonPatch.
Local Open Scope Z_scope.

(** Row of [journalEntries].  [insertEntry] writes NULL into [state] and
    [context]. *)
Record JournalRow := mkJournalRow {
  j_id : Z;
  j_timestamp : Z;
  j_machineId : string;
  j_chartId : string;
  j_event : option Json;
  j_state : option Json;
  j_context : option Json;
  stateDelta : list Operation;
  contextDelta : list Operation
}.

(** Row of [fullJournalStates], keyed by [(machineId, chartId)]. *)
Record FullStateRow := mkFullStateRow {
  f_id : Z;
  f_created : Z;
  f_timestamp : Z;
  f_ownerId : string;
  f_parentMachineId : option string;
  f_parentChartId : option string;
  f_event : option Json;
  f_state : option Json;
  f_context : option Json
}.

(** The argument of [updateFullState] ([FullStateEntry] without [created]);
    a [null] event, state or context is [JNull]. *)
Record FullStateEntry := mkFullStateEntry {
  id : Z;
  timestamp : Z;
  ownerId : string;
  ref : ChartReference;
  parentRef : option ChartReference;
  event : Json;
  state : Json;
  context : Json
}.

Record Store := mkStore {
  journalEntries : list JournalRow;
  (** next value of the [journalEntries.id] SERIAL sequence *)
  journalSeq : Z;
  fullJournalStates : gmap (string * string) FullStateRow;
  (** payloads sent on the channel [new-journal-entry] *)
  notifications : list (Z * ChartReference)
}.

(** JavaScript truthiness of a JSON value: [x ? a : b]. *)
Definition truthy (j : Json) : bool :=
  match j with
  | JNull => false
  | JBool b => b
  | JNumber n => negb (n =? 0)
  | JString s => negb (String.eqb s EmptyString)
  | JArray _ | JObject _ => true
  end.

(** [x ? Buffer.from(JSON.stringify(x)) : null] *)
Definition bufferOrNull (j : Json) : option Json :=
  if truthy j then Some j else None.

(** INSERT INTO journalEntries (...) VALUES (:machineId, :chartId, :event,
    NULL, NULL, :stateDelta, :contextDelta) RETURNING id, timestamp *)
Definition insertEntry (now : Z) (r : ChartReference) (ev : Json)
    (sDelta cDelta : list Operation) (st : Store) : Store * Outcome (Z * Z) :=
  let row := mkJournalRow (journalSeq st) now (machineId r) (chartId r)
                          (bufferOrNull ev) None None sDelta cDelta in
  (mkStore (journalEntries st ++ [row]) (journalSeq st + 1)
           (fullJournalStates st) (notifications st),
   Returned (journalSeq st, now)).

(** INSERT INTO fullJournalStates (...) VALUES (...)
    ON CONFLICT (machineId, chartId) DO UPDATE SET id = :id, timestamp = ..,
    event = :event, state = :state, context = :context
    WHERE fullJournalStates.id < :id;
    the method throws when no row was inserted or updated. *)
Definition updateFullState (entry : FullStateEntry) (st : Store) : Store * Outcome unit :=
  let key := (machineId (ref entry), chartId (ref entry)) in
  match fullJournalStates st !! key with
  | None =>
      let row := mkFullStateRow (id entry) (timestamp entry) (timestamp entry)
                   (ownerId entry)
                   (option_map machineId (parentRef entry))
                   (option_map chartId (parentRef entry))
                   (bufferOrNull (event entry)) (bufferOrNull (state entry))
                   (bufferOrNull (context entry)) in
      (mkStore (journalEntries st) (journalSeq st)
               (<[key := row]> (fullJournalStates st)) (notifications st),
       Returned tt)
  | Some existing =>
      if f_id existing <? id entry then
        let row := mkFullStateRow (id entry) (f_created existing) (timestamp entry)
                     (f_ownerId existing)
                     (f_parentMachineId existing) (f_parentChartId existing)
                     (bufferOrNull (event entry)) (bufferOrNull (state entry))
                     (bufferOrNull (context entry)) in
        (mkStore (journalEntries st) (journalSeq st)
                 (<[key := row]> (fullJournalStates st)) (notifications st),
         Returned tt)
      else (st, Thrown "Failed to write journal full entry")
  end.

(** SELECT pg_notify('new-journal-entry', :payload) *)
Definition emitJournalEntryNotification (i : Z) (r : ChartReference) (st : Store) : Store :=
  mkStore (journalEntries st) (journalSeq st) (fullJournalStates st)
          (notifications st ++ [(i, r)]).

(** [record]: the two deltas are [createPatch(newState, oldState)] and
    [createPatch(newContext, oldContext)], with [createPatch] the function
    of the rfc6902 package; then the entry is inserted, the full state
    updated and the notification sent.  An exception of any step is
    rethrown after logging. *)
Definition record (createPatch : Json -> Json -> list Operation)
    (now : Z) (owner : string) (r : ChartReference) (parent : option ChartReference)
    (ev oldState oldContext newState newContext : Json) (st : Store)
  : Store * Outcome unit :=
  let sDelta := createPatch newState oldState in
  let cDelta := createPatch newContext oldContext in
  match insertEntry now r ev sDelta cDelta st with
  | (st1, Thrown e) => (st1, Thrown e)
  | (st1, Returned (i, ts)) =>
      match updateFullState (mkFullStateEntry i ts owner r parent ev newState newContext)
                            st1 with
      | (st2, Thrown e) => (st2, Thrown e)
      | (st2, Returned _) => (emitJournalEntryNotification i r st2, Returned tt)
      end
  end.

Definition emptyStore : Store := mkStore [] 1 ∅ [].

(** The id stored for a chart in [fullJournalStates], if any. *)
Definition storedId (st : Store) (r : ChartReference) : option Z :=
  f_id <$> (fullJournalStates st !! (machineId r, chartId r)).

(** *** Reading the journal (PostgresJournalPersistenceAdapter) *)

(** [JournalEntry] as [parseSqlJournalRow] builds it: a NULL column reads as
    [null]. *)
Record JournalEntry := mkJournalEntry {
  e_id : Z;
  e_timestamp : Z;
  e_ref : ChartReference;
  e_event : Json;
  e_state : Json;
  e_context : Json;
  e_stateDelta : list Operation;
  e_contextDelta : list Operation
}.

Definition jsonOrNull (column : option Json) : Json :=
  match column with Some j => j | None => JNull end.

Definition parseSqlJournalRow (row : JournalRow) : JournalEntry :=
  mkJournalEntry (j_id row) (j_timestamp row) (mkRef (j_machineId row) (j_chartId row))
                 (jsonOrNull (j_event row)) (jsonOrNull (j_state row))
                 (jsonOrNull (j_context row)) (stateDelta row) (contextDelta row).

(** SELECT ... FROM journalEntries WHERE id = :id *)
Definition readEntry (i : Z) (st : Store) : option JournalEntry :=
  option_map parseSqlJournalRow (List.find (fun row => j_id row =? i) (journalEntries st)).

Inductive SortOrder := ASC | DESC.

(** The object form of [JournalQuery]; an absent field is [None].  [limit]
    and [offset] are natural numbers. *)
Record JournalQueryFields := mkJournalQuery {
  q_ref : option ChartReference;
  q_afterId : option Z;
  q_afterAndIncludingId : option Z;
  q_beforeId : option Z;
  q_beforeAndIncludingId : option Z;
  q_updatedAfterAndIncluding : option Z;
  q_updatedBeforeAndIncluding : option Z;
  q_limit : option nat;
  q_offset : option nat;
  q_order : option SortOrder
}.

Inductive JournalQuery :=
| QueryRefs (refs : list ChartReference)
| QueryFields (fields : JournalQueryFields).

(** [if (query.bound) { if (fails) return false; }]: a bound that is absent
    or 0 is not truthy and is skipped. *)
Definition unlessTruthy (bound : option Z) (fails : Z -> bool) : bool :=
  match bound with
  | Some b => if b =? 0 then true else negb (fails b)
  | None => true
  end.

(** [journalFilterByQuery(query)(entry)]: the filter of the stream of new
    journal entries. *)
Definition journalFilterByQuery (query : option JournalQuery) (entry : JournalEntry) : bool :=
  match query with
  | None => true
  | Some (QueryRefs refs) =>
      existsb (fun candidate =>
                 String.eqb (machineId (e_ref entry)) (machineId candidate)
                 && String.eqb (chartId (e_ref entry)) (chartId candidate)) refs
  | Some (QueryFields q) =>
      match q_ref q with
      | Some r => negb (negb (String.eqb (machineId (e_ref entry)) (machineId r))
                        || negb (String.eqb (chartId (e_ref entry)) (chartId r)))
      | None => true
      end
      && unlessTruthy (q_afterId q) (fun b => e_id entry <=? b)
      && unlessTruthy (q_afterAndIncludingId q) (fun b => e_id entry <? b)
      && unlessTruthy (q_beforeId q) (fun b => e_id entry >=? b)
      && unlessTruthy (q_beforeAndIncludingId q) (fun b => e_id entry >? b)
      && unlessTruthy (q_updatedAfterAndIncluding q) (fun b => e_timestamp entry <? b)
      && unlessTruthy (q_updatedBeforeAndIncluding q) (fun b => e_timestamp entry >? b)
  end.

(** [(bound !== undefined ? ' AND ...' : '')]: a condition of the WHERE
    clause that is there whenever the field is. *)
Definition whenDefined (bound : option Z) (holds : Z -> bool) : bool :=
  match bound with
  | Some b => holds b
  | None => true
  end.

(** The WHERE clause that [queryEntries] builds for the object form. *)
Definition whereClause (q : JournalQueryFields) (row : JournalRow) : bool :=
  match q_ref q with
  | Some r => String.eqb (j_machineId row) (machineId r)
              && String.eqb (j_chartId row) (chartId r)
  | None => true
  end
  && whenDefined (q_afterId q) (fun b => j_id row >? b)
  && whenDefined (q_afterAndIncludingId q) (fun b => j_id row >=? b)
  && whenDefined (q_beforeId q) (fun b => j_id row <? b)
  && whenDefined (q_beforeAndIncludingId q) (fun b => j_id row <=? b)
  && whenDefined (q_updatedAfterAndIncluding q) (fun b => j_timestamp row >=? b)
  && whenDefined (q_updatedBeforeAndIncluding q) (fun b => j_timestamp row <=? b).

(** ORDER BY: insertion into a list ordered by [leb]. *)
Fixpoint insertOrdered {A} (leb : A -> A -> bool) (x : A) (l : list A) : list A :=
  match l with
  | [] => [x]
  | y :: rest => if leb x y then x :: l else y :: insertOrdered leb x rest
  end.

Definition orderBy {A} (leb : A -> A -> bool) (l : list A) : list A :=
  fold_right (insertOrdered leb) [] l.

(** ORDER BY id ASC | DESC *)
Definition idOrder (order : option SortOrder) (a b : JournalRow) : bool :=
  match order with
  | Some DESC => j_id b <=? j_id a
  | _ => j_id a <=? j_id b
  end.

Definition offsetAndLimit {A} (offset limit : option nat) (l : list A) : list A :=
  let l := match offset with Some n => skipn n l | None => l end in
  match limit with Some n => firstn n l | None => l end.

(** [queryEntries(query)].  For an array of references the statement joins
    the table with the references and has no ORDER BY: the rows come in
    table order here, each once for every occurrence of its reference in
    the array. *)
Definition queryEntries (query : JournalQuery) (st : Store) : list JournalEntry :=
  match query with
  | QueryRefs [] => []
  | QueryRefs refs =>
      List.map parseSqlJournalRow
        (flat_map (fun row =>
                     List.map (fun _ => row)
                       (List.filter (fun r => String.eqb (j_machineId row) (machineId r)
                                              && String.eqb (j_chartId row) (chartId r))
                                    refs))
                  (journalEntries st))
  | QueryFields q =>
      List.map parseSqlJournalRow
        (offsetAndLimit (q_offset q) (q_limit q)
           (orderBy (idOrder (q_order q))
              (List.filter (whereClause q) (journalEntries st))))
  end.

(** [FullStateEntry] as [parseSqlFullStateRow] builds it.  The SELECT list of
    the adapter has no [ownerId], so that field of the entry is undefined;
    the parent reference keeps [parentMachineId] as the column has it. *)
Record FullState := mkFullState {
  fs_id : Z;
  fs_created : Z;
  fs_timestamp : Z;
  fs_ownerId : option string;
  fs_ref : ChartReference;
  fs_parentRef : option (option string * string);
  fs_event : Json;
  fs_state : Json;
  fs_context : Json
}.

Definition parseSqlFullStateRow (key : string * string) (row : FullStateRow) : FullState :=
  mkFullState (f_id row) (f_created row) (f_timestamp row) None (mkRef (fst key) (snd key))
    (match f_parentChartId row with
     | Some (String c rest) => Some (f_parentMachineId row, String c rest)
     | _ => None
     end)
    (jsonOrNull (f_event row)) (jsonOrNull (f_state row)) (jsonOrNull (f_context row)).

(** SELECT ... FROM fullJournalStates WHERE machineId = :machineId AND
    chartId = :chartId *)
Definition readFullState (r : ChartReference) (st : Store) : option FullState :=
  let key := (machineId r, chartId r) in
  option_map (parseSqlFullStateRow key) (fullJournalStates st !! key).

(** [deleteByChart]: DELETE FROM fullJournalStates WHERE ..; DELETE FROM
    journalEntries WHERE ..; the sum of the two row counts. *)
Definition deleteByChart (r : ChartReference) (st : Store) : Store * nat :=
  let key := (machineId r, chartId r) in
  let fullStateCount :=
    match fullJournalStates st !! key with Some _ => 1%nat | None => 0%nat end in
  let kept :=
    List.filter (fun row => negb (String.eqb (j_machineId row) (machineId r)
                                  && String.eqb (j_chartId row) (chartId r)))
                (journalEntries st) in
  (mkStore kept (journalSeq st) (delete key (fullJournalStates st)) (notifications st),
   (fullStateCount + (length (journalEntries st) - length kept))%nat).

(** *** The stream of new journal entries

    [startObservingNewJournalEntries] keeps a pointer, the id of the last
    entry it has passed on.  On every notification it queries the entries
    after the pointer, newest first, and hands them to
    [yieldJournalEntries]. *)

(** [for (const journalEntry of journalEntries) { if (journalEntry.id <
    journalEntryIdPointer) return; journalEntryIdPointer = journalEntry.id;
    subject.next(journalEntry) }]: the pointer afterwards, and the entries
    passed on. *)
Fixpoint yieldJournalEntries (journalEntries : list JournalEntry) (pointer : Z)
  : Z * list JournalEntry :=
  match journalEntries with
  | [] => (pointer, [])
  | journalEntry :: rest =>
      if e_id journalEntry <? pointer then (pointer, [])
      else
        let '(pointer', emitted) := yieldJournalEntries rest (e_id journalEntry) in
        (pointer', journalEntry :: emitted)
  end.

(** The handler of a notification on the channel [new-journal-entry]. *)
Definition onNewJournalEntry (startTime : Z) (pointer : Z) (st : Store)
  : Z * list JournalEntry :=
  let journalEntries :=
    queryEntries
      (QueryFields (mkJournalQuery None (Some pointer) None None None
                                   (Some startTime) None None None (Some DESC))) st in
  match journalEntries with
  | [] => (pointer, [])
  | _ :: _ => yieldJournalEntries journalEntries pointer
  end.


End Journal.

(** ** The journal reader (XJogJournalReader.readMergedJournalEntry) *)

Module JournalReader.

Import JsonPatch Journal.
Local Open Scope Z_scope.

(** [MergedJournalEntry]: the fields of a full state, the two deltas, and
    the state and context before. *)
Record MergedJournalEntry := mkMerged {
  m_id : Z;
  m_created : Z;
  m_timestamp : Z;
  m_ownerId : option string;
  m_ref : ChartReference;
  m_parentRef : option (option string * string);
  m_event : Json;
  m_state : Json;
  m_context : Json;
  m_stateDelta : list Operation;
  m_contextDelta : list Operation;
  m_previousState : Json;
  m_previousContext : Json
}.

(** [{ ...fullState, stateDelta: [], contextDelta: [], previousState: null,
    previousContext: null }] *)
Definition mergedFrom (fullState : FullState) : MergedJournalEntry :=
  mkMerged (fs_id fullState) (fs_created fullState) (fs_timestamp fullState)
           (fs_ownerId fullState) (fs_ref fullState) (fs_parentRef fullState)
           (fs_event fullState) (fs_state fullState) (fs_context fullState)
           [] [] JNull JNull.

Section Reader.

(** [applyPatch] of the rfc6902 package: the document after the call. *)
Variable applyPatch : Json -> list Operation -> Json.

(** The body of the loop over the journal entries. *)
Definition mergeEntry (merged : MergedJournalEntry) (journalEntry : JournalEntry)
  : Outcome MergedJournalEntry :=
  let event := e_event journalEntry in
  let state :=
    if truthy (m_previousState merged) then m_previousState merged else m_state merged in
  let context :=
    if truthy (m_previousContext merged) then m_previousContext merged
    else m_context merged in
  match nullSafeApplyJsonDiff applyPatch state (e_stateDelta journalEntry) with
  | Thrown err => Thrown err
  | Returned previousState =>
      match nullSafeApplyJsonDiff applyPatch context (e_contextDelta journalEntry) with
      | Thrown err => Thrown err
      | Returned previousContext =>
          Returned (mkMerged (m_id merged) (m_created merged) (m_timestamp merged)
                             (m_ownerId merged) (m_ref merged) (m_parentRef merged)
                             event state context
                             (m_stateDelta merged) (m_contextDelta merged)
                             previousState previousContext)
      end
  end.

(** [for (const journalEntry of journalEntries) { ... }] *)
Fixpoint mergeEntries (journalEntries : list JournalEntry) (merged : MergedJournalEntry)
  : Outcome MergedJournalEntry :=
  match journalEntries with
  | [] => Returned merged
  | journalEntry :: rest =>
      match mergeEntry merged journalEntry with
      | Thrown err => Thrown err
      | Returned merged' => mergeEntries rest merged'
      end
  end.

(** The query of [readMergedJournalEntry]: [{ ref, afterAndIncludingId: id,
    order: 'DESC' }]. *)
Definition entriesBackTo (r : ChartReference) (i : Z) : JournalQuery :=
  QueryFields (mkJournalQuery (Some r) None (Some i) None None None None None None
                              (Some DESC)).

(** [readMergedJournalEntry(id)]; [None] is JavaScript's [null]. *)
Definition readMergedJournalEntry (i : Z) (st : Store)
  : Outcome (option MergedJournalEntry) :=
  match readEntry i st with
  | None => Returned None
  | Some journalEntry =>
      match readFullState (e_ref journalEntry) st with
      | None => Returned None
      | Some fullState =>
          let journalEntries := queryEntries (entriesBackTo (e_ref journalEntry) i) st in
          match mergeEntries journalEntries (mergedFrom fullState) with
          | Thrown err => Thrown err
          | Returned merged => Returned (Some merged)
          end
      end
  end.

End Reader.

End JournalReader.

(** ** The engine: startup manager (XJogStartupManager) and XJog.shutdown *)

Module Engine.

Local Open Scope Z_scope.

(** [resolveXJogStartupOptions] on integer inputs: [pickIntegerOption(value,
    default, minimum)] is [floor(max(minimum, value ?? default))]; the
    minimum of [gracePeriod] is [2.5 * adoptionFrequency].

    The code computes on binary64 numbers.  The definitions below give its
    results for integer inputs of magnitude up to 2^50: every number that
    occurs is then an integer, or half of one, below 2^52, which binary64
    holds exactly.  Beyond that range the product [2.5 * adoptionFrequency]
    is rounded and the definitions do not apply. *)
Record StartupOptions := mkStartupOptions { adoptionFrequency : Z; gracePeriod : Z }.

Definition pickIntegerOption (value : option Z) (defaultValue minimumValue : Z) : Z :=
  Z.max minimumValue (match value with Some v => v | None => defaultValue end).

Definition resolveXJogStartupOptions (frequency grace : option Z) : StartupOptions :=
  let adoptionFrequency := pickIntegerOption frequency 2000 10 in
  let unconstrained := match grace with Some v => v | None => 30000 end in
  (* floor(max(2.5 * f, g)) for integers f and g *)
  mkStartupOptions adoptionFrequency (Z.max (5 * adoptionFrequency / 2) unconstrained).

(** Fields of the startup manager; a timer handle is its firing time. *)
Record StartupManager := mkStartup {
  isStarted : bool;
  isReady : bool;
  startupGracePeriodTimer : option Z;
  adoptionLoopTimer : option Z
}.

(** The engine instance: its own fields, the managers it owns, and counters
    of what it has emitted or called. *)
Record XJog := mkXJog {
  id : string;
  startupOptions : StartupOptions;
  ownChartPollingFrequency : Z;
  isDying : bool;
  startupManager : StartupManager;
  deferredEventManager : DeferredEventManager.Manager;
  (** the activity manager's registry: owner chart and activity id *)
  activities : list (ChartReference * string);
  (** the listener installed by [start]; [None] before that *)
  deathNoteListener : option Persistence.DeathNoteListener;
  readyEvents : nat;
  haltEvents : nat;
  (** number of calls of [persistence.forciblyAdoptCharts] *)
  forciblyAdoptCalls : nat
}.

Definition withStartup (f : StartupManager -> StartupManager) (x : XJog) : XJog :=
  mkXJog (id x) (startupOptions x) (ownChartPollingFrequency x) (isDying x)
         (f (startupManager x)) (deferredEventManager x) (activities x)
         (deathNoteListener x) (readyEvents x) (haltEvents x) (forciblyAdoptCalls x).

Definition create (self : string) (opts : StartupOptions) (polling : Z) : XJog :=
  mkXJog self opts polling false (mkStartup false false None None)
         DeferredEventManager.initial [] None 0 0 0.

(** What the actions of a chart work on: the activity registry, the
    deferred-event manager and the database. *)
Definition Runtime : Type :=
  list (ChartReference * string) * DeferredEventManager.Manager * Persistence.Db.

Section WithCharts.

(** What [getChart(ref)?.runStep()] does for an adopted chart: it runs the
    entry actions, which may register activities, defer events and write
    to the database.  It has no access to the startup manager. *)
Variable runStep : ChartReference -> Runtime -> Runtime.

Definition runStepOf (r : ChartReference) (w : XJog * Persistence.Db)
  : XJog * Persistence.Db :=
  let '(x, db) := w in
  let '(acts, m, db) := runStep r (activities x, deferredEventManager x, db) in
  (mkXJog (id x) (startupOptions x) (ownChartPollingFrequency x) (isDying x)
          (startupManager x) m acts
          (deathNoteListener x) (readyEvents x) (haltEvents x) (forciblyAdoptCalls x),
   db).

Definition exitAdoptionGracePeriod (x : XJog) : XJog :=
  withStartup (fun s => mkStartup (isStarted s) (isReady s) None (adoptionLoopTimer s)) x.

Definition startAdoptionGracePeriod (now : Z) (x : XJog) : XJog :=
  let x := exitAdoptionGracePeriod x in
  withStartup (fun s => mkStartup (isStarted s) (isReady s)
                                  (Some (now + gracePeriod (startupOptions x)))
                                  (adoptionLoopTimer s)) x.

Definition stopAdoptionLoop (x : XJog) : XJog :=
  withStartup (fun s => mkStartup (isStarted s) (isReady s)
                                  (startupGracePeriodTimer s) None) x.

Definition signalReadiness (x : XJog) : XJog :=
  let x := withStartup (fun s => mkStartup (isStarted s) true
                                           (startupGracePeriodTimer s)
                                           (adoptionLoopTimer s)) x in
  mkXJog (id x) (startupOptions x) (ownChartPollingFrequency x) (isDying x)
         (startupManager x) (deferredEventManager x) (activities x)
         (deathNoteListener x) (S (readyEvents x)) (haltEvents x) (forciblyAdoptCalls x).

Definition startAdoptedCharts (refs : list ChartReference)
    (w : XJog * Persistence.Db) : XJog * Persistence.Db :=
  fold_left (fun acc r => runStepOf r acc) refs w.

(** One pass of the adoption loop. *)
Definition adoptCharts (now : Z) (w : XJog * Persistence.Db) : XJog * Persistence.Db :=
  let '(x, db) := w in
  let x := stopAdoptionLoop x in
  let '(db, adoptedChartIdentifiers) := Persistence.gentlyAdoptCharts (id x) db in
  let pausedChartCount := Persistence.getPausedChartCount db in
  let '(x, db) :=
    match adoptedChartIdentifiers with
    | [] => (x, db)
    | _ :: _ => startAdoptedCharts adoptedChartIdentifiers (x, db)
    end in
  if Nat.ltb 0 pausedChartCount then
    let x := startAdoptionGracePeriod now x in
    (withStartup (fun s => mkStartup (isStarted s) (isReady s)
                                     (startupGracePeriodTimer s)
                                     (Some (now + adoptionFrequency (startupOptions x)))) x,
     db)
  else
    (signalReadiness (exitAdoptionGracePeriod x), db).

Definition countForciblyAdopt (x : XJog) : XJog :=
  mkXJog (id x) (startupOptions x) (ownChartPollingFrequency x) (isDying x)
         (startupManager x) (deferredEventManager x) (activities x)
         (deathNoteListener x) (readyEvents x) (haltEvents x) (S (forciblyAdoptCalls x)).

(** The handler of the grace-period timer. *)
Definition forciblyOverThrowStubbornInstances (w : XJog * Persistence.Db)
  : XJog * Persistence.Db :=
  let '(x, db) := w in
  let x := exitAdoptionGracePeriod x in
  let x := countForciblyAdopt x in
  match Persistence.forciblyAdoptCharts (id x) db with
  | (db, Returned adoptedChartIdentifiers) =>
      let '(x, db) := startAdoptedCharts adoptedChartIdentifiers (x, db) in
      (signalReadiness x, db)
  | (db, Thrown _) => (x, db)
  end.

(** [startupManager.start]: overthrow, enter the grace period, first pass. *)
Definition startupStart (now : Z) (w : XJog * Persistence.Db)
  : XJog * Persistence.Db * Outcome unit :=
  let '(x, db) := w in
  match Persistence.overthrowOtherInstances (id x) db with
  | (db, Thrown e) => (x, db, Thrown e)
  | (db, Returned _) =>
      let x := startAdoptionGracePeriod now x in
      let '(x, db) := adoptCharts now (x, db) in
      (withStartup (fun s => mkStartup true (isReady s) (startupGracePeriodTimer s)
                                       (adoptionLoopTimer s)) x,
       db, Returned tt)
  end.

Definition startupStop (x : XJog) : XJog :=
  signalReadiness (stopAdoptionLoop (exitAdoptionGracePeriod x)).

(** *** The timers of the startup manager

    The two timers fire in the order of their deadlines; the grace-period
    timer, armed first, wins a tie.  A handler runs at the instant its
    timer fires, and runs to its end before the next timer is looked at. *)

Inductive TimerKind := GraceTimer | AdoptionTimer.

Definition nextTimer (x : XJog) : option (TimerKind * Z) :=
  match startupGracePeriodTimer (startupManager x),
        adoptionLoopTimer (startupManager x) with
  | Some g, Some a => if g <=? a then Some (GraceTimer, g) else Some (AdoptionTimer, a)
  | Some g, None => Some (GraceTimer, g)
  | None, Some a => Some (AdoptionTimer, a)
  | None, None => None
  end.

(** Fire the next timer, if any: the time it fires at, and the state after
    its handler. *)
Definition fireNextTimer (w : XJog * Persistence.Db)
  : option (Z * (XJog * Persistence.Db)) :=
  match nextTimer (fst w) with
  | Some (GraceTimer, t) => Some (t, forciblyOverThrowStubbornInstances w)
  | Some (AdoptionTimer, t) => Some (t, adoptCharts t w)
  | None => None
  end.

(** Let up to [n] timers fire, starting at time [now]; the result carries the
    time of the last firing. *)
Fixpoint runTimers (n : nat) (now : Z) (w : XJog * Persistence.Db)
  : Z * (XJog * Persistence.Db) :=
  match n with
  | O => (now, w)
  | S n' =>
      match fireNextTimer w with
      | Some (t, w') => runTimers n' t w'
      | None => (now, w)
      end
  end.

(** *** [XJog.start] and [XJog.shutdown] *)

Definition withDeferred (m : DeferredEventManager.Manager) (x : XJog) : XJog :=
  mkXJog (id x) (startupOptions x) (ownChartPollingFrequency x) (isDying x)
         (startupManager x) m (activities x)
         (deathNoteListener x) (readyEvents x) (haltEvents x) (forciblyAdoptCalls x).

Definition start (deferredOptions : DeferredEventManager.Options) (now : Z)
    (w : XJog * Persistence.Db) : XJog * Persistence.Db * Outcome unit :=
  if isDying (fst w) then (w, Thrown "Cannot start because already dying")
  else
    match startupStart now w with
    | (x, db, Thrown e) => (x, db, Thrown e)
    | (x, db, Returned _) =>
        let '(m, db) :=
          DeferredEventManager.scheduleUpcoming (isDying x) (id x) deferredOptions now
                                                (deferredEventManager x) db in
        let x := withDeferred m x in
        (mkXJog (id x) (startupOptions x) (ownChartPollingFrequency x) (isDying x)
                (startupManager x) (deferredEventManager x) (activities x)
                (Some Persistence.onDeathNote) (readyEvents x) (haltEvents x)
                (forciblyAdoptCalls x),
         db, Returned tt)
    end.

(** [activityManager.stopAllActivities]: stop every activity of the registry
    and unregister it from the database, then clear the registry. *)
Definition stopAllActivities (w : XJog * Persistence.Db) : XJog * Persistence.Db :=
  let '(x, db) := w in
  let db := fold_left (fun acc a => Persistence.unregisterActivity (fst a) (snd a) acc)
                      (activities x) db in
  (mkXJog (id x) (startupOptions x) (ownChartPollingFrequency x) (isDying x)
          (startupManager x) (deferredEventManager x) []
          (deathNoteListener x) (readyEvents x) (haltEvents x) (forciblyAdoptCalls x),
   db).

(** What the other instances do to the database during one polling
    interval of the shutdown loop. *)
Variable others : Persistence.Db -> Persistence.Db.

(** [while (ownCharts > 0) { await waitFor(..); ownCharts = countOwnCharts }];
    [None] when the loop is still waiting after [fuel] rounds. *)
Fixpoint waitForAdoption (fuel : nat) (self : string) (db : Persistence.Db)
  : option Persistence.Db :=
  if Nat.ltb 0 (Persistence.countOwnCharts self db) then
    match fuel with
    | O => None
    | S fuel' => waitForAdoption fuel' self (others db)
    end
  else Some db.

Definition shutdown (fuel : nat) (w : XJog * Persistence.Db)
  : option (XJog * Persistence.Db) :=
  let '(x, db) := w in
  if isDying x then Some w
  else if negb (isStarted (startupManager x)) then Some w
  else
    (* cancelDeathNoteListening(); this.dying = true *)
    let x := mkXJog (id x) (startupOptions x) (ownChartPollingFrequency x) true
                    (startupManager x) (deferredEventManager x) (activities x)
                    (option_map Persistence.onDeathNote_cancel (deathNoteListener x))
                    (readyEvents x) (haltEvents x) (forciblyAdoptCalls x) in
    let db := Persistence.removeInstance (id x) db in
    let '(m, db) := DeferredEventManager.releaseAll (deferredEventManager x) db in
    let x := withDeferred m x in
    let '(x, db) := stopAllActivities (x, db) in
    let x := if negb (isReady (startupManager x)) then startupStop x else x in
    let instanceCount := Persistence.countAliveInstances db in
    let halt (x : XJog) :=
      mkXJog (id x) (startupOptions x) (ownChartPollingFrequency x) (isDying x)
             (startupManager x) (deferredEventManager x) (activities x)
             (deathNoteListener x) (readyEvents x) (S (haltEvents x))
             (forciblyAdoptCalls x) in
    if Nat.ltb 0 instanceCount then
      match waitForAdoption fuel (id x) db with
      | Some db => Some (halt x, db)
      | None => None
      end
    else Some (halt x, db).

End WithCharts.

End Engine.

(** ** The chart executor: XJogChart.send *)

Module Chart.

Import JsonPatch.
Local Open Scope Z_scope.

(** An SCXML event as [toSCXMLEvent] gives it: its name and its data. *)
Record ScxmlEvent := mkEvent { name : string; data : Json }.

(** The part of an XState [State] the executor reads: value, context, the
    [done] flag, and the rest of the snapshot as an opaque text. *)
Record State := mkState {
  value : Json;
  context : Json;
  done : bool;
  rest : string
}.

Record XJogStateChangeState := mkChangeState { change_value : Json; change_context : Json }.

Inductive ChangeType := ChangeCreate | ChangeUpdate | ChangeDelete.

Record XJogStateChange := mkChange {
  type : ChangeType;
  ref : ChartReference;
  parentRef : option ChartReference;
  event : option ScxmlEvent;
  old : option XJogStateChangeState;
  new : option XJogStateChangeState
}.

(** The optional second argument of [send]: an updater function or an
    object of fields to patch. *)
Inductive ContextPatch :=
| PatchFunction (f : Json -> Outcome Json)
| PatchObject (fields : Json).

Definition membersOf (j : Json) : list (string * Json) :=
  match j with JObject ms => ms | _ => [] end.

Fixpoint assignMembers (target source : list (string * Json)) : list (string * Json) :=
  match source with
  | [] => target
  | (k, v) :: rest =>
      assignMembers (if hasMember k target then replaceMember k v target
                     else target ++ [(k, v)]) rest
  end.

(** [Object.assign({}, target, source)] for contexts that are objects. *)
Definition objectAssign (target source : Json) : Json :=
  JObject (assignMembers (assignMembers [] (membersOf target)) (membersOf source)).

(** What the run of [send] did, in order. *)
Inductive Effect :=
| MutexAcquired
| MutexReleased
| CacheRefreshed
| HookCalled (change : XJogStateChange)
| ChartUpdated (serialized : string)
| ChangePublished (change : XJogStateChange)
| ActionsExecuted
| SentDirectly (target : ChartReference) (ev : ScxmlEvent)
| Deferred (target : ChartReference) (ev : ScxmlEvent)
| AutoForwarded (ev : ScxmlEvent).

(** [doneInvoke(id, data)] of XState: the event [done.invoke.<id>]. *)
Definition doneInvoke (invokeId : string) (doneData : Json) : ScxmlEvent :=
  mkEvent (String.append "done.invoke." invokeId) doneData.

Section WithMachine.

(** The state of whatever the update hooks write to (the journal store, the
    digest store, ...). *)
Variable HookStore : Type.

(** [machine.transition(state, event, context)] of the evaluator. *)
Variable transition : State -> ScxmlEvent -> Json -> Outcome State.
(** [JSON.stringify] on a state and on an event. *)
Variable stringify : State -> string.
Variable stringifyEvent : ScxmlEvent -> string.
(** [executeActions(state, false, true)], on the database. *)
Variable executeActions : State -> Persistence.Db -> Persistence.Db * Outcome unit.
(** [resolveDoneData(state)] *)
Variable resolveDoneData : State -> Json.

Definition UpdateHook := XJogStateChange -> HookStore -> HookStore * Outcome unit.

(** The chart executor with the parts of the engine that [send] touches. *)
Record World := mkWorld {
  chartRef : ChartReference;
  chartParentRef : option ChartReference;
  state : State;
  stopping : bool;
  engineDying : bool;
  updateHooks : list UpdateHook;
  hookStore : HookStore;
  db : Persistence.Db;
  deferredEventManager : DeferredEventManager.Manager;
  effects : list Effect
}.

Definition withState (s : State) (w : World) : World :=
  mkWorld (chartRef w) (chartParentRef w) s (stopping w) (engineDying w)
          (updateHooks w) (hookStore w) (db w) (deferredEventManager w) (effects w).

Definition withHookStore (h : HookStore) (w : World) : World :=
  mkWorld (chartRef w) (chartParentRef w) (state w) (stopping w) (engineDying w)
          (updateHooks w) h (db w) (deferredEventManager w) (effects w).

Definition withDb (d : Persistence.Db) (w : World) : World :=
  mkWorld (chartRef w) (chartParentRef w) (state w) (stopping w) (engineDying w)
          (updateHooks w) (hookStore w) d (deferredEventManager w) (effects w).

Definition withDeferred (m : DeferredEventManager.Manager) (w : World) : World :=
  mkWorld (chartRef w) (chartParentRef w) (state w) (stopping w) (engineDying w)
          (updateHooks w) (hookStore w) (db w) m (effects w).

Definition emit (e : Effect) (w : World) : World :=
  mkWorld (chartRef w) (chartParentRef w) (state w) (stopping w) (engineDying w)
          (updateHooks w) (hookStore w) (db w) (deferredEventManager w)
          (effects w ++ [e]).

(** [for (const hook of updateHooks) await hook(change)]: the first hook
    that throws ends the loop. *)
Fixpoint callHooks (hooks : list UpdateHook) (change : XJogStateChange) (w : World)
  : World * Outcome unit :=
  match hooks with
  | [] => (w, Returned tt)
  | hook :: more =>
      let w := emit (HookCalled change) w in
      match hook change (hookStore w) with
      | (h, Returned _) => callHooks more change (withHookStore h w)
      | (h, Thrown e) => (withHookStore h w, Thrown e)
      end
  end.

(** The first statements of the [try] block: patch the context in place. *)
Definition patchContext (patch : option ContextPatch) (w : World) : World * Outcome unit :=
  match patch with
  | None => (w, Returned tt)
  | Some (PatchFunction f) =>
      match f (context (state w)) with
      | Returned c =>
          (withState (mkState (value (state w)) c (done (state w)) (rest (state w))) w,
           Returned tt)
      | Thrown e => (w, Thrown e)
      end
  | Some (PatchObject fields) =>
      (withState (mkState (value (state w)) (objectAssign (context (state w)) fields)
                          (done (state w)) (rest (state w))) w,
       Returned tt)
  end.

(** The rest of the [try] block of [send]: transition, cache refresh, hooks,
    persistence, broadcast, actions.  [before] is the copy of value and
    context taken before the block. *)
Definition sendTry (scxmlEvent : ScxmlEvent) (patch : option ContextPatch)
    (before : XJogStateChangeState) (w : World) : World * Outcome unit :=
  match patchContext patch w with
  | (w, Thrown e) => (w, Thrown e)
  | (w, Returned _) =>
      match transition (state w) scxmlEvent (context (state w)) with
      | Thrown e => (w, Thrown e)
      | Returned next =>
          let w := emit CacheRefreshed (withState next w) in
          let change :=
            mkChange ChangeUpdate (chartRef w) (chartParentRef w) (Some scxmlEvent)
                     (Some before)
                     (Some (mkChangeState (value (state w)) (context (state w)))) in
          match callHooks (updateHooks w) change w with
          | (w, Thrown e) => (w, Thrown e)
          | (w, Returned _) =>
              let serialized := stringify (state w) in
              let w := emit (ChartUpdated serialized)
                            (withDb (Persistence.updateChart (chartRef w) serialized (db w)) w) in
              let w := emit (ChangePublished change) w in
              match executeActions (state w) (db w) with
              | (d, Thrown e) => (withDb d w, Thrown e)
              | (d, Returned _) => (emit ActionsExecuted (withDb d w), Returned tt)
              end
          end
      end
  end.

(** [send(event, context, actionId)] at time [now].  The result is the new
    state, [None] for JavaScript's [null], or the exception that escapes.
    The chart mutex is taken to be free.

    After a final state of a chart with a parent, the code awaits
    [xJog.sendEvent(parentRef, doneInvoke(..))].  Here that call is the
    effect [SentDirectly] and nothing more: what the parent's own [send]
    writes, and an exception that escapes from it, are outside this
    definition. *)
Definition send (now : Z) (actionId : Persistence.EventIdent) (ev : ScxmlEvent)
    (patch : option ContextPatch) (w : World) : World * Outcome (option State) :=
  if stopping w || engineDying w then
    match DeferredEventManager.defer now (chartRef w) actionId None (stringifyEvent ev) 0
                                     (deferredEventManager w) (db w) with
    | (m, d, Thrown e) => (withDeferred m (withDb d w), Thrown e)
    | (m, d, Returned _) =>
        (emit (Deferred (chartRef w) ev) (withDeferred m (withDb d w)), Returned None)
    end
  else
    let w := emit MutexAcquired w in
    let stateBeforeTransition := value (state w) in
    let contextBeforeTransition := context (state w) in
    match sendTry ev patch (mkChangeState stateBeforeTransition contextBeforeTransition) w with
    | (w, Thrown _) => (emit MutexReleased w, Returned None)
    | (w, Returned _) =>
        let w := emit MutexReleased w in
        let w :=
          match chartParentRef w with
          | Some parent =>
              if done (state w)
              then emit (SentDirectly parent
                           (doneInvoke (chartId (chartRef w)) (resolveDoneData (state w)))) w
              else w
          | None => w
          end in
        let w := emit (AutoForwarded ev) w in
        (w, Returned (Some (state w)))
    end.

Definition isDeferred (e : Effect) : bool :=
  match e with Deferred _ _ => true | _ => false end.

Definition isSentDirectly (e : Effect) : bool :=
  match e with SentDirectly _ _ => true | _ => false end.

End WithMachine.

Arguments mkWorld {HookStore}.
Arguments chartRef {HookStore} w.
Arguments chartParentRef {HookStore} w.
Arguments state {HookStore} w.
Arguments stopping {HookStore} w.
Arguments engineDying {HookStore} w.
Arguments updateHooks {HookStore} w.
Arguments hookStore {HookStore} w.
Arguments db {HookStore} w.
Arguments deferredEventManager {HookStore} w.
Arguments effects {HookStore} w.
Arguments withState {HookStore} s w.
Arguments withHookStore {HookStore} h w.
Arguments withDb {HookStore} d w.
Arguments withDeferred {HookStore} m w.
Arguments emit {HookStore} e w.
Arguments callHooks {HookStore} hooks change w.
Arguments patchContext {HookStore} patch w.
Arguments sendTry {HookStore}.
Arguments send {HookStore}.

End Chart.

(** ** The journal writer (XJogJournalWriter)

    The writer installs one update hook, which records the change in the
    journal and logs a failure of [record] instead of passing it on.  With
    the option [asyncOperation] left at its default, the hook waits for the
    write; that is the case modelled. *)

Module JournalWriter.

Import JsonPatch.

Section Writer.

(** [createPatch] of the rfc6902 package. *)
Variable createPatch : Json -> Json -> list Operation.
(** The event of a change as the JSON value that is stored. *)
Variable eventJson : Chart.ScxmlEvent -> Json.
(** [xJog.id], and the clock of the journal database at the write. *)
Variable ownerId : string.
Variable now : Z.

(** [change.old?.value ?? null] and the like. *)
Definition valueOf (s : option Chart.XJogStateChangeState) : Json :=
  match s with Some s => Chart.change_value s | None => JNull end.

Definition contextOf (s : option Chart.XJogStateChangeState) : Json :=
  match s with Some s => Chart.change_context s | None => JNull end.

Definition updateHook : Chart.UpdateHook Journal.Store :=
  fun change st =>
    let recorded :=
      Journal.record createPatch now ownerId (Chart.ref change) (Chart.parentRef change)
        (match Chart.event change with Some e => eventJson e | None => JNull end)
        (valueOf (Chart.old change)) (contextOf (Chart.old change))
        (valueOf (Chart.new change)) (contextOf (Chart.new change)) st in
    (fst recorded, Returned tt).

End Writer.

End JournalWriter.

(** ** The platform: URL parsing and [decodeURIComponent]

    [ChartIdentifier] rests on two functions of the JavaScript platform:
    the [URL] constructor (WHATWG URL Standard, without a base URL) and
    [decodeURIComponent] (ECMAScript).  A string is the sequence of the
    bytes of its UTF-8 encoding, so that percent-encoding works on the
    characters of the string one by one.

    The scheme of a chart URI is not a special scheme.  The parts of the
    standard a chart URI cannot reach are parameters: the parser of an
    authority (credentials, host, port) and the parser of the special
    schemes ([http], [file], ...). *)

Module Url.

Inductive UrlPath :=
| OpaquePath (s : string)
| PathSegments (segments : list string).

Record URL := mkURL {
  scheme : string;
  (** the [host] getter's value (host and port); [None] is the null host *)
  authority : option string;
  path : UrlPath
}.

Definition protocol (u : URL) : string := String.append (scheme u) ":".

Definition host (u : URL) : string :=
  match authority u with Some h => h | None => EmptyString end.

Definition pathname (u : URL) : string :=
  match path u with
  | OpaquePath s => s
  | PathSegments segments =>
      fold_right (fun seg acc => String.append "/" (String.append seg acc)) EmptyString segments
  end.

Definition code (c : ascii) : nat := nat_of_ascii c.

Definition isC0ControlOrSpace (c : ascii) : bool := Nat.leb (code c) 32.

Definition isTabOrNewline (c : ascii) : bool :=
  Nat.eqb (code c) 9 || Nat.eqb (code c) 10 || Nat.eqb (code c) 13.

Fixpoint dropWhile (p : ascii -> bool) (s : string) : string :=
  match s with
  | EmptyString => EmptyString
  | String c rest => if p c then dropWhile p rest else s
  end.

Fixpoint filterChars (p : ascii -> bool) (s : string) : string :=
  match s with
  | EmptyString => EmptyString
  | String c rest => if p c then String c (filterChars p rest) else filterChars p rest
  end.

Fixpoint revString (s acc : string) : string :=
  match s with
  | EmptyString => acc
  | String c rest => revString rest (String c acc)
  end.

(** Steps 1 to 3 of the basic URL parser: strip leading and trailing C0
    controls and spaces, then remove every tab and newline. *)
Definition preprocess (input : string) : string :=
  let stripped :=
    revString (dropWhile isC0ControlOrSpace
                 (revString (dropWhile isC0ControlOrSpace input) EmptyString)) EmptyString in
  filterChars (fun c => negb (isTabOrNewline c)) stripped.

Definition isAsciiAlpha (c : ascii) : bool :=
  (Nat.leb 65 (code c) && Nat.leb (code c) 90)
  || (Nat.leb 97 (code c) && Nat.leb (code c) 122).

Definition isAsciiDigit (c : ascii) : bool :=
  Nat.leb 48 (code c) && Nat.leb (code c) 57.

Definition toLower (c : ascii) : ascii :=
  if Nat.leb 65 (code c) && Nat.leb (code c) 90 then ascii_of_nat (code c + 32) else c.

Definition isSchemeChar (c : ascii) : bool :=
  isAsciiAlpha c || isAsciiDigit c
  || Ascii.eqb c "+"%char || Ascii.eqb c "-"%char || Ascii.eqb c "."%char.

(** Scheme state: the lower-cased scheme and what follows the colon. *)
Fixpoint schemeState (s : string) (buffer : string) : option (string * string) :=
  match s with
  | EmptyString => None
  | String c rest =>
      if Ascii.eqb c ":"%char then Some (revString buffer EmptyString, rest)
      else if isSchemeChar c then schemeState rest (String (toLower c) buffer)
      else None
  end.

(** Scheme start state: the first character must be a letter. *)
Definition parseScheme (s : string) : option (string * string) :=
  match s with
  | String c _ => if isAsciiAlpha c then schemeState s EmptyString else None
  | EmptyString => None
  end.

Definition isSpecialScheme (s : string) : bool :=
  String.eqb s "http" || String.eqb s "https" || String.eqb s "ws"
  || String.eqb s "wss" || String.eqb s "ftp" || String.eqb s "file".

Definition hexDigit (n : nat) : ascii :=
  if Nat.ltb n 10 then ascii_of_nat (48 + n) else ascii_of_nat (55 + n).

(** [%XX] with upper-case hexadecimal digits. *)
Definition percentEncodeByte (c : ascii) : string :=
  String "%"%char
    (String (hexDigit (Nat.div (code c) 16))
       (String (hexDigit (Nat.modulo (code c) 16)) EmptyString)).

Definition inC0ControlSet (c : ascii) : bool :=
  Nat.leb (code c) 31 || Nat.ltb 126 (code c).

Definition inQuerySet (c : ascii) : bool :=
  inC0ControlSet c
  || Ascii.eqb c " "%char || Nat.eqb (code c) 34 || Ascii.eqb c "#"%char
  || Ascii.eqb c "<"%char || Ascii.eqb c ">"%char.

(** The path percent-encode set. *)
Definition inPathSet (c : ascii) : bool :=
  inQuerySet c
  || Ascii.eqb c "?"%char || Ascii.eqb c "^"%char || Ascii.eqb c "`"%char
  || Ascii.eqb c "{"%char || Ascii.eqb c "}"%char.

Definition percentEncode (inSet : ascii -> bool) (c : ascii) : string :=
  if inSet c then percentEncodeByte c else String c EmptyString.

Fixpoint percentEncodeString (inSet : ascii -> bool) (s : string) : string :=
  match s with
  | EmptyString => EmptyString
  | String c rest => String.append (percentEncode inSet c) (percentEncodeString inSet rest)
  end.

Definition lowerString (s : string) : string :=
  (fix go (s : string) : string :=
     match s with
     | EmptyString => EmptyString
     | String c rest => String (toLower c) (go rest)
     end) s.

(** A single-dot and a double-dot URL path segment. *)
Definition isSingleDot (seg : string) : bool :=
  String.eqb seg "." || String.eqb (lowerString seg) "%2e".

Definition isDoubleDot (seg : string) : bool :=
  let l := lowerString seg in
  String.eqb l ".." || String.eqb l ".%2e" || String.eqb l "%2e." || String.eqb l "%2e%2e".

(** Shorten a path (the scheme is not [file]): drop the last segment. *)
Definition shorten (p : list string) : list string := removelast p.

(** What the path state does with the buffer at a [/] ([atSlash]) or at the
    end of the path. *)
Definition finishSegment (buffer : string) (p : list string) (atSlash : bool)
  : list string :=
  if isDoubleDot buffer then (if atSlash then shorten p else shorten p ++ [EmptyString])
  else if isSingleDot buffer then (if atSlash then p else p ++ [EmptyString])
  else p ++ [buffer].

(** Path state, on the input up to the query or fragment. *)
Fixpoint pathState (input : string) (buffer : string) (p : list string) : list string :=
  match input with
  | EmptyString => finishSegment buffer p false
  | String c rest =>
      if Ascii.eqb c "/"%char then pathState rest EmptyString (finishSegment buffer p true)
      else pathState rest (String.append buffer (percentEncode inPathSet c)) p
  end.

Definition isQueryOrFragmentStart (c : ascii) : bool :=
  Ascii.eqb c "?"%char || Ascii.eqb c "#"%char.

(** The input up to the first character satisfying [stop], and the rest. *)
Fixpoint splitAt (stop : ascii -> bool) (s : string) : string * string :=
  match s with
  | EmptyString => (EmptyString, EmptyString)
  | String c rest =>
      if stop c then (EmptyString, s)
      else let '(before, after) := splitAt stop rest in (String c before, after)
  end.

(** *** [decodeURIComponent]

    First the escapes [%XX] are read (a [%] without two hexadecimal digits
    is a URIError), then every escaped byte of 0x80 or more must start a
    well-formed UTF-8 sequence whose other bytes are escaped as well. *)

Inductive Item :=
| Literal (c : ascii)
| Escaped (byte : nat).

Inductive EscapeState :=
| Ready
| SawPercent
| SawHex (high : nat).

Definition hexValue (c : ascii) : option nat :=
  let n := code c in
  if Nat.leb 48 n && Nat.leb n 57 then Some (n - 48)
  else if Nat.leb 65 n && Nat.leb n 70 then Some (n - 55)
  else if Nat.leb 97 n && Nat.leb n 102 then Some (n - 87)
  else None.

Fixpoint readEscapes (s : string) (st : EscapeState) : option (list Item) :=
  match s with
  | EmptyString => match st with Ready => Some [] | _ => None end
  | String c rest =>
      match st with
      | Ready =>
          if Ascii.eqb c "%"%char then readEscapes rest SawPercent
          else option_map (cons (Literal c)) (readEscapes rest Ready)
      | SawPercent =>
          match hexValue c with
          | Some h => readEscapes rest (SawHex h)
          | None => None
          end
      | SawHex h =>
          match hexValue c with
          | Some l => option_map (cons (Escaped (16 * h + l))) (readEscapes rest Ready)
          | None => None
          end
      end
  end.

Definition between (lo hi n : nat) : bool := Nat.leb lo n && Nat.leb n hi.

(** Well-formed UTF-8 byte sequences (Unicode, table 3-7). *)
Definition wellFormed2 (b0 b1 : nat) : bool :=
  between 194 223 b0 && between 128 191 b1.

Definition wellFormed3 (b0 b1 b2 : nat) : bool :=
  ((Nat.eqb b0 224 && between 160 191 b1)
   || (between 225 236 b0 && between 128 191 b1)
   || (Nat.eqb b0 237 && between 128 159 b1)
   || (between 238 239 b0 && between 128 191 b1))
  && between 128 191 b2.

Definition wellFormed4 (b0 b1 b2 b3 : nat) : bool :=
  ((Nat.eqb b0 240 && between 144 191 b1)
   || (between 241 243 b0 && between 128 191 b1)
   || (Nat.eqb b0 244 && between 128 143 b1))
  && between 128 191 b2 && between 128 191 b3.

Definition byteString (bytes : list nat) (tail : string) : string :=
  fold_right (fun b acc => String (ascii_of_nat b) acc) tail bytes.

Fixpoint decodeItems (items : list Item) : option string :=
  match items with
  | [] => Some EmptyString
  | Literal c :: rest => option_map (String c) (decodeItems rest)
  | Escaped b0 :: rest =>
      if Nat.ltb b0 128 then option_map (String (ascii_of_nat b0)) (decodeItems rest)
      else if between 192 223 b0 then
        match rest with
        | Escaped b1 :: rest' =>
            if wellFormed2 b0 b1 then option_map (byteString [b0; b1]) (decodeItems rest')
            else None
        | _ => None
        end
      else if between 224 239 b0 then
        match rest with
        | Escaped b1 :: Escaped b2 :: rest' =>
            if wellFormed3 b0 b1 b2
            then option_map (byteString [b0; b1; b2]) (decodeItems rest')
            else None
        | _ => None
        end
      else if between 240 247 b0 then
        match rest with
        | Escaped b1 :: Escaped b2 :: Escaped b3 :: rest' =>
            if wellFormed4 b0 b1 b2 b3
            then option_map (byteString [b0; b1; b2; b3]) (decodeItems rest')
            else None
        | _ => None
        end
      else None
  end.

(** [decodeURIComponent(s)]; [None] is a URIError. *)
Definition decodeURIComponent (s : string) : option string :=
  match readEscapes s Ready with
  | Some items => decodeItems items
  | None => None
  end.

(** *** The [URL] constructor *)

Section Platform.

(** The authority parser: for the text between [//] and the path, the value
    of the [host] getter, or failure. *)
Variable parseAuthority : string -> option string.
(** The parser of the special schemes, given the scheme and the rest. *)
Variable parseSpecial : string -> string -> option URL.

Definition endsAuthority (c : ascii) : bool :=
  Ascii.eqb c "/"%char || isQueryOrFragmentStart c.

Definition startsWithSlash (s : string) : option string :=
  match s with
  | String c rest => if Ascii.eqb c "/"%char then Some rest else None
  | EmptyString => None
  end.

Definition pathOf (afterSlash : string) : UrlPath :=
  PathSegments (pathState (fst (splitAt isQueryOrFragmentStart afterSlash)) EmptyString []).

(** [new URL(input)]; [None] is the TypeError of an invalid URL. *)
Definition parse (input : string) : option URL :=
  match parseScheme (preprocess input) with
  | None => None
  | Some (sch, rest) =>
      if isSpecialScheme sch then parseSpecial sch rest
      else
        match startsWithSlash rest with
        | Some afterSlash =>
            match startsWithSlash afterSlash with
            | Some afterSlashes =>
                (* authority state, then path start state *)
                let '(auth, after) := splitAt endsAuthority afterSlashes in
                match parseAuthority auth with
                | None => None
                | Some h =>
                    match startsWithSlash after with
                    | Some tail => Some (mkURL sch (Some h) (pathOf tail))
                    | None => Some (mkURL sch (Some h) (PathSegments []))
                    end
                end
            | None => Some (mkURL sch None (pathOf afterSlash))
            end
        | None =>
            (* opaque path state *)
            Some (mkURL sch None
                    (OpaquePath (percentEncodeString inC0ControlSet
                                   (fst (splitAt isQueryOrFragmentStart rest)))))
        end
  end.

End Platform.

End Url.

(** ** ChartIdentifier (packages/util) *)

Module ChartIdentifier.

Definition protocol : string := "xjog+chart".

(** What the constructor accepts: a [URL], a chart reference (which may
    carry a [host]), or a string; any other value reaches [new URL] as its
    string. *)
Inductive Input :=
| FromURL (u : Url.URL)
| FromReference (host : option string) (r : ChartReference)
| FromString (s : string).

Record ChartIdentifier := mkIdentifier { uri : Url.URL }.

(** [s.split('/').filter(Boolean)] *)
Definition splitSegments (s : string) : list string :=
  List.filter JsString.truthy (JsString.split "/"%char s).

Definition joinSegments (segments : list (option string)) : string :=
  let truthySegments :=
    List.filter JsString.truthy
      (flat_map (fun seg => match seg with Some x => [x] | None => [] end) segments) in
  match truthySegments with
  | [] => EmptyString
  | first :: _ =>
      let normalizedSegments := flat_map splitSegments truthySegments in
      let path := JsString.join "/" normalizedSegments in
      if JsString.startsWith first "/"%char then String.append "/" path else path
  end.

Fixpoint decodeAll (segments : list string) : option (list string) :=
  match segments with
  | [] => Some []
  | seg :: rest =>
      match Url.decodeURIComponent seg, decodeAll rest with
      | Some d, Some ds => Some (d :: ds)
      | _, _ => None
      end
  end.

(** The [pathSegments] getter; a URIError of [decodeURIComponent] escapes. *)
Definition pathSegments (u : Url.URL) : Outcome (list string) :=
  match decodeAll (splitSegments (Url.pathname u)) with
  | Some segments => Returned segments
  | None => Thrown "URI malformed"
  end.

(** [pathSegments[i] ?? null] for an integer [i]. *)
Definition at_ (segments : list string) (i : Z) : option string :=
  if Z.ltb i 0 then None else nth_error segments (Z.to_nat i).

Definition getPathSegment (u : Url.URL) (index : Z) : Outcome (option string) :=
  match pathSegments u with
  | Thrown e => Thrown e
  | Returned segments =>
      if Z.ltb index 0
      then Returned (at_ segments (Z.of_nat (length segments) + index)%Z)
      else Returned (at_ segments index)
  end.

Definition invalidPath (u : Url.URL) : Outcome string :=
  match pathSegments u with
  | Thrown e => Thrown e
  | Returned segments =>
      Thrown (String.append "Invalid path: /" (JsString.join "/" segments))
  end.

Definition segmentOrThrow (u : Url.URL) (index : Z) : Outcome string :=
  match getPathSegment u index with
  | Thrown e => Thrown e
  | Returned (Some seg) => if JsString.truthy seg then Returned seg else invalidPath u
  | Returned None => invalidPath u
  end.

(** The getters [machineId] and [chartId]. *)
Definition machineId (u : Url.URL) : Outcome string := segmentOrThrow u (-2).
Definition chartId (u : Url.URL) : Outcome string := segmentOrThrow u (-1).

Section Platform.

Variable parseAuthority : string -> option string.
Variable parseSpecial : string -> string -> option Url.URL.

(** The first part of the constructor: the URI of the input. *)
Definition uriOf (input : Input) : Outcome Url.URL :=
  match input with
  | FromURL u => Returned u
  | FromReference host r =>
      let hostSegment :=
        match host with
        | Some h => if JsString.truthy h then Some (String.append "/" h) else None
        | None => None
        end in
      match Url.parse parseAuthority parseSpecial
              (String.append protocol
                 (String.append ":/"
                    (joinSegments [hostSegment;
                                   Some (refMachineId r); Some (refChartId r)]))) with
      | Some u => Returned u
      | None => Thrown "Invalid URL"
      end
  | FromString s =>
      match Url.parse parseAuthority parseSpecial s with
      | Some u => Returned u
      | None => Thrown "Invalid URL"
      end
  end.

(** [new ChartIdentifier(input)] *)
Definition new_ (input : Input) : Outcome ChartIdentifier :=
  match uriOf input with
  | Thrown e => Thrown e
  | Returned u =>
      if negb (String.eqb (Url.protocol u) (String.append protocol ":"))
      then Thrown (String.append "Wrong protocol "
                     (String.append (Url.protocol u) ", expected xjog+chart:"))
      else
        match machineId u with
        | Thrown e => Thrown e
        | Returned _ =>
            match chartId u with
            | Thrown e => Thrown e
            | Returned _ => Returned (mkIdentifier u)
            end
        end
  end.

(** [ChartIdentifier.from(input)]: the constructor inside [try], [null] in
    the [catch]. *)
Definition from (input : Input) : option ChartIdentifier :=
  match new_ input with
  | Returned identifier => Some identifier
  | Thrown _ => None
  end.

(** [a === b] for two getter calls, each of which may throw; the left one
    is evaluated first.  [None] on the left is [undefined]. *)
Definition strictEqual (left : option (Outcome string)) (right : Outcome string)
  : Outcome bool :=
  match left with
  | Some (Thrown e) => Thrown e
  | Some (Returned a) =>
      match right with
      | Thrown e => Thrown e
      | Returned b => Returned (String.eqb a b)
      end
  | None =>
      match right with
      | Thrown e => Thrown e
      | Returned _ => Returned false
      end
  end.

(** [matches(input)]: [ref?.machineId === this.machineId &&
    ref?.chartId === this.chartId] with [ref = ChartIdentifier.from(input)]. *)
Definition matches (this : ChartIdentifier) (input : Input) : Outcome bool :=
  let ref := from input in
  match strictEqual (option_map (fun i => machineId (uri i)) ref) (machineId (uri this)) with
  | Thrown e => Thrown e
  | Returned false => Returned false
  | Returned true =>
      strictEqual (option_map (fun i => chartId (uri i)) ref) (chartId (uri this))
  end.

(** [referencesMatch(a, b)]: [ChartIdentifier.from(a)?.matches(b) ?? false] *)
Definition referencesMatch (a b : Input) : Outcome bool :=
  match from a with
  | Some identifier => matches identifier b
  | None => Returned false
  end.

(** [matchingReference(ref)], for filtering arrays. *)
Definition matchingReference (ref : Input) : Input -> Outcome bool :=
  fun input => referencesMatch input ref.

End Platform.

(** The [ref] getter. *)
Definition ref (identifier : ChartIdentifier) : Outcome ChartReference :=
  match machineId (uri identifier) with
  | Thrown e => Thrown e
  | Returned m =>
      match chartId (uri identifier) with
      | Thrown e => Thrown e
      | Returned c => Returned (mkRef m c)
      end
  end.

End ChartIdentifier.

(** ** Stopping a chart: XJogDeferredEventManager.cancelAllForChart

    [XJogChart.stop] cancels the scheduled events of the chart.  The events
    of the chart are found with [ChartIdentifier]; their row ids are then
    handed to [cancel], which looks an event up by its [eventId]. *)

Module DeferredEventCancellation.

Section Platform.

Variable parseAuthority : string -> option string.
Variable parseSpecial : string -> string -> option Url.URL.

(** [ChartIdentifier.from(ref)?.matches(event.ref)]; [undefined] counts as
    false in [filter]. *)
Definition refersTo (r : ChartReference) (e : Persistence.PersistedDeferredEvent)
  : Outcome bool :=
  match ChartIdentifier.from parseAuthority parseSpecial
          (ChartIdentifier.FromReference None r) with
  | Some identifier =>
      ChartIdentifier.matches parseAuthority parseSpecial identifier
        (ChartIdentifier.FromReference None (Persistence.ref e))
  | None => Returned false
  end.

(** [this.deferredEvents.filter(...).map(event => event.id)] *)
Fixpoint eventIdsOf (r : ChartReference) (events : list Persistence.PersistedDeferredEvent)
  : Outcome (list Z) :=
  match events with
  | [] => Returned []
  | e :: rest =>
      match refersTo r e with
      | Thrown err => Thrown err
      | Returned keep =>
          match eventIdsOf r rest with
          | Thrown err => Thrown err
          | Returned ids => Returned (if keep then Persistence.id e :: ids else ids)
          end
      end
  end.

(** [for (const id of deferredEventIds) await this.cancel(id, cid)] *)
Definition cancelAll (ids : list Z)
    (w : DeferredEventManager.Manager * Persistence.Db)
  : DeferredEventManager.Manager * Persistence.Db :=
  fold_left (fun acc i =>
               DeferredEventManager.cancel (Persistence.IdNumber i) (fst acc) (snd acc))
            ids w.

Definition cancelAllForChart (r : ChartReference)
    (w : DeferredEventManager.Manager * Persistence.Db)
  : DeferredEventManager.Manager * Persistence.Db * Outcome unit :=
  match eventIdsOf r (DeferredEventManager.deferredEvents (fst w)) with
  | Thrown err => (w, Thrown err)
  | Returned deferredEventIds => (cancelAll deferredEventIds w, Returned tt)
  end.

End Platform.

End DeferredEventCancellation.

(** ** Options (resolveXJogOptions, resolveXJogMachineOptions)

    On integer inputs; an option that is not given is [None]. *)

Module XJogOptions.

Local Open Scope Z_scope.

Record XJogOptions := mkXJogOptions {
  o_chartMutexTimeout : option Z;
  o_adoptionFrequency : option Z;
  o_gracePeriod : option Z;
  o_batchSize : option Z;
  o_interval : option Z;
  o_lookAhead : option Z;
  o_ownChartPollingFrequency : option Z
}.

Record ResolvedXJogOptions := mkResolved {
  chartMutexTimeout : Z;
  startup : Engine.StartupOptions;
  deferredEvents : DeferredEventManager.Options;
  shutdown_ownChartPollingFrequency : Z
}.

Definition resolveXJogDeferredEventOptions (batchSize interval lookAhead : option Z)
  : DeferredEventManager.Options :=
  let batchSize := Engine.pickIntegerOption batchSize 100 1 in
  let interval := Engine.pickIntegerOption interval (30 * 1000) 50 in
  let lookAhead := Engine.pickIntegerOption lookAhead (30 * 1000) interval in
  DeferredEventManager.mkOptions batchSize interval lookAhead.

Definition resolveShutdownOptions (ownChartPollingFrequency : option Z) : Z :=
  Engine.pickIntegerOption ownChartPollingFrequency 500 50.

Definition resolveXJogOptions (options : XJogOptions) : ResolvedXJogOptions :=
  let chartMutexTimeout := Engine.pickIntegerOption (o_chartMutexTimeout options) 2000 50 in
  mkResolved chartMutexTimeout
    (Engine.resolveXJogStartupOptions (o_adoptionFrequency options) (o_gracePeriod options))
    (resolveXJogDeferredEventOptions (o_batchSize options) (o_interval options)
                                     (o_lookAhead options))
    (resolveShutdownOptions (o_ownChartPollingFrequency options)).

Record ResolvedXJogMachineOptions := mkMachineOptions {
  machine_chartMutexTimeout : Z;
  cacheSize : Z
}.

Definition resolveXJogMachineOptions (instanceOptions : ResolvedXJogOptions)
    (chartMutexTimeout cacheSize : option Z) : ResolvedXJogMachineOptions :=
  mkMachineOptions
    (Engine.pickIntegerOption chartMutexTimeout (XJogOptions.chartMutexTimeout instanceOptions) 50)
    (Engine.pickIntegerOption cacheSize 1000 10).

End XJogOptions.

(** ** The chart cache of a machine (XJogMachine)

    [chartCacheKeys] is a [Set], which keeps its keys in the order they were
    added; [chartCacheStore] is the object that maps a chart id to the
    chart.

    [chartCacheStore] is a plain object ([{}]), read here as the map of its
    own properties.  That is what the object does for every key but the
    names of the properties of [Object.prototype]: under such a name a
    read finds the inherited property, and an assignment to [__proto__]
    creates no property.  The definitions below say nothing about those
    keys; [plainKey] tells the others. *)

Module MachineCache.

Local Open Scope Z_scope.

(** The names of the properties of [Object.prototype]. *)
Definition objectPrototypeNames : list string :=
  ["__proto__"; "constructor"; "hasOwnProperty"; "isPrototypeOf";
   "propertyIsEnumerable"; "toLocaleString"; "toString"; "valueOf";
   "__defineGetter__"; "__defineSetter__"; "__lookupGetter__"; "__lookupSetter__"].

(** A key under which the object holds nothing but what was assigned. *)
Definition plainKey (key : string) : bool :=
  negb (existsb (String.eqb key) objectPrototypeNames).

Section Cache.

Variable XJogChart : Type.
(** [chart.id] *)
Variable chartIdOf : XJogChart -> string.

Record Cache := mkCache {
  chartCacheKeys : list string;
  chartCacheStore : gmap string XJogChart
}.

(** [Set.prototype.add]: a key that is in the set already stays where it
    is. *)
Definition setAdd (key : string) (keys : list string) : list string :=
  if existsb (String.eqb key) keys then keys else keys ++ [key].

(** [Set.prototype.delete] *)
Definition setDelete (key : string) (keys : list string) : list string :=
  List.filter (fun k => negb (String.eqb k key)) keys.

Definition evictCacheEntry (chartId : string) (c : Cache) : Cache :=
  match chartCacheStore c !! chartId with
  | Some _ =>
      mkCache (setDelete chartId (chartCacheKeys c)) (delete chartId (chartCacheStore c))
  | None => c
  end.

Definition cleanCache (cacheSize : Z) (c : Cache) : Cache :=
  if Z.of_nat (length (chartCacheKeys c)) >? cacheSize then
    (* Remove oldest *)
    match chartCacheKeys c with
    | oldestCacheKey :: _ =>
        if JsString.truthy oldestCacheKey then evictCacheEntry oldestCacheKey c else c
    | [] => c
    end
  else c.

Definition refreshCache (cacheSize : Z) (chart : XJogChart) (c : Cache) : Cache :=
  cleanCache cacheSize
    (mkCache (setAdd (chartIdOf chart) (chartCacheKeys c))
             (<[chartIdOf chart := chart]> (chartCacheStore c))).

(** [getChart(chartId)] with [load] for [XJogChart.load(this, chartId)]. *)
Definition getChart (load : string -> Outcome (option XJogChart)) (cacheSize : Z)
    (chartId : string) (c : Cache) : Cache * Outcome (option XJogChart) :=
  match chartCacheStore c !! chartId with
  | Some chart => (c, Returned (Some chart))
  | None =>
      match load chartId with
      | Thrown err => (c, Thrown err)
      | Returned None => (evictCacheEntry chartId c, Returned None)
      | Returned (Some chart) => (refreshCache cacheSize chart c, Returned (Some chart))
      end
  end.

End Cache.

Arguments mkCache {XJogChart}.
Arguments chartCacheKeys {XJogChart} c.
Arguments chartCacheStore {XJogChart} c.
Arguments evictCacheEntry {XJogChart}.
Arguments cleanCache {XJogChart}.
Arguments refreshCache {XJogChart}.
Arguments getChart {XJogChart}.

End MachineCache.

(** * Properties *)

(** ** Forcible adoption *)

(** The charts after [forciblyAdoptCharts]: every paused chart is resumed
    under the new owner, every other chart is untouched. *)
Lemma forciblyAdoptCharts_charts (self : string) (db : Persistence.Db) :
  Persistence.charts (fst (Persistence.forciblyAdoptCharts self db))
  = List.map (fun c => if Persistence.paused c then Persistence.resume self c else c)
             (Persistence.charts db).
Proof. reflexivity. Qed.

(** [forciblyAdoptCharts] returns the references of the charts that were
    paused when it was called. *)
Lemma forciblyAdoptCharts_returns (self : string) (db : Persistence.Db) :
  snd (Persistence.forciblyAdoptCharts self db)
  = Returned (Persistence.getPausedChartIds db).
Proof. reflexivity. Qed.

(** The activity rows after [forciblyAdoptCharts] are the rows whose chart
    was paused: the statement deletes the rows of the charts that are not
    paused (or do not exist). *)
Lemma forciblyAdoptCharts_activities (self : string) (db : Persistence.Db) :
  Persistence.ongoingActivities (fst (Persistence.forciblyAdoptCharts self db))
  = List.filter (Persistence.hasPausedChart (Persistence.charts db))
                (Persistence.ongoingActivities db).
Proof. reflexivity. Qed.

(** A database in the middle of a handover to instance [B]: the chart
    [busy] of the old instance [A] is still paused and has an activity row;
    the chart [lazy] was adopted by [B] already and runs an activity. *)
Definition handoverDb : Persistence.Db :=
  Persistence.mkDb
    [Persistence.mkInstance "A" true; Persistence.mkInstance "B" false]
    [Persistence.mkChart (Some "A") "simple" "busy" None None "working" true;
     Persistence.mkChart (Some "B") "simple" "lazy" None None "working" false]
    [Persistence.mkActivity "simple" "busy" "invoked-by-A";
     Persistence.mkActivity "simple" "lazy" "invoked-by-B"]
    [] 1.

(** C1 (the code departs from the claim).  On [handoverDb],
    [forciblyAdoptCharts "B"] returns the reference of the paused chart and
    hands it to [B], but the activity row it deletes is the one of the
    chart that is not paused; the row of the paused chart, which the claim
    says is deleted, is still there. *)
Theorem C1_forciblyAdoptCharts_deletes_rows_of_unpaused_charts :
  let '(db, adopted) := Persistence.forciblyAdoptCharts "B" handoverDb in
  adopted = Returned [mkRef "simple" "busy"]
  /\ Persistence.charts db
     = [Persistence.mkChart (Some "B") "simple" "busy" None None "working" false;
        Persistence.mkChart (Some "B") "simple" "lazy" None None "working" false]
  /\ Persistence.ongoingActivities db
     = [Persistence.mkActivity "simple" "busy" "invoked-by-A"].
Proof. vm_compute. repeat split; reflexivity. Qed.

(** ** Death notification *)

(** Whatever the listener has seen, it has not called the callback: in the
    dying branch [cancelled] is already true when it is tested. *)
Lemma onDeathNote_step_no_call (self : string) (l : Persistence.DeathNoteListener)
    (e : Persistence.DeathNoteEvent) :
  Persistence.callbackCalls l = 0%nat ->
  Persistence.callbackCalls (Persistence.onDeathNote_step self l e) = 0%nat.
Proof.
  intros Hcalls. destruct l as [c t a n]. simpl in Hcalls. subst n.
  destruct e as [db|]; simpl.
  - unfold Persistence.onDeathNote_poll; simpl.
    destruct a; simpl; [|reflexivity].
    destruct c; simpl.
    + destruct t; reflexivity.
    + destruct (Nat.ltb 0 (Persistence.countDying self db)); simpl; [|reflexivity].
      destruct t; reflexivity.
  - unfold Persistence.onDeathNote_cancel; simpl. destruct t; reflexivity.
Qed.

Lemma onDeathNote_never_calls_back (self : string)
    (events : list Persistence.DeathNoteEvent) :
  Persistence.callbackCalls (Persistence.onDeathNote_run self events) = 0%nat.
Proof.
  unfold Persistence.onDeathNote_run.
  assert (H : forall l, Persistence.callbackCalls l = 0%nat ->
                        Persistence.callbackCalls
                          (fold_left (Persistence.onDeathNote_step self) events l) = 0%nat).
  { induction events as [|e events IH]; intros l Hl; simpl; [exact Hl|].
    apply IH. apply onDeathNote_step_no_call. exact Hl. }
  apply H. reflexivity.
Qed.

(** The database after instance [B] has overthrown instance [A]. *)
Definition overthrownDb : Persistence.Db :=
  Persistence.mkDb
    [Persistence.mkInstance "A" true; Persistence.mkInstance "B" false] [] [] [] 1.

(** C3 (the code departs from the claim).  The listener of instance [A]
    polls a database in which [A] is flagged dying: the query counts one
    row, the listener cancels itself, and the callback has not been called;
    no later poll calls it either. *)
Theorem C3_onDeathNote_callback_not_invoked :
  Persistence.countDying "A" overthrownDb = 1%nat
  /\ Persistence.onDeathNote_run "A" [Persistence.Poll overthrownDb]
     = Persistence.mkListener true false false 0
  /\ forall later,
       Persistence.callbackCalls
         (Persistence.onDeathNote_run "A" (Persistence.Poll overthrownDb :: later)) = 0%nat.
Proof.
  split; [reflexivity|]. split; [reflexivity|].
  intros later. apply onDeathNote_never_calls_back.
Qed.

(** ** Shutdown *)

Lemma removeInstance_noop (self : string) (db : Persistence.Db) :
  Persistence.removeInstance self db = db.
Proof. reflexivity. Qed.

Lemma unregisterAll_instances (acts : list (ChartReference * string)) (db : Persistence.Db) :
  Persistence.instances
    (fold_left (fun acc a => Persistence.unregisterActivity (fst a) (snd a) acc) acts db)
  = Persistence.instances db.
Proof.
  revert db. induction acts as [|a acts IH]; intros db; simpl; [reflexivity|].
  rewrite IH. reflexivity.
Qed.

Lemma waitForAdoption_instances (others : Persistence.Db -> Persistence.Db)
    (fuel : nat) (self : string) (db db' : Persistence.Db) :
  (forall d, Persistence.instances (others d) = Persistence.instances d) ->
  Engine.waitForAdoption others fuel self db = Some db' ->
  Persistence.instances db' = Persistence.instances db.
Proof.
  intros Hothers. revert db. induction fuel as [|fuel IH]; intros db; simpl.
  - destruct (Nat.ltb 0 (Persistence.countOwnCharts self db)); [discriminate|].
    intros H; injection H as <-; reflexivity.
  - destruct (Nat.ltb 0 (Persistence.countOwnCharts self db)).
    + intros H. apply IH in H. rewrite H. apply Hothers.
    + intros H; injection H as <-; reflexivity.
Qed.

(** [shutdown] leaves the [instances] table as it found it, whatever the
    engine's state: no statement it runs deletes a row. *)
Lemma shutdown_keeps_instances (others : Persistence.Db -> Persistence.Db)
    (fuel : nat) (x x' : Engine.XJog) (db db' : Persistence.Db) :
  (forall d, Persistence.instances (others d) = Persistence.instances d) ->
  Engine.shutdown others fuel (x, db) = Some (x', db') ->
  Persistence.instances db' = Persistence.instances db.
Proof.
  intros Hothers. unfold Engine.shutdown.
  destruct (Engine.isDying x); [intros H; injection H as _ <-; reflexivity|].
  destruct (negb (Engine.isStarted (Engine.startupManager x)));
    [intros H; injection H as _ <-; reflexivity|].
  rewrite removeInstance_noop. cbn [DeferredEventManager.releaseAll].
  unfold Engine.stopAllActivities. cbn [Engine.activities Engine.withDeferred].
  set (dbA := fold_left _ (Engine.activities x) _).
  assert (HA : Persistence.instances dbA = Persistence.instances db).
  { subst dbA. rewrite unregisterAll_instances. reflexivity. }
  destruct (Nat.ltb 0 (Persistence.countAliveInstances dbA)).
  - destruct (Engine.waitForAdoption others fuel _ dbA) as [dbW|] eqn:HW; [|discriminate].
    intros H; injection H as _ <-.
    apply waitForAdoption_instances in HW; [|exact Hothers]. congruence.
  - intros H; injection H as _ <-. exact HA.
Qed.

(** While nobody takes the charts of [self] over, the polling loop of
    [shutdown] never ends. *)
Lemma waitForAdoption_stuck (others : Persistence.Db -> Persistence.Db)
    (fuel : nat) (self : string) (db : Persistence.Db) :
  (forall d, Persistence.countOwnCharts self (others d) = Persistence.countOwnCharts self d) ->
  (0 < Persistence.countOwnCharts self db)%nat ->
  Engine.waitForAdoption others fuel self db = None.
Proof.
  intros Hothers. revert db. induction fuel as [|fuel IH]; intros db Hown; simpl;
    destruct (Nat.ltb_spec 0 (Persistence.countOwnCharts self db)); try lia.
  - reflexivity.
  - apply IH. rewrite Hothers. exact Hown.
Qed.

(** An engine with no chart that has entry actions, alone on its database. *)
Definition idleRunStep : ChartReference -> Engine.Runtime -> Engine.Runtime :=
  fun _ runtime => runtime.

Definition nobodyElse : Persistence.Db -> Persistence.Db := fun db => db.

Definition emptyDb : Persistence.Db := Persistence.mkDb [] [] [] [] 1.

Definition defaultDeferredOptions : DeferredEventManager.Options :=
  DeferredEventManager.mkOptions 100 30000 30000.

Definition soleEngine : Engine.XJog :=
  Engine.create "A" (Engine.resolveXJogStartupOptions None None) 500.

(** C4 (the code departs from the claim).  The sole engine [A] starts on an
    empty database and shuts down.  [start] registers one instance row;
    [shutdown] completes and emits [halt], and the [instances] table still
    holds the row of [A], not flagged dying: [deleteInstance] runs no
    statement. *)
Theorem C4_shutdown_leaves_instance_row :
  match Engine.start idleRunStep defaultDeferredOptions 0 (soleEngine, emptyDb) with
  | (x, db, started) =>
      started = Returned tt
      /\ Persistence.instances db = [Persistence.mkInstance "A" false]
      /\ match Engine.shutdown nobodyElse 0 (x, db) with
         | Some (x', db') =>
             Engine.haltEvents x' = 1%nat
             /\ Persistence.instances db' = [Persistence.mkInstance "A" false]
         | None => False
         end
  end.
Proof. vm_compute. repeat split; reflexivity. Qed.

(** ** The list of scheduled deferred events *)

Lemma findIndexFrom_none {A} (p : A -> bool) (l : list A) (i : Z) :
  Forall (fun x => p x = false) l -> JsArray.findIndexFrom p l i = (-1)%Z.
Proof.
  intros H. revert i. induction H as [|x l Hx _ IH]; intros i; simpl; [reflexivity|].
  rewrite Hx. apply IH.
Qed.

(** With the index -1 that [findIndex] returns when nothing matches,
    [splice(-1, 0, e)] puts [e] in front of the last element. *)
Lemma splice_minus_one {A} (e x : A) (l : list A) :
  fst (JsArray.splice (-1) 0 [e] (l ++ [x])) = l ++ [e; x].
Proof.
  unfold JsArray.splice, JsArray.actualStart. simpl fst.
  rewrite length_app. simpl length.
  replace (Z.of_nat (length l + 1) + -1)%Z with (Z.of_nat (length l)) by lia.
  change ((-1 <? 0)%Z) with true. cbv iota.
  rewrite Z.max_l by lia.
  replace (Z.min (Z.max 0 0) (Z.of_nat (length l + 1) - Z.of_nat (length l)))%Z
    with 0%Z by lia.
  rewrite Nat2Z.id. change (Z.to_nat 0) with 0%nat. rewrite Nat.add_0_r.
  rewrite firstn_app, Nat.sub_diag, firstn_all. simpl firstn. rewrite app_nil_r.
  rewrite skipn_app, Nat.sub_diag, skipn_all. simpl. reflexivity.
Qed.

(** [schedule] of an event that no scheduled event is later than, on a list
    that is not empty: the event lands before the last element, not after. *)
Lemma schedule_latest_before_last (now : Z) (e x : Persistence.PersistedDeferredEvent)
    (l : list Persistence.PersistedDeferredEvent) (m : DeferredEventManager.Manager) :
  DeferredEventManager.deferredEvents m = l ++ [x] ->
  Forall (fun y => DeferredEventManager.isLater e y = false) (l ++ [x]) ->
  DeferredEventManager.deferredEvents (DeferredEventManager.schedule now e m)
  = l ++ [e; x].
Proof.
  intros Hm Hnone. unfold DeferredEventManager.schedule.
  cbn [DeferredEventManager.deferredEvents]. rewrite Hm.
  unfold JsArray.findIndex. rewrite (findIndexFrom_none _ _ _ Hnone).
  apply splice_minus_one.
Qed.

(** Two deferred events of one chart, due one second apart. *)
Definition firstEvent : Persistence.PersistedDeferredEvent :=
  Persistence.mkDeferred 1 (mkRef "m" "c") (Persistence.IdString "first") None
                         "{}" 0 1000 1000 None.

Definition secondEvent : Persistence.PersistedDeferredEvent :=
  Persistence.mkDeferred 2 (mkRef "m" "c") (Persistence.IdString "second") None
                         "{}" 0 2000 2000 None.

Definition twoEventsDb : Persistence.Db :=
  Persistence.mkDb [] [] [] [firstEvent; secondEvent] 3.

(** C9 (the code departs from the claim).  One batch cycle on a database
    with two unlocked events: the batch comes back ordered by (due, id),
    the events are scheduled in that order, and the manager's list ends up
    with the later event first. *)
Theorem C9_schedule_breaks_order :
  let '(m, db) :=
    DeferredEventManager.scheduleUpcoming false "A" defaultDeferredOptions 0
                                          DeferredEventManager.initial twoEventsDb in
  List.map Persistence.id (snd (Persistence.takeUpcomingDeferredEvents
                                  0 "A" 30000 100 twoEventsDb)) = [1%Z; 2%Z]
  /\ List.map Persistence.id (DeferredEventManager.deferredEvents m) = [2%Z; 1%Z]
  /\ DeferredEventManager.sortedByDueId (DeferredEventManager.deferredEvents m) = false.
Proof. vm_compute. repeat split; reflexivity. Qed.

(** ** The full-state snapshot *)

(** A sequence of upserts, each of which may fail. *)
Definition upsertAll (entries : list Journal.FullStateEntry) (st : Journal.Store)
  : Journal.Store :=
  fold_left (fun s entry => fst (Journal.updateFullState entry s)) entries st.

Lemma updateFullState_storedId (entry : Journal.FullStateEntry) (st : Journal.Store)
    (r : ChartReference) (old : Z) :
  Journal.storedId st r = Some old ->
  exists new, Journal.storedId (fst (Journal.updateFullState entry st)) r = Some new
              /\ (old <= new)%Z.
Proof.
  unfold Journal.storedId, Journal.updateFullState. intros Hold.
  set (key := (machineId (Journal.ref entry), chartId (Journal.ref entry))).
  destruct (Journal.fullJournalStates st !! key) as [existing|] eqn:Hkey.
  - destruct (Journal.f_id existing <? Journal.id entry)%Z eqn:Hlt.
    + cbn [fst Journal.fullJournalStates]. rewrite lookup_insert.
      destruct (decide (key = (machineId r, chartId r))) as [Heq|Hne].
      * rewrite <- Heq in Hold. rewrite Hkey in Hold. simpl in Hold.
        injection Hold as <-. eexists. split; [reflexivity|].
        cbn [Journal.f_id]. apply Z.ltb_lt in Hlt. lia.
      * exists old. split; [exact Hold|lia].
    + exists old. split; [exact Hold|lia].
  - cbn [fst Journal.fullJournalStates]. rewrite lookup_insert.
    destruct (decide (key = (machineId r, chartId r))) as [Heq|Hne].
    + rewrite <- Heq in Hold. rewrite Hkey in Hold. discriminate.
    + exists old. split; [exact Hold|lia].
Qed.

Lemma updateFullState_guard (entry : Journal.FullStateEntry) (st : Journal.Store)
    (old : Z) :
  Journal.storedId st (Journal.ref entry) = Some old ->
  (Journal.id entry <= old)%Z ->
  Journal.updateFullState entry st = (st, Thrown "Failed to write journal full entry").
Proof.
  unfold Journal.storedId, Journal.updateFullState. intros Hold Hle.
  destruct (Journal.fullJournalStates st !! _) as [existing|]; [|discriminate].
  simpl in Hold. injection Hold as <-.
  destruct (Journal.f_id existing <? Journal.id entry)%Z eqn:Hlt; [|reflexivity].
  apply Z.ltb_lt in Hlt. lia.
Qed.

(** C6.  Once a chart has a row in [fullJournalStates], the id of the row
    never decreases, whatever upserts follow; and an upsert that carries an
    id lower than or equal to the stored one changes nothing in the store
    (no row is written, and the method throws). *)
Theorem C6_full_state_id_never_decreases (entries : list Journal.FullStateEntry)
    (st : Journal.Store) (r : ChartReference) (old : Z) :
  Journal.storedId st r = Some old ->
  (exists new, Journal.storedId (upsertAll entries st) r = Some new /\ (old <= new)%Z)
  /\ (forall entry, Journal.ref entry = r -> (Journal.id entry <= old)%Z ->
        fst (Journal.updateFullState entry st) = st).
Proof.
  intros Hold. split.
  - revert st old Hold. induction entries as [|entry entries IH]; intros st old Hold.
    + exists old. split; [exact Hold|lia].
    + destruct (updateFullState_storedId entry st r old Hold) as (mid & Hmid & Hle).
      destruct (IH _ _ Hmid) as (new & Hnew & Hle').
      exists new. split; [exact Hnew|lia].
  - intros entry Href Hle. subst r.
    rewrite (updateFullState_guard entry st old Hold Hle). reflexivity.
Qed.

(** A store whose snapshot of chart [door/1] has id 5, and two writes for
    that chart: a late one with id 3 and a new one with id 7. *)
Definition snapshotStore : Journal.Store :=
  Journal.mkStore [] 8
    {[ ("door", "1") :=
         Journal.mkFullStateRow 5 100 500 "A" None None None
           (Some (JsonPatch.JString "open")) None ]}
    [].

Definition lateWrite : Journal.FullStateEntry :=
  Journal.mkFullStateEntry 3 300 "A" (mkRef "door" "1") None JsonPatch.JNull
                           (JsonPatch.JString "closed") JsonPatch.JNull.

Definition newWrite : Journal.FullStateEntry :=
  Journal.mkFullStateEntry 7 700 "A" (mkRef "door" "1") None JsonPatch.JNull
                           (JsonPatch.JString "closed") JsonPatch.JNull.

Lemma C6_witness :
  Journal.storedId snapshotStore (mkRef "door" "1") = Some 5%Z
  /\ (exists new, Journal.storedId (upsertAll [lateWrite; newWrite] snapshotStore)
                                   (mkRef "door" "1") = Some new /\ (5 <= new)%Z)
  /\ fst (Journal.updateFullState lateWrite snapshotStore) = snapshotStore.
Proof.
  assert (H : Journal.storedId snapshotStore (mkRef "door" "1") = Some 5%Z)
    by reflexivity.
  destruct (C6_full_state_id_never_decreases [lateWrite; newWrite] snapshotStore
              (mkRef "door" "1") 5%Z H) as [Hseq Hguard].
  split; [exact H|]. split; [exact Hseq|].
  apply Hguard; [reflexivity|]. vm_compute. discriminate.
Defined.

(** ** Journal deltas *)

Section Deltas.

Import JsonPatch.

(** The two functions of the rfc6902 package: [createPatch(input, output)]
    and [applyPatch(object, patch)] (the object after the call). *)
Variable createPatch : Json -> Json -> list Operation.
Variable applyPatch : Json -> list Operation -> Json.

(** [record] appends one entry, whose deltas are the patches from the new
    value to the old one; this also holds when the update of the full state
    throws afterwards. *)
Lemma record_appends_entry (now : Z) (owner : string) (r : ChartReference)
    (parent : option ChartReference)
    (ev oldState oldContext newState newContext : Json) (st : Journal.Store) :
  exists entry,
    Journal.journalEntries
      (fst (Journal.record createPatch now owner r parent ev
                           oldState oldContext newState newContext st))
    = Journal.journalEntries st ++ [entry]
    /\ Journal.j_id entry = Journal.journalSeq st
    /\ Journal.stateDelta entry = createPatch newState oldState
    /\ Journal.contextDelta entry = createPatch newContext oldContext.
Proof.
  unfold Journal.record, Journal.insertEntry.
  exists (Journal.mkJournalRow (Journal.journalSeq st) now (machineId r) (chartId r)
            (Journal.bufferOrNull ev) None None
            (createPatch newState oldState) (createPatch newContext oldContext)).
  split; [|repeat split].
  destruct (Journal.updateFullState _ _) as [st2 [u|e]] eqn:Hupd;
      unfold Journal.updateFullState in Hupd;
      cbn [Journal.fullJournalStates Journal.journalEntries Journal.journalSeq
           Journal.notifications Journal.ref Journal.id] in Hupd;
      destruct (Journal.fullJournalStates st !! _) as [existing|];
      try destruct (Journal.f_id existing <? Journal.journalSeq st)%Z;
      inversion Hupd; subst; reflexivity.
Qed.

(** As a patch in the sense of RFC 6902, the stored delta leads from the new
    value back to the old one, provided [createPatch] keeps its contract. *)
Lemma record_delta_leads_back (now : Z) (owner : string) (r : ChartReference)
    (parent : option ChartReference)
    (ev oldState oldContext newState newContext : Json) (st : Journal.Store) :
  (forall input output, patched input (createPatch input output) = Some output) ->
  exists entry,
    last (Journal.journalEntries
            (fst (Journal.record createPatch now owner r parent ev
                                 oldState oldContext newState newContext st)))
    = Some entry
    /\ patched newState (Journal.stateDelta entry) = Some oldState
    /\ patched newContext (Journal.contextDelta entry) = Some oldContext.
Proof.
  intros Hcontract.
  destruct (record_appends_entry now owner r parent ev oldState oldContext
                                 newState newContext st)
    as (entry & Happ & _ & Hs & Hc).
  exists entry. rewrite Happ, last_snoc, Hs, Hc. auto.
Qed.

(** A patch that is the single operation [replace] at the root is applied
    by hand: its value is the result. *)
Lemma nullSafeApplyJsonDiff_root_replace (input v : Json) :
  nullSafeApplyJsonDiff applyPatch input [mkOp OpReplace EmptyString (Some v) None] = Returned v.
Proof. reflexivity. Qed.

(** Any other patch on a string, a number or [null] is refused, the empty
    patch included. *)
Lemma nullSafeApplyJsonDiff_refuses (input : Json) (patch : list Operation) :
  isRootReplace patch = false ->
  isStringNumberOrNull input = true ->
  nullSafeApplyJsonDiff applyPatch input patch
  = Thrown "Complex patch but input is not an object".
Proof.
  intros Hroot Hprim. unfold nullSafeApplyJsonDiff. rewrite Hroot, Hprim. reflexivity.
Qed.

(** C2 (the code departs from the claim).  An event leaves the state value
    of chart [delta-01/1] at ["home"].  [createPatch] of two equal strings
    is the empty patch; [record] stores it as the entry's [stateDelta]; and
    [nullSafeApplyJsonDiff], applied to the entry's state ["home"] and that
    delta, throws instead of giving back the older state ["home"]. *)
Theorem C2_empty_delta_is_not_applied (now : Z) (st : Journal.Store)
    (oldContext newContext : Json) :
  createPatch (JString "home") (JString "home") = [] ->
  exists entry,
    last (Journal.journalEntries
            (fst (Journal.record createPatch now "A" (mkRef "delta-01" "1") None
                                 (JString "get restless")
                                 (JString "home") oldContext
                                 (JString "home") newContext st)))
    = Some entry
    /\ Journal.stateDelta entry = []
    /\ nullSafeApplyJsonDiff applyPatch (JString "home") (Journal.stateDelta entry)
       = Thrown "Complex patch but input is not an object".
Proof.
  intros Hsame.
  destruct (record_appends_entry now "A" (mkRef "delta-01" "1") None
              (JString "get restless") (JString "home") oldContext
              (JString "home") newContext st)
    as (entry & Happ & _ & Hs & _).
  exists entry. rewrite Happ, last_snoc, Hs, Hsame.
  split; [reflexivity|]. split; [reflexivity|].
  apply nullSafeApplyJsonDiff_refuses; reflexivity.
Qed.

End Deltas.

(** A [createPatch] that only ever diffs at the root: no operation for equal
    values, one [replace] of the whole value otherwise. *)
Definition rootPatch (input output : JsonPatch.Json) : list JsonPatch.Operation :=
  if JsonPatch.json_eqb input output then []
  else [JsonPatch.mkOp JsonPatch.OpReplace EmptyString (Some output) None].

Lemma C2_witness :
  rootPatch (JsonPatch.JString "home") (JsonPatch.JString "home") = []
  /\ exists entry,
       last (Journal.journalEntries
               (fst (Journal.record rootPatch 0 "A" (mkRef "delta-01" "1") None
                       (JsonPatch.JString "get restless")
                       (JsonPatch.JString "home") (JsonPatch.JObject [])
                       (JsonPatch.JString "home") (JsonPatch.JObject [])
                       Journal.emptyStore)))
       = Some entry
       /\ Journal.stateDelta entry = []
       /\ JsonPatch.nullSafeApplyJsonDiff (fun doc _ => doc) (JsonPatch.JString "home")
            (Journal.stateDelta entry)
          = Thrown "Complex patch but input is not an object".
Proof.
  split; [reflexivity|].
  apply (C2_empty_delta_is_not_applied rootPatch (fun doc _ => doc) 0
           Journal.emptyStore (JsonPatch.JObject []) (JsonPatch.JObject [])).
  reflexivity.
Defined.

(** ** [send]: failures before persistence, and the done event *)

Section Send.

Import Chart.

Variable HookStore : Type.
Variable transition : State -> ScxmlEvent -> JsonPatch.Json -> Outcome State.
Variable stringify : State -> string.
Variable stringifyEvent : ScxmlEvent -> string.
Variable executeActions : State -> Persistence.Db -> Persistence.Db * Outcome unit.
Variable resolveDoneData : State -> JsonPatch.Json.

Local Abbreviation World := (Chart.World HookStore).
Local Abbreviation send :=
  (Chart.send transition stringify stringifyEvent executeActions resolveDoneData).

(** The hooks write to their own store and nowhere else. *)
Lemma callHooks_frame (hooks : list (UpdateHook HookStore)) (change : XJogStateChange)
    (w : World) :
  let w' := fst (callHooks hooks change w) in
  db w' = db w /\ state w' = state w
  /\ deferredEventManager w' = deferredEventManager w
  /\ chartRef w' = chartRef w /\ chartParentRef w' = chartParentRef w.
Proof.
  revert w. induction hooks as [|hook hooks IH]; intros w; simpl; [auto|].
  destruct (hook change (hookStore w)) as [h [u|e]]; simpl.
  - specialize (IH (withHookStore h (emit (HookCalled change) w))).
    simpl in IH. exact IH.
  - auto.
Qed.

(** The transition or a hook raises, after a context patch (if any) that
    did not raise itself. *)
Definition raisesBeforePersistence (ev : ScxmlEvent) (patch : option ContextPatch)
    (w : World) : Prop :=
  match patchContext patch (emit MutexAcquired w) with
  | (wp, Returned _) =>
      match transition (state wp) ev (context (state wp)) with
      | Thrown _ => True
      | Returned next =>
          let w1 := emit CacheRefreshed (withState next wp) in
          let change :=
            mkChange ChangeUpdate (chartRef w1) (chartParentRef w1) (Some ev)
                     (Some (mkChangeState (value (state w)) (context (state w))))
                     (Some (mkChangeState (value next) (context next))) in
          exists e, snd (callHooks (updateHooks w1) change w1) = Thrown e
      end
  | (_, Thrown _) => False
  end.

(** The in-memory state such a [send] leaves behind: the new state when the
    transition went through, the state with the patched context otherwise. *)
Definition stateLeftBehind (ev : ScxmlEvent) (patch : option ContextPatch) (w : World)
  : State :=
  let wp := fst (patchContext patch w) in
  match transition (state wp) ev (context (state wp)) with
  | Thrown _ => state wp
  | Returned next => next
  end.

Lemma patchContext_emit (patch : option ContextPatch) (e : Effect) (w : World) :
  patchContext patch (emit e w)
  = (emit e (fst (patchContext patch w)), snd (patchContext patch w)).
Proof.
  destruct patch as [[f|fields]|]; simpl; try reflexivity.
  destruct (f _); reflexivity.
Qed.

Lemma patchContext_db (patch : option ContextPatch) (w : World) :
  db (fst (patchContext patch w)) = db w.
Proof.
  destruct patch as [[f|fields]|]; simpl; try reflexivity.
  destruct (f _); reflexivity.
Qed.

(** A [send] on a chart that is not stopping, in an engine that is not
    dying, in which the transition or a hook raises: the result is [null],
    the database is as before, and the in-memory state is [stateLeftBehind]. *)
Lemma send_raising (now : Z) (actionId : Persistence.EventIdent) (ev : ScxmlEvent)
    (patch : option ContextPatch) (w : World) :
  stopping w = false -> engineDying w = false ->
  raisesBeforePersistence ev patch w ->
  snd (send now actionId ev patch w) = Returned None
  /\ db (fst (send now actionId ev patch w)) = db w
  /\ state (fst (send now actionId ev patch w)) = stateLeftBehind ev patch w.
Proof.
  intros Hstop Hdying Hraise.
  unfold Chart.send, Chart.sendTry, raisesBeforePersistence, stateLeftBehind in *.
  rewrite Hstop, Hdying. cbn [orb].
  rewrite patchContext_emit in *.
  pose proof (patchContext_db patch w) as Hdb.
  destruct (patchContext patch w) as [wp [u|e]]; cbn [fst snd] in *; [|contradiction].
  destruct (transition (state (emit MutexAcquired wp)) ev
                       (context (state (emit MutexAcquired wp)))) as [next|e] eqn:Htr;
    cbn [state emit] in Htr; rewrite Htr.
  - destruct Hraise as [e He].
    match goal with
    | |- context [callHooks ?hs ?c ?w0] =>
        pose proof (callHooks_frame hs c w0) as Hframe;
        destruct (callHooks hs c w0) as [wh [u'|e']] eqn:Hcall
    end.
    + cbn [emit withState chartRef chartParentRef state value context updateHooks] in He, Hcall.
      rewrite Hcall in He. discriminate.
    + cbn [fst snd] in *. destruct Hframe as (Hd & Hs & _).
      cbn [emit db state withState] in *. repeat split; congruence.
  - cbn [fst snd emit db state]. repeat split; congruence.
Qed.

Lemma patchContext_frame (patch : option ContextPatch) (w : World) :
  let w' := fst (patchContext patch w) in
  chartRef w' = chartRef w /\ chartParentRef w' = chartParentRef w
  /\ deferredEventManager w' = deferredEventManager w
  /\ effects w' = effects w /\ updateHooks w' = updateHooks w.
Proof.
  destruct patch as [[f|fields]|]; simpl; auto. destruct (f _); simpl; auto.
Qed.

Definition quiet (e : Effect) : bool := negb (isDeferred e) && negb (isSentDirectly e).

Lemma callHooks_effects (hooks : list (UpdateHook HookStore)) (change : XJogStateChange)
    (w : World) :
  exists called, effects (fst (callHooks hooks change w)) = effects w ++ called
                 /\ forallb quiet called = true.
Proof.
  revert w. induction hooks as [|hook hooks IH]; intros w; simpl.
  - exists []. rewrite app_nil_r. auto.
  - destruct (hook change (hookStore w)) as [h [u|e]]; simpl.
    + destruct (IH (withHookStore h (emit (HookCalled change) w))) as (called & -> & Hq).
      exists (HookCalled change :: called). simpl. rewrite <- app_assoc. auto.
    + exists [HookCalled change]. auto.
Qed.

(** What the [try] block leaves alone, and which effects it may add: it
    neither defers an event nor sends one. *)
Lemma sendTry_frame (ev : ScxmlEvent) (patch : option ContextPatch)
    (before : XJogStateChangeState) (w : World) :
  let w' := fst (Chart.sendTry transition stringify executeActions ev patch before w) in
  chartRef w' = chartRef w /\ chartParentRef w' = chartParentRef w
  /\ deferredEventManager w' = deferredEventManager w
  /\ exists added, effects w' = effects w ++ added /\ forallb quiet added = true.
Proof.
  unfold Chart.sendTry.
  pose proof (patchContext_frame patch w) as Hp.
  destruct (patchContext patch w) as [wp [u|e]]; cbn [fst] in Hp |- *;
    destruct Hp as (Hr & Hpar & Hm & He & Hh).
  2:{ repeat split; try assumption. exists []. rewrite app_nil_r. auto. }
  destruct (transition (state wp) ev (context (state wp))) as [next|e]; cbn [fst].
  2:{ repeat split; try assumption. exists []. rewrite app_nil_r. auto. }
  set (w1 := emit CacheRefreshed (withState next wp)).
  set (change := mkChange _ _ _ _ _ _).
  pose proof (callHooks_frame (updateHooks w1) change w1) as Hframe.
  pose proof (callHooks_effects (updateHooks w1) change w1) as (called & Hcalled & Hq).
  destruct (callHooks (updateHooks w1) change w1) as [wh [u'|e']]; cbn [fst] in *;
    destruct Hframe as (_ & _ & Hm' & Hr' & Hpar').
  2:{ subst w1. cbn [emit withState chartRef chartParentRef deferredEventManager
                      effects] in *.
      repeat split; try congruence.
      exists (CacheRefreshed :: called). rewrite Hcalled, He, <- app_assoc. auto. }
  destruct (executeActions _ _) as [d [u''|e'']]; cbn [fst];
    subst w1;
    cbn [emit withState withDb chartRef chartParentRef deferredEventManager effects] in *;
    (repeat split; try congruence).
  - eexists. rewrite Hcalled, He, <- !app_assoc. split; [reflexivity|].
    cbn [app forallb]. rewrite forallb_app, Hq. reflexivity.
  - eexists. rewrite Hcalled, He, <- !app_assoc. split; [reflexivity|].
    cbn [app forallb]. rewrite forallb_app, Hq. reflexivity.
Qed.

(** When nothing raises, the chart is in a final state and has a parent,
    the done event goes to the parent through [sendEvent], after the mutex
    is released; [send] defers nothing and leaves the deferred-event
    manager alone. *)
Lemma send_done_is_sent_directly (now : Z) (actionId : Persistence.EventIdent)
    (ev : ScxmlEvent) (patch : option ContextPatch) (w : World) (parent : ChartReference)
    (next : State) :
  stopping w = false -> engineDying w = false ->
  chartParentRef w = Some parent ->
  snd (send now actionId ev patch w) = Returned (Some next) ->
  done next = true ->
  exists added,
    effects (fst (send now actionId ev patch w))
    = effects w ++ added
        ++ [MutexReleased;
            SentDirectly parent (doneInvoke (chartId (chartRef w)) (resolveDoneData next));
            AutoForwarded ev]
    /\ forallb quiet added = true
    /\ deferredEventManager (fst (send now actionId ev patch w)) = deferredEventManager w.
Proof.
  intros Hstop Hdying Hparent Hres Hdone.
  unfold Chart.send in *. rewrite Hstop, Hdying in *. cbn [orb] in *.
  set (before := mkChangeState _ _) in *.
  pose proof (sendTry_frame ev patch before (emit MutexAcquired w)) as Hframe.
  destruct (Chart.sendTry transition stringify executeActions ev patch before
                          (emit MutexAcquired w)) as [w1 [u|e]];
    cbn [fst snd] in *; [|discriminate].
  destruct Hframe as (Hr & Hpar & Hm & added & Hadd & Hq).
  cbn [emit chartRef chartParentRef deferredEventManager effects] in Hr, Hpar, Hm, Hadd.
  cbn [emit chartParentRef state] in Hres |- *.
  rewrite Hpar, Hparent in Hres |- *.
  destruct (done (state w1)) eqn:Hd.
  - cbn [emit state effects deferredEventManager chartRef] in Hres |- *.
    injection Hres as <-.
    exists (MutexAcquired :: added). rewrite Hadd, Hr, <- !app_assoc.
    split; [reflexivity|]. split; [exact Hq|exact Hm].
  - cbn [emit state] in Hres. injection Hres as <-. congruence.
Qed.

End Send.

(** A child chart [child/1] invoked by [parent/1]: the event [finish] takes
    it to its final state, the event [crash] makes the evaluator raise (a
    guard that throws), any other event leaves the state as it is. *)
Definition childTransition (s : Chart.State) (ev : Chart.ScxmlEvent)
    (ctx : JsonPatch.Json) : Outcome Chart.State :=
  if String.eqb (Chart.name ev) "finish"
  then Returned (Chart.mkState (JsonPatch.JString "finished") ctx true EmptyString)
  else if String.eqb (Chart.name ev) "crash" then Thrown "guard raised"
  else Returned (Chart.mkState (Chart.value s) ctx (Chart.done s) (Chart.rest s)).

Definition showState (s : Chart.State) : string :=
  match Chart.value s with JsonPatch.JString v => v | _ => EmptyString end.

Definition noActions (s : Chart.State) (db : Persistence.Db)
  : Persistence.Db * Outcome unit := (db, Returned tt).

Definition noDoneData (s : Chart.State) : JsonPatch.Json := JsonPatch.JNull.

Definition childDb : Persistence.Db :=
  Persistence.mkDb
    [Persistence.mkInstance "A" false]
    [Persistence.mkChart (Some "A") "parent" "1" None None "waiting" false;
     Persistence.mkChart (Some "A") "child" "1" (Some "parent") (Some "1") "working" false]
    [] [] 1.

Definition working : Chart.State :=
  Chart.mkState (JsonPatch.JString "working")
                (JsonPatch.JObject [("calls", JsonPatch.JNumber 0)]) false EmptyString.

Definition childWorld (hooks : list (Chart.UpdateHook unit)) : Chart.World unit :=
  Chart.mkWorld (mkRef "child" "1") (Some (mkRef "parent" "1")) working false false
                hooks tt childDb DeferredEventManager.initial [].

Definition failingHook : Chart.UpdateHook unit :=
  fun _ store => (store, Thrown "hook failed").

Definition childSend :=
  @Chart.send unit childTransition showState Chart.name noActions noDoneData 0
             (Persistence.IdString "send-1").

(** C7 (the code departs from the claim).  A failed [send] is not rolled
    back.  On the child chart in state [working], with one update hook that
    throws, the event [finish] makes [send] return [null] with the database
    as before, but the chart is left in the new state [finished]: the state
    was assigned before the hooks ran and the catch block restores nothing.
    Likewise a context patch given with an event whose transition raises
    stays applied. *)
Theorem C7_failed_send_is_not_rolled_back :
  (let w := childWorld [failingHook] in
   let '(w', result) := childSend (Chart.mkEvent "finish" JsonPatch.JNull) None w in
   result = Returned None /\ Chart.db w' = Chart.db w
   /\ Chart.value (Chart.state w) = JsonPatch.JString "working"
   /\ Chart.value (Chart.state w') = JsonPatch.JString "finished"
   /\ Chart.state w' <> Chart.state w)
  /\ (let w := childWorld [] in
      let patch := Chart.PatchObject (JsonPatch.JObject [("calls", JsonPatch.JNumber 1)]) in
      let '(w', result) := childSend (Chart.mkEvent "crash" JsonPatch.JNull) (Some patch) w in
      result = Returned None /\ Chart.db w' = Chart.db w
      /\ Chart.context (Chart.state w)
         = JsonPatch.JObject [("calls", JsonPatch.JNumber 0)]
      /\ Chart.context (Chart.state w')
         = JsonPatch.JObject [("calls", JsonPatch.JNumber 1)]
      /\ Chart.state w' <> Chart.state w).
Proof.
  split; vm_compute; repeat split; try reflexivity; discriminate.
Qed.

(** C8 (the code departs from the claim).  The child chart reaches its final
    state: [send] returns the final state; after releasing the mutex it
    passes [done.invoke.1] to the parent by a direct [sendEvent]; no event
    is deferred, the [deferredEvents] table stays empty and the
    deferred-event manager has scheduled nothing. *)
Theorem C8_done_event_is_sent_directly :
  let w := childWorld [] in
  let '(w', result) := childSend (Chart.mkEvent "finish" JsonPatch.JNull) None w in
  result = Returned (Some (Chart.mkState (JsonPatch.JString "finished")
                             (JsonPatch.JObject [("calls", JsonPatch.JNumber 0)]) true EmptyString))
  /\ List.filter (fun e => Chart.isSentDirectly e || Chart.isDeferred e) (Chart.effects w')
     = [Chart.SentDirectly (mkRef "parent" "1")
          (Chart.mkEvent "done.invoke.1" JsonPatch.JNull)]
  /\ last (Chart.effects w')
     = Some (Chart.AutoForwarded (Chart.mkEvent "finish" JsonPatch.JNull))
  /\ Persistence.deferredEvents (Chart.db w') = []
  /\ Chart.deferredEventManager w' = DeferredEventManager.initial.
Proof. vm_compute. repeat split; reflexivity. Qed.

(** ** The adoption loop and the grace period *)

Section Adoption.

Import Engine.

Variable runStep : ChartReference -> Runtime -> Runtime.

Lemma startAdoptedCharts_frame (refs : list ChartReference) (w : XJog * Persistence.Db) :
  let x' := fst (startAdoptedCharts runStep refs w) in
  id x' = id (fst w) /\ startupOptions x' = startupOptions (fst w)
  /\ startupManager x' = startupManager (fst w)
  /\ forciblyAdoptCalls x' = forciblyAdoptCalls (fst w).
Proof.
  unfold startAdoptedCharts. revert w.
  induction refs as [|r refs IH]; intros w; cbn [fold_left]; [auto|].
  destruct (IH (runStepOf runStep r w)) as (H1 & H2 & H3 & H4).
  cbn zeta in *. rewrite H1, H2, H3, H4.
  destruct w as [x db]. unfold runStepOf.
  destruct (runStep r _) as [[acts m] db']. auto.
Qed.

(** The database after a pass, before the adopted charts are started. *)
Definition pausedAfterGentleAdoption (x : XJog) (db : Persistence.Db) : nat :=
  Persistence.getPausedChartCount (fst (Persistence.gentlyAdoptCharts (id x) db)).

Lemma adoptCharts_more_to_adopt (now : Z) (x : XJog) (db : Persistence.Db) :
  (0 < pausedAfterGentleAdoption x db)%nat ->
  let x' := fst (adoptCharts runStep now (x, db)) in
  startupGracePeriodTimer (startupManager x') = Some (now + gracePeriod (startupOptions x))%Z
  /\ adoptionLoopTimer (startupManager x')
     = Some (now + adoptionFrequency (startupOptions x))%Z
  /\ isReady (startupManager x') = isReady (startupManager x)
  /\ forciblyAdoptCalls x' = forciblyAdoptCalls x.
Proof.
  intros Hpaused. unfold adoptCharts, pausedAfterGentleAdoption in *.
  destruct (Persistence.gentlyAdoptCharts (id (stopAdoptionLoop x)) db)
    as [db1 adopted] eqn:Hg.
  change (id (stopAdoptionLoop x)) with (id x) in Hg. rewrite Hg in Hpaused.
  cbn [fst] in Hpaused. apply Nat.ltb_lt in Hpaused.
  destruct adopted as [|r adopted].
  - rewrite Hpaused. cbn. auto.
  - pose proof (startAdoptedCharts_frame (r :: adopted) (stopAdoptionLoop x, db1)) as Hf.
    destruct (startAdoptedCharts runStep (r :: adopted) (stopAdoptionLoop x, db1))
      as [x1 db2].
    cbn [fst] in Hf. destruct Hf as (H1 & H2 & H3 & H4).
    rewrite Hpaused. cbn [fst]. destruct x1 as [? ? ? ? [? ? ? ?] ? ? ? ? ? ?].
    cbn in *. subst. inversion H3; subst. auto.
Qed.

Lemma adoptCharts_all_adopted (now : Z) (x : XJog) (db : Persistence.Db) :
  pausedAfterGentleAdoption x db = 0%nat ->
  let x' := fst (adoptCharts runStep now (x, db)) in
  startupGracePeriodTimer (startupManager x') = None
  /\ adoptionLoopTimer (startupManager x') = None
  /\ isReady (startupManager x') = true.
Proof.
  intros Hpaused. unfold adoptCharts, pausedAfterGentleAdoption in *.
  destruct (Persistence.gentlyAdoptCharts (id (stopAdoptionLoop x)) db)
    as [db1 adopted] eqn:Hg.
  change (id (stopAdoptionLoop x)) with (id x) in Hg. rewrite Hg in Hpaused.
  cbn [fst] in Hpaused.
  destruct adopted as [|r adopted].
  - rewrite Hpaused. cbn. auto.
  - pose proof (startAdoptedCharts_frame (r :: adopted) (stopAdoptionLoop x, db1)) as Hf.
    destruct (startAdoptedCharts runStep (r :: adopted) (stopAdoptionLoop x, db1))
      as [x1 db2].
    cbn [fst] in Hf. destruct Hf as (H1 & H2 & H3 & H4).
    rewrite Hpaused. cbn [fst Nat.ltb Nat.leb].
    destruct x1 as [? ? ? ? [? ? ? ?] ? ? ? ? ? ?].
    cbn in *. inversion H3; subst. auto.
Qed.

Lemma forciblyOverThrow_calls (x : XJog) (db : Persistence.Db) :
  let w' := forciblyOverThrowStubbornInstances runStep (x, db) in
  forciblyAdoptCalls (fst w') = S (forciblyAdoptCalls x)
  /\ snd w'
     = snd (startAdoptedCharts runStep (Persistence.getPausedChartIds db)
              (countForciblyAdopt (exitAdoptionGracePeriod x),
               fst (Persistence.forciblyAdoptCharts (id x) db)))
  /\ isReady (startupManager (fst w')) = true
  /\ startupGracePeriodTimer (startupManager (fst w')) = None.
Proof.
  unfold forciblyOverThrowStubbornInstances.
  change (id (countForciblyAdopt (exitAdoptionGracePeriod x))) with (id x).
  unfold Persistence.forciblyAdoptCharts, Persistence.withTransaction. cbn [fst snd].
  match goal with
  | |- context [startAdoptedCharts runStep ?refs ?w0] =>
      pose proof (startAdoptedCharts_frame refs w0) as Hf;
      destruct (startAdoptedCharts runStep refs w0) as [x1 db2]
  end.
  cbn [fst snd] in *. destruct Hf as (H1 & H2 & H3 & H4).
  destruct x1 as [? ? ? ? [? ? ? ?] ? ? ? ? ? ?]. cbn in *.
  inversion H3; subst. auto.
Qed.

End Adoption.

(** Instance [A] has crashed while its chart [simple/busy] was running an
    activity: its rows are still in the database.  Instance [B] starts with
    [adoptionFrequency] 10 ms and [gracePeriod] 75 ms. *)
Definition crashedDb : Persistence.Db :=
  Persistence.mkDb
    [Persistence.mkInstance "A" false]
    [Persistence.mkChart (Some "A") "simple" "busy" None None "working" false]
    [Persistence.mkActivity "simple" "busy" "invoked-by-A"]
    [] 1.

Definition usurper : Engine.XJog :=
  Engine.create "B" (Engine.resolveXJogStartupOptions (Some 10%Z) (Some 75%Z)) 500.

Definition usurperStarted : Engine.XJog * Persistence.Db :=
  match Engine.start idleRunStep defaultDeferredOptions 0 (usurper, crashedDb) with
  | (x, db, _) => (x, db)
  end.

(** The state of [B] between two passes: the pass at time [t] has left the
    chart paused and armed both timers. *)
Definition pausedDb : Persistence.Db :=
  Persistence.mkDb
    [Persistence.mkInstance "A" true; Persistence.mkInstance "B" false]
    [Persistence.mkChart (Some "A") "simple" "busy" None None "working" true]
    [Persistence.mkActivity "simple" "busy" "invoked-by-A"]
    [] 1.

Definition waiting (t : Z) : Engine.XJog * Persistence.Db :=
  (Engine.mkXJog "B" (Engine.mkStartupOptions 10 75) 500 false
     (Engine.mkStartup true false (Some (t + 75)%Z) (Some (t + 10)%Z))
     (DeferredEventManager.mkManager 30000 (Some 30000%Z) [] ∅)
     [] (Some Persistence.onDeathNote) 0 0 0,
   pausedDb).

Lemma usurperStarted_waiting : usurperStarted = waiting 0.
Proof. vm_compute. reflexivity. Qed.

Lemma waiting_pass (t : Z) :
  Engine.adoptCharts idleRunStep (t + 10) (waiting t) = waiting (t + 10)%Z.
Proof. reflexivity. Qed.

(** However many timers fire, it is always the loop's timer: the grace
    timer has been moved on by the pass before, and the forcible adoption
    is never reached. *)
Lemma usurper_never_adopts_forcibly (n : nat) (t : Z) :
  Engine.runTimers idleRunStep n t (waiting t)
  = ((t + 10 * Z.of_nat n)%Z, waiting (t + 10 * Z.of_nat n)%Z).
Proof.
  revert t. induction n as [|n IH]; intros t.
  - cbn [Engine.runTimers]. rewrite Z.mul_0_r, Z.add_0_r. reflexivity.
  - cbn [Engine.runTimers].
    assert (Hfire : Engine.fireNextTimer idleRunStep (waiting t)
                    = Some ((t + 10)%Z, waiting (t + 10)%Z)).
    { assert (Hnext : Engine.nextTimer (fst (waiting t))
                      = Some (Engine.AdoptionTimer, (t + 10)%Z)).
      { unfold Engine.nextTimer.
        change (Engine.startupGracePeriodTimer (Engine.startupManager (fst (waiting t))))
          with (Some (t + 75)%Z).
        change (Engine.adoptionLoopTimer (Engine.startupManager (fst (waiting t))))
          with (Some (t + 10)%Z).
        cbv beta iota.
        destruct (Z.leb_spec (t + 75) (t + 10)); [lia|reflexivity]. }
      unfold Engine.fireNextTimer. rewrite Hnext, waiting_pass. reflexivity. }
    rewrite Hfire, IH. f_equal; [lia|]. f_equal. lia.
Qed.

(** C5 (the code departs from the claim).  Forcible adoption is never
    reached while a pass leaves a paused chart behind.  After its start at
    time 0, [B] has one paused chart left, which has an ongoing activity,
    and a grace timer set for 75 ms.  Every pass of the adoption loop, 10 ms
    after the one before, leaves the chart paused and sets the grace timer
    anew, 75 ms after that pass.  So after any number [n] of fired timers
    the time is [10 * n] ms, the chart is still paused, the grace timer has
    not fired, [forciblyAdoptCharts] has not been called and the engine is
    not ready: also long after the 75 ms of the grace period. *)
Theorem C5_forcible_adoption_is_never_reached (n : nat) :
  Engine.startupGracePeriodTimer (Engine.startupManager (fst usurperStarted)) = Some 75%Z
  /\ Persistence.countPausedCharts (snd usurperStarted) = 1%nat
  /\ (let '(t, (x, db)) := Engine.runTimers idleRunStep n 0 usurperStarted in
      t = (10 * Z.of_nat n)%Z
      /\ Persistence.countPausedCharts db = 1%nat
      /\ Engine.startupGracePeriodTimer (Engine.startupManager x) = Some (t + 75)%Z
      /\ Engine.forciblyAdoptCalls x = 0%nat
      /\ Engine.isReady (Engine.startupManager x) = false).
Proof.
  split; [reflexivity|]. split; [reflexivity|].
  rewrite usurperStarted_waiting, usurper_never_adopts_forcibly.
  rewrite Z.add_0_l. repeat split; reflexivity.
Qed.

(** ** Chart identifiers and their URIs *)

Section Strings.

Local Arguments String.append !s1 s2 : simpl nomatch.













End Strings.

Section PercentEncoding.

Local Arguments String.append !s1 s2 : simpl nomatch.





















End PercentEncoding.

Section DotSegments.

Local Arguments String.append !s1 s2 : simpl nomatch.













End DotSegments.

Section RoundTrip.

Local Arguments String.append !s1 s2 : simpl nomatch.










End RoundTrip.

Section Identifier.

Local Arguments String.append !s1 s2 : simpl nomatch.

Variable parseAuthority : string -> option string.
Variable parseSpecial : string -> string -> option Url.URL.










End Identifier.

(** Stand-ins for the two platform parsers; a reference without host and a
    [xjog+chart] URI without authority never reach them. *)
Definition hostAsWritten (authority : string) : option string := Some authority.
Definition noSpecialScheme (scheme rest : string) : option Url.URL := None.





(** * Further properties

    Properties of the code beyond the statements of the specification, read
    off the sources. *)

(** ** The persistence adapter: instances, charts, activities *)

Section PersistenceProperties.

Import Persistence.

Lemma ref_eqb_eq (a b : ChartReference) : ref_eqb a b = true <-> a = b.
Proof.
  destruct a as [m c], b as [m' c']. unfold ref_eqb. simpl.
  rewrite andb_true_iff, !String.eqb_eq. split.
  - intros [-> ->]. reflexivity.
  - intros H. injection H as -> ->. auto.
Qed.

Lemma ref_eqb_refl (a : ChartReference) : ref_eqb a a = true.
Proof. apply ref_eqb_eq. reflexivity. Qed.

Lemma existsb_map_comp {A B} (f : B -> bool) (g : A -> B) (l : list A) :
  existsb f (List.map g l) = existsb (fun x => f (g x)) l.
Proof. induction l as [|x l IH]; simpl; [reflexivity|rewrite IH; reflexivity]. Qed.

Lemma countAlive_all_dying (l : list InstanceRow) :
  List.filter (fun i => negb (dying i))
              (List.map (fun i => mkInstance (instanceId i) true) l) = [].
Proof. induction l as [|i l IH]; simpl; [reflexivity|exact IH]. Qed.

Lemma filter_paused_all (l : list ChartRow) :
  List.filter paused (List.map pause l) = List.map pause l.
Proof. induction l as [|c l IH]; simpl; [reflexivity|rewrite IH; reflexivity]. Qed.

(** X1.  [overthrowOtherInstances] for an instance id that has no row yet:
    the call returns; afterwards the new instance is the only one alive,
    every instance that was there before is flagged dying, every chart is
    paused, and no chart has changed its owner. *)
Theorem overthrowOtherInstances_sole_survivor (self : string) (db : Db) :
  existsb (fun i => String.eqb (instanceId i) self) (instances db) = false ->
  snd (overthrowOtherInstances self db) = Returned tt
  /\ countAliveInstances (fst (overthrowOtherInstances self db)) = 1
  /\ (forall i, In i (instances (fst (overthrowOtherInstances self db))) ->
        dying i = negb (String.eqb (instanceId i) self))
  /\ List.map instanceId (instances (fst (overthrowOtherInstances self db)))
     = List.map instanceId (instances db) ++ [self]
  /\ countPausedCharts (fst (overthrowOtherInstances self db)) = length (charts db)
  /\ List.map ownerId (charts (fst (overthrowOtherInstances self db)))
     = List.map ownerId (charts db).
Proof.
  intros Hnew.
  assert (E : overthrowOtherInstances self db
              = (mkDb (List.map (fun i => mkInstance (instanceId i) true) (instances db)
                         ++ [mkInstance self false])
                      (List.map pause (charts db)) (ongoingActivities db)
                      (deferredEvents db) (deferredEventSeq db),
                 Returned tt)).
  { unfold overthrowOtherInstances, withTransaction, insertInstance.
    cbn [markAllChartsPaused markAllInstancesDying set_charts set_instances
         instances charts ongoingActivities deferredEvents deferredEventSeq].
    rewrite existsb_map_comp. cbn [instanceId]. rewrite Hnew. reflexivity. }
  rewrite E. cbn [fst snd instances charts].
  split; [reflexivity|]. split.
  { unfold countAliveInstances. cbn [instances].
    rewrite List.filter_app, countAlive_all_dying. reflexivity. }
  split.
  { intros i Hi. apply in_app_or in Hi as [Hi|Hi].
    - apply in_map_iff in Hi as (j & <- & Hj). cbn [dying instanceId].
      destruct (String.eqb (instanceId j) self) eqn:Hj'; [|reflexivity].
      exfalso. assert (Hex : existsb (fun i => String.eqb (instanceId i) self) (instances db) = true).
      { apply existsb_exists. exists j. auto. }
      rewrite Hnew in Hex. discriminate.
    - destruct Hi as [<-|[]]. cbn [dying instanceId]. rewrite String.eqb_refl. reflexivity. }
  split.
  { rewrite List.map_app, List.map_map. reflexivity. }
  split.
  { unfold countPausedCharts. cbn [charts]. rewrite filter_paused_all.
    apply List.length_map. }
  { rewrite List.map_map. reflexivity. }
Qed.

Definition twoInstancesDb : Db :=
  mkDb [mkInstance "A" false; mkInstance "B" true]
       [mkChart (Some "A") "door" "1" None None "open" false]
       [] [] 1.

Lemma overthrowOtherInstances_sole_survivor_witness :
  existsb (fun i => String.eqb (instanceId i) "C") (instances twoInstancesDb) = false
  /\ countAliveInstances (fst (overthrowOtherInstances "C" twoInstancesDb)) = 1.
Proof.
  split; [reflexivity|].
  apply (overthrowOtherInstances_sole_survivor "C" twoInstancesDb). reflexivity.
Defined.

(** The updates of [changeOwnerAndResumeCharts], one per reference, amount
    to one pass over the table. *)
Lemma changeOwnerAndResumeCharts_charts (self : string) (refs : list ChartReference)
    (db : Db) :
  charts (changeOwnerAndResumeCharts self refs db)
  = List.map (fun c => if existsb (ref_eqb (chart_ref c)) refs then resume self c else c)
             (charts db).
Proof.
  revert db. induction refs as [|r refs IH]; intros db; cbn [changeOwnerAndResumeCharts].
  - cbn [existsb]. symmetry. apply List.map_id.
  - rewrite IH. cbn [set_charts charts]. rewrite List.map_map.
    apply List.map_ext. intros c. cbn [existsb].
    destruct (ref_eqb (chart_ref c) r) eqn:Hr; cbn [orb].
    + change (chart_ref (resume self c)) with (chart_ref c).
      destruct (existsb (ref_eqb (chart_ref c)) refs); reflexivity.
    + reflexivity.
Qed.

Lemma changeOwnerAndResumeCharts_frame (self : string) (refs : list ChartReference)
    (db : Db) :
  instances (changeOwnerAndResumeCharts self refs db) = instances db
  /\ ongoingActivities (changeOwnerAndResumeCharts self refs db) = ongoingActivities db
  /\ deferredEvents (changeOwnerAndResumeCharts self refs db) = deferredEvents db
  /\ deferredEventSeq (changeOwnerAndResumeCharts self refs db) = deferredEventSeq db.
Proof.
  revert db. induction refs as [|r refs IH]; intros db; cbn [changeOwnerAndResumeCharts].
  - auto.
  - destruct (IH (set_charts
                    (List.map (fun c => if ref_eqb (chart_ref c) r then resume self c else c))
                    db)) as (H1 & H2 & H3 & H4).
    rewrite H1, H2, H3, H4. auto.
Qed.

(** Whether a chart has an ongoing activity depends on its reference only. *)
Lemma hasOngoingActivity_ref (acts : list OngoingActivityRow) (c c' : ChartRow) :
  chart_ref c = chart_ref c' -> hasOngoingActivity acts c = hasOngoingActivity acts c'.
Proof. unfold hasOngoingActivity. intros ->. reflexivity. Qed.

(** A paused chart is among the gently adopted ones exactly when it has no
    ongoing activity. *)
Lemma gently_adopted_iff (db : Db) (c : ChartRow) :
  In c (charts db) -> paused c = true ->
  existsb (ref_eqb (chart_ref c)) (getPausedChartWithNoOngoingActivitiesIds db)
  = negb (hasOngoingActivity (ongoingActivities db) c).
Proof.
  intros Hin Hp. unfold getPausedChartWithNoOngoingActivitiesIds.
  rewrite existsb_map_comp.
  destruct (hasOngoingActivity (ongoingActivities db) c) eqn:Hbusy; cbn [negb].
  - apply not_true_is_false. intros Hex.
    apply existsb_exists in Hex as (c' & Hc' & Heq).
    apply List.filter_In in Hc' as [_ Hc'].
    apply andb_true_iff in Hc' as [_ Hidle].
    apply ref_eqb_eq in Heq.
    rewrite (hasOngoingActivity_ref _ c c' Heq) in Hbusy.
    rewrite Hbusy in Hidle. discriminate.
  - apply existsb_exists. exists c. split; [|apply ref_eqb_refl].
    apply List.filter_In. split; [exact Hin|]. rewrite Hp, Hbusy. reflexivity.
Qed.

Lemma filter_length_ext_in {A} (f g : A -> bool) (l : list A) :
  (forall x, In x l -> f x = g x) ->
  length (List.filter f l) = length (List.filter g l).
Proof.
  induction l as [|x l IH]; intros H; simpl; [reflexivity|].
  rewrite (H x (or_introl eq_refl)).
  destruct (g x); simpl; rewrite IH; auto; intros y Hy; apply H; right; exact Hy.
Qed.

Lemma filter_map_length {A B} (p : B -> bool) (f : A -> B) (l : list A) :
  length (List.filter p (List.map f l)) = length (List.filter (fun x => p (f x)) l).
Proof.
  induction l as [|x l IH]; simpl; [reflexivity|].
  destruct (p (f x)); simpl; rewrite IH; reflexivity.
Qed.

(** Two rows of a table whose key is [f] are the same row when they have
    the same key. *)
Lemma same_key_same_row {A B} (f : A -> B) (l : list A) (x y : A) :
  List.NoDup (List.map f l) -> In x l -> In y l -> f x = f y -> x = y.
Proof.
  induction l as [|z l IH]; intros Hnd Hx Hy Hf; [destruct Hx|].
  cbn [List.map] in Hnd. apply List.NoDup_cons_iff in Hnd as [Hz Hnd].
  destruct Hx as [->|Hx], Hy as [->|Hy].
  - reflexivity.
  - exfalso. apply Hz. rewrite Hf. apply in_map. exact Hy.
  - exfalso. apply Hz. rewrite <- Hf. apply in_map. exact Hx.
  - apply IH; assumption.
Qed.

(** X2.  On a charts table whose rows have distinct references (its
    primary key), [gentlyAdoptCharts] adopts exactly the paused charts that
    have no ongoing activity: a chart is among the adopted ones if and only
    if it is paused and has no ongoing activity, and each of them is resumed
    and owned by the adopting instance afterwards.  A chart with an ongoing
    activity, and a chart that is not paused, keeps its row as it is, so the
    charts still paused afterwards are exactly the paused charts with an
    ongoing activity.  The registry of ongoing activities is not touched. *)
Theorem gentlyAdoptCharts_spares_busy_charts (self : string) (db : Db) :
  List.NoDup (List.map chart_ref (charts db)) ->
  let db' := fst (gentlyAdoptCharts self db) in
  let adopted := snd (gentlyAdoptCharts self db) in
  charts db'
  = List.map (fun c => if existsb (ref_eqb (chart_ref c)) adopted then resume self c else c)
             (charts db)
  /\ (forall c, In c (charts db) ->
        (In (chart_ref c) adopted
         <-> paused c = true /\ hasOngoingActivity (ongoingActivities db) c = false))
  /\ (forall r, In r adopted -> exists c, In c (charts db) /\ chart_ref c = r)
  /\ (forall c, In c (charts db) -> paused c = true ->
        hasOngoingActivity (ongoingActivities db) c = false ->
        In (chart_ref c) adopted /\ In (resume self c) (charts db'))
  /\ (forall c, In c (charts db) ->
        hasOngoingActivity (ongoingActivities db) c = true ->
        ~ In (chart_ref c) adopted /\ In c (charts db'))
  /\ (forall c, In c (charts db) -> paused c = false ->
        ~ In (chart_ref c) adopted /\ In c (charts db'))
  /\ countPausedCharts db'
     = length (List.filter
                 (fun c => paused c && hasOngoingActivity (ongoingActivities db) c)
                 (charts db))
  /\ ongoingActivities db' = ongoingActivities db.
Proof.
  intros Hkey. cbv zeta. unfold gentlyAdoptCharts. cbn [fst snd].
  set (adopted := getPausedChartWithNoOngoingActivitiesIds db).
  pose proof (changeOwnerAndResumeCharts_charts self adopted db) as Hcharts.
  assert (Hexact : forall c, In c (charts db) ->
            (In (chart_ref c) adopted
             <-> paused c = true /\ hasOngoingActivity (ongoingActivities db) c = false)).
  { intros c Hin. subst adopted. unfold getPausedChartWithNoOngoingActivitiesIds. split.
    - intros Hr. apply in_map_iff in Hr as (c' & Href & Hc').
      apply List.filter_In in Hc' as [Hin' Hc'].
      assert (c' = c) as -> by (apply (same_key_same_row chart_ref (charts db)); assumption).
      apply andb_true_iff in Hc' as [Hp Hidle]. apply negb_true_iff in Hidle. auto.
    - intros [Hp Hidle]. apply in_map. apply List.filter_In. split; [exact Hin|].
      rewrite Hp, Hidle. reflexivity. }
  assert (Hnot : forall c, ~ In (chart_ref c) adopted ->
            existsb (ref_eqb (chart_ref c)) adopted = false).
  { intros c Hr. apply not_true_is_false. intros Hex.
    apply existsb_exists in Hex as (r & Hin & Heq). apply ref_eqb_eq in Heq.
    apply Hr. rewrite Heq. exact Hin. }
  split; [exact Hcharts|]. split; [exact Hexact|].
  split.
  { intros r Hr. subst adopted. unfold getPausedChartWithNoOngoingActivitiesIds in Hr.
    apply in_map_iff in Hr as (c & Href & Hc). apply List.filter_In in Hc as [Hin _].
    exists c. auto. }
  split; [|split; [|split; [|split]]].
  - intros c Hin Hp Hidle.
    pose proof (gently_adopted_iff db c Hin Hp) as Hex. rewrite Hidle in Hex.
    cbn [negb] in Hex. fold adopted in Hex. split.
    + apply existsb_exists in Hex as (r & Hr & Heq). apply ref_eqb_eq in Heq.
      rewrite Heq. exact Hr.
    + rewrite Hcharts. apply in_map_iff. exists c. rewrite Hex. auto.
  - intros c Hin Hbusy.
    assert (Hr : ~ In (chart_ref c) adopted).
    { intros Hr. apply (Hexact c Hin) in Hr as [_ Hidle]. rewrite Hbusy in Hidle.
      discriminate. }
    split; [exact Hr|].
    rewrite Hcharts. apply in_map_iff. exists c. rewrite (Hnot c Hr). auto.
  - intros c Hin Hrunning.
    assert (Hr : ~ In (chart_ref c) adopted).
    { intros Hr. apply (Hexact c Hin) in Hr as [Hp _]. rewrite Hrunning in Hp.
      discriminate. }
    split; [exact Hr|].
    rewrite Hcharts. apply in_map_iff. exists c. rewrite (Hnot c Hr). auto.
  - unfold countPausedCharts. rewrite Hcharts, filter_map_length.
    apply filter_length_ext_in. intros c Hin.
    pose proof (gently_adopted_iff db c Hin) as Hiff. fold adopted in Hiff.
    destruct (paused c) eqn:Hp.
    + rewrite (Hiff eq_refl).
      destruct (hasOngoingActivity (ongoingActivities db) c); cbn [negb andb].
      * exact Hp.
      * reflexivity.
    + destruct (existsb (ref_eqb (chart_ref c)) adopted); [reflexivity|].
      rewrite Hp. reflexivity.
  - apply (changeOwnerAndResumeCharts_frame self adopted db).
Qed.

(** Three charts that instance A left behind: a paused one without an
    activity, a paused one with an activity, and one that is not paused. *)
Definition threeChartsDb : Db :=
  mkDb [mkInstance "A" true; mkInstance "B" false]
       [mkChart (Some "A") "door" "idle" None None "open" true;
        mkChart (Some "A") "door" "busy" None None "open" true;
        mkChart (Some "A") "door" "running" None None "open" false]
       [mkActivity "door" "busy" "closing"]
       [] 1.

Lemma gentlyAdoptCharts_spares_busy_charts_witness :
  List.NoDup (List.map chart_ref (charts threeChartsDb))
  /\ snd (gentlyAdoptCharts "B" threeChartsDb) = [mkRef "door" "idle"]
  /\ charts (fst (gentlyAdoptCharts "B" threeChartsDb))
     = [mkChart (Some "B") "door" "idle" None None "open" false;
        mkChart (Some "A") "door" "busy" None None "open" true;
        mkChart (Some "A") "door" "running" None None "open" false]
  /\ countPausedCharts (fst (gentlyAdoptCharts "B" threeChartsDb)) = 1%nat.
Proof.
  assert (Hkey : List.NoDup (List.map chart_ref (charts threeChartsDb))).
  { cbn. repeat constructor; cbn; intuition discriminate. }
  split; [exact Hkey|]. split; [reflexivity|]. split; [reflexivity|].
  destruct (gentlyAdoptCharts_spares_busy_charts "B" threeChartsDb Hkey)
    as (_ & _ & _ & _ & _ & _ & Hcount & _).
  rewrite Hcount. reflexivity.
Defined.

Lemma existsb_app_comm {A} (f : A -> bool) (l l' : list A) :
  existsb f (l ++ l') = existsb f l || existsb f l'.
Proof. apply List.existsb_app. Qed.

Lemma existsb_ext {A} (f g : A -> bool) (l : list A) :
  (forall x, f x = g x) -> existsb f l = existsb g l.
Proof.
  intros H. induction l as [|x l IH]; simpl; [reflexivity|]. rewrite H, IH. reflexivity.
Qed.

Lemma filter_all {A} (p : A -> bool) (l : list A) :
  existsb (fun x => negb (p x)) l = false -> List.filter p l = l.
Proof.
  induction l as [|x l IH]; simpl; [reflexivity|].
  intros H. apply orb_false_iff in H as [Hx Hl].
  apply negb_false_iff in Hx. rewrite Hx, (IH Hl). reflexivity.
Qed.

Lemma filter_shorter {A} (p : A -> bool) (l : list A) :
  existsb (fun x => negb (p x)) l = true -> (length (List.filter p l) < length l)%nat.
Proof.
  induction l as [|x l IH]; simpl; [discriminate|].
  pose proof (List.filter_length_le p l) as Hle.
  destruct (p x); simpl; intros H.
  - apply IH in H. lia.
  - lia.
Qed.

(** X3.  Registering an activity and asking for it: a registered activity
    is found; registering it again changes nothing; after unregistering it
    is not found; and neither operation touches the registration of any
    other activity. *)
Theorem activity_registration_round_trip (r r' : ChartReference) (a a' : string) (db : Db) :
  isActivityRegistered r a (registerActivity r a db) = true
  /\ registerActivity r a (registerActivity r a db) = registerActivity r a db
  /\ isActivityRegistered r a (unregisterActivity r a db) = false
  /\ (ref_eqb r' r && String.eqb a' a = false ->
      isActivityRegistered r' a' (registerActivity r a db) = isActivityRegistered r' a' db
      /\ isActivityRegistered r' a' (unregisterActivity r a db)
         = isActivityRegistered r' a' db).
Proof.
  assert (Hreg : isActivityRegistered r a (registerActivity r a db) = true).
  { unfold isActivityRegistered, registerActivity.
    destruct (existsb _ (ongoingActivities db)) eqn:Hex; [exact Hex|].
    cbn [set_ongoingActivities ongoingActivities]. rewrite List.existsb_app.
    cbn [existsb act_ref act_machineId act_chartId activityId].
    destruct r as [m c]. unfold ref_eqb. cbn [machineId chartId].
    rewrite !String.eqb_refl. apply orb_true_r. }
  split; [exact Hreg|]. split.
  { unfold isActivityRegistered in Hreg. unfold registerActivity at 1. rewrite Hreg.
    reflexivity. }
  split.
  { unfold isActivityRegistered, unregisterActivity.
    cbn [set_ongoingActivities ongoingActivities].
    apply not_true_is_false. intros Hex. apply existsb_exists in Hex as (x & Hx & Hm).
    apply List.filter_In in Hx as [_ Hx]. rewrite Hm in Hx. discriminate. }
  intros Hother. split.
  - unfold isActivityRegistered, registerActivity.
    destruct (existsb _ (ongoingActivities db)); [reflexivity|].
    cbn [set_ongoingActivities ongoingActivities]. rewrite List.existsb_app.
    cbn [existsb]. unfold act_ref at 2. cbn [act_machineId act_chartId activityId].
    replace (ref_eqb (mkRef (machineId r) (chartId r)) r') with (ref_eqb r' r).
    + rewrite (String.eqb_sym a a'), Hother. rewrite !orb_false_r. reflexivity.
    + destruct r as [m c], r' as [m' c']. unfold ref_eqb. cbn [machineId chartId].
      rewrite (String.eqb_sym m), (String.eqb_sym c). reflexivity.
  - unfold isActivityRegistered, unregisterActivity.
    cbn [set_ongoingActivities ongoingActivities].
    induction (ongoingActivities db) as [|x l IH]; [reflexivity|]. cbn [List.filter existsb].
    destruct (ref_eqb (act_ref x) r && String.eqb (activityId x) a) eqn:Hx; cbn [negb].
    + rewrite IH.
      assert (Hx' : ref_eqb (act_ref x) r' && String.eqb (activityId x) a' = false).
      { apply andb_true_iff in Hx as [Hr Ha]. apply ref_eqb_eq in Hr.
        apply String.eqb_eq in Ha. rewrite Hr, Ha.
        apply not_true_is_false. intros H. apply andb_true_iff in H as [H1 H2].
        apply ref_eqb_eq in H1. apply String.eqb_eq in H2. subst r' a'.
        rewrite ref_eqb_refl, String.eqb_refl in Hother. discriminate. }
      rewrite Hx'. reflexivity.
    + cbn [existsb]. rewrite IH. reflexivity.
Qed.

Lemma find_none_existsb {A} (p : A -> bool) (l : list A) :
  List.find p l = None <-> existsb p l = false.
Proof.
  induction l as [|x l IH]; simpl; [tauto|].
  destruct (p x); simpl; [split; discriminate|exact IH].
Qed.

Lemma readChart_none (r : ChartReference) (db : Db) :
  readChart r db = None <-> existsb (fun c => ref_eqb (chart_ref c) r) (charts db) = false.
Proof.
  unfold readChart. rewrite <- find_none_existsb.
  destruct (List.find _ (charts db)); simpl; split; congruence.
Qed.

(** X4.  [destroyChart] of the PostgreSQL adapter.  No row of the chart is
    left in [charts].  When the chart had a row, its deferred events are
    deleted and those of other charts stay; the deletion of its external
    identifiers is started but not awaited, so the identifiers are still
    stored when the method returns, and those of the chart are gone, the
    others kept, once the pending statement has run.  When the chart had no
    row, nothing is deleted and nothing is pending: deferred events and
    external identifiers stored under the reference stay.  In both cases
    the rows of [ongoingActivities] and [instances] stay. *)
Theorem destroyChart_deletes_chart_events_and_identifiers
    (r : ChartReference) (db : Db) (xs : list ExternalIdRow) :
  let db' := fst (fst (destroyChart r (db, xs))) in
  let xs' := snd (fst (destroyChart r (db, xs))) in
  let pending := snd (destroyChart r (db, xs)) in
  readChart r db' = None
  /\ charts db' = List.filter (fun c => negb (ref_eqb (chart_ref c) r)) (charts db)
  /\ xs' = xs
  /\ (readChart r db = None -> db' = db /\ pending = [])
  /\ (readChart r db <> None ->
      deferredEvents db' = List.filter (fun e => negb (ref_eqb (ref e) r)) (deferredEvents db)
      /\ pending = [r]
      /\ settleExternalIdentifiers pending xs'
         = List.filter (fun x => negb (ref_eqb (x_ref x) r)) xs)
  /\ ongoingActivities db' = ongoingActivities db
  /\ instances db' = instances db.
Proof.
  cbv zeta. unfold destroyChart, deleteChart, deleteAllDeferredEvents,
    settleExternalIdentifiers, deleteExternalIdentifiers.
  set (kept := List.filter (fun c => negb (ref_eqb (chart_ref c) r)) (charts db)).
  assert (Hgone : forall d, charts d = kept -> readChart r d = None).
  { intros d Hd. apply readChart_none. rewrite Hd. apply not_true_is_false.
    intros Hex. apply existsb_exists in Hex as (c & Hc & Hm).
    apply List.filter_In in Hc as [_ Hc]. rewrite Hm in Hc. discriminate. }
  destruct (existsb (fun c => ref_eqb (chart_ref c) r) (charts db)) eqn:Hex.
  - assert (Hlt : (length kept < length (charts db))%nat).
    { apply filter_shorter. rewrite <- Hex.
      apply existsb_ext. intros c. apply negb_involutive. }
    replace (Nat.ltb (length (charts db) - length kept) 1) with false
      by (symmetry; apply Nat.ltb_ge; lia).
    cbn [fst snd set_charts set_deferredEvents charts deferredEvents ongoingActivities
         instances fold_left].
    split; [apply Hgone; reflexivity|]. split; [reflexivity|]. split; [reflexivity|].
    split.
    { intros Hnone. apply readChart_none in Hnone. congruence. }
    split; [intros _; repeat split; reflexivity|]. split; reflexivity.
  - assert (Hall : kept = charts db).
    { apply filter_all. rewrite <- Hex. apply existsb_ext.
      intros c. apply negb_involutive. }
    replace (Nat.ltb (length (charts db) - length kept) 1) with true
      by (symmetry; apply Nat.ltb_lt; rewrite Hall; lia).
    cbn [fst snd set_charts charts deferredEvents ongoingActivities instances].
    split; [apply Hgone; reflexivity|]. split; [reflexivity|]. split; [reflexivity|].
    split.
    { intros _. split; [|reflexivity]. rewrite Hall. destruct db; reflexivity. }
    split; [|split; reflexivity].
    intros Hsome. exfalso. apply Hsome. apply readChart_none. exact Hex.
Qed.

Lemma find_app_last {A} (p : A -> bool) (l : list A) (x : A) :
  existsb p l = false -> p x = true -> List.find p (l ++ [x]) = Some x.
Proof.
  induction l as [|y l IH]; simpl; intros Hl Hx.
  - rewrite Hx. reflexivity.
  - apply orb_false_iff in Hl as [Hy Hl]. rewrite Hy. apply IH; assumption.
Qed.

(** The parent reference [loadChart] gives back for a chart created with
    [parentRef]: a parent whose chart id is the empty string is lost. *)
Definition loadedParentRef (parentRef : option ChartReference)
  : option (option string * string) :=
  match parentRef with
  | Some p => if JsString.truthy (chartId p) then Some (Some (machineId p), chartId p)
              else None
  | None => None
  end.

(** X5.  [loadChart] does not return [null] for a chart without a row: it
    throws a TypeError.  [createChart] for such a chart succeeds; after it
    [loadChart] returns the reference, the parent reference and the state
    that were stored, and after [updateChart] the updated state.  A second
    [createChart] for the same chart fails on the primary key and changes
    nothing. *)
Theorem loadChart_missing_throws_and_round_trip (self : string)
    (r : ChartReference) (parentRef : option ChartReference) (st st' : string) (db : Db) :
  readChart r db = None ->
  loadChart r db = Thrown "TypeError: Cannot read properties of null (reading 'state')"
  /\ snd (createChart self r st parentRef db) = Returned tt
  /\ loadChart r (fst (createChart self r st parentRef db))
     = Returned (r, loadedParentRef parentRef, st)
  /\ loadChart r (updateChart r st' (fst (createChart self r st parentRef db)))
     = Returned (r, loadedParentRef parentRef, st')
  /\ (forall other st2 parent2,
        exists err,
          createChart other r st2 parent2 (fst (createChart self r st parentRef db))
          = (fst (createChart self r st parentRef db), Thrown err)).
Proof.
  intros Hnone. split; [unfold loadChart; rewrite Hnone; reflexivity|].
  apply readChart_none in Hnone.
  assert (Hparent : forall s,
             pc_parentRef (parseSqlChartRow
               (mkChart (Some self) (machineId r) (chartId r)
                        (option_map machineId parentRef) (option_map chartId parentRef)
                        s false)) = loadedParentRef parentRef).
  { intros s. unfold parseSqlChartRow, loadedParentRef.
    cbn [parentChartId parentMachineId pc_parentRef].
    destruct parentRef as [[pm [|c rest]]|]; reflexivity. }
  assert (Hself : ref_eqb (mkRef (machineId r) (chartId r)) r = true)
    by (destruct r; apply ref_eqb_refl).
  unfold createChart, insertChart. rewrite Hnone. cbn [fst snd].
  split; [reflexivity|]. split; [|split].
  - unfold loadChart, readChart. cbn [set_charts charts].
    rewrite find_app_last; [|exact Hnone|exact Hself]. cbn [option_map].
    rewrite Hparent. destruct r; reflexivity.
  - unfold loadChart, readChart, updateChart, updateChartState.
    cbn [set_charts charts]. rewrite List.map_app. cbn [List.map].
    unfold chart_ref at 3. cbn [chart_machineId chart_chartId ownerId parentMachineId
                                 parentChartId paused].
    rewrite Hself. rewrite find_app_last.
    + cbn [option_map]. unfold loadedParentRef, parseSqlChartRow, chart_ref.
      cbn [ownerId chart_machineId chart_chartId parentMachineId parentChartId state
           paused pc_ref pc_parentRef pc_state].
      destruct r as [m c]. destruct parentRef as [[pm [|pc rest]]|]; reflexivity.
    + rewrite existsb_map_comp. rewrite <- Hnone. apply existsb_ext. intros c.
      destruct (ref_eqb (chart_ref c) r) eqn:Hc; exact Hc.
    + exact Hself.
  - intros other st2 parent2. cbn [set_charts charts].
    rewrite existsb_app. cbn [existsb]. unfold chart_ref at 2.
    cbn [chart_machineId chart_chartId]. rewrite Hself, orb_true_r.
    eexists. reflexivity.
Qed.

Definition noChartsDb : Db := mkDb [mkInstance "A" false] [] [] [] 1.

Lemma loadChart_missing_throws_and_round_trip_witness :
  readChart (mkRef "door" "1") noChartsDb = None
  /\ loadChart (mkRef "door" "1")
       (fst (createChart "A" (mkRef "door" "1") "closed" (Some (mkRef "house" "7"))
                         noChartsDb))
     = Returned (mkRef "door" "1", Some (Some "house", "7"), "closed").
Proof.
  split; [reflexivity|].
  apply (loadChart_missing_throws_and_round_trip "A" (mkRef "door" "1")
           (Some (mkRef "house" "7")) "closed" "open" noChartsDb).
  reflexivity.
Defined.

End PersistenceProperties.

(** ** The persistence adapter: deferred events *)

Section DeferredEventRows.

Import Persistence.
Local Open Scope Z_scope.

(** A delay, look-ahead or batch size that the statements accept for their
    [bigint] parameters: an integer from 0 to [Number.MAX_SAFE_INTEGER]. *)
Definition inRange (n : Z) : Prop := 0 <= n <= DeferredEventManager.MAX_SAFE_INTEGER.



(** *** The order of a batch *)

Lemma insertByDueId_In (e x : PersistedDeferredEvent) (l : list PersistedDeferredEvent) :
  In x (insertByDueId e l) <-> x = e \/ In x l.
Proof.
  induction l as [|y l IH]; simpl.
  - split; intros [H|H]; auto.
  - destruct (dueIdLeb e y); simpl.
    + split; intros [H|H]; auto.
    + rewrite IH. split; intros H; intuition.
Qed.

Lemma orderByDueId_In (x : PersistedDeferredEvent) (l : list PersistedDeferredEvent) :
  In x (orderByDueId l) <-> In x l.
Proof.
  unfold orderByDueId. induction l as [|y l IH]; simpl; [tauto|].
  rewrite insertByDueId_In, IH. split; intros [H|H]; auto.
Qed.

Lemma insertByDueId_length (e : PersistedDeferredEvent) (l : list PersistedDeferredEvent) :
  length (insertByDueId e l) = S (length l).
Proof.
  induction l as [|y l IH]; simpl; [reflexivity|].
  destruct (dueIdLeb e y); simpl; [reflexivity|]. rewrite IH. reflexivity.
Qed.

Lemma orderByDueId_length (l : list PersistedDeferredEvent) :
  length (orderByDueId l) = length l.
Proof.
  unfold orderByDueId. induction l as [|y l IH]; simpl; [reflexivity|].
  rewrite insertByDueId_length, IH. reflexivity.
Qed.

Lemma dueIdLeb_total (a b : PersistedDeferredEvent) :
  dueIdLeb a b = false -> dueIdLeb b a = true.
Proof.
  unfold dueIdLeb. intros H. apply orb_false_iff in H as [H1 H2].
  apply Z.ltb_ge in H1. apply andb_false_iff in H2.
  apply orb_true_iff.
  destruct (Z.eq_dec (due a) (due b)) as [E|E].
  - right. rewrite E, Z.eqb_refl. cbn [andb].
    destruct H2 as [H2|H2].
    + rewrite E, Z.eqb_refl in H2. discriminate.
    + apply Z.leb_gt in H2. apply Z.leb_le. lia.
  - left. apply Z.ltb_lt. lia.
Qed.

Lemma dueIdLeb_trans (a b c : PersistedDeferredEvent) :
  dueIdLeb a b = true -> dueIdLeb b c = true -> dueIdLeb a c = true.
Proof.
  unfold dueIdLeb. intros H1 H2.
  apply orb_true_iff in H1. apply orb_true_iff in H2. apply orb_true_iff.
  destruct H1 as [H1|H1], H2 as [H2|H2];
    repeat match goal with
           | H : (_ <? _) = true |- _ => apply Z.ltb_lt in H
           | H : _ && _ = true |- _ => apply andb_true_iff in H as [? ?]
           | H : (_ =? _) = true |- _ => apply Z.eqb_eq in H
           | H : (_ <=? _) = true |- _ => apply Z.leb_le in H
           end.
  - left. apply Z.ltb_lt. lia.
  - left. apply Z.ltb_lt. lia.
  - left. apply Z.ltb_lt. lia.
  - right. apply andb_true_iff. split; [apply Z.eqb_eq|apply Z.leb_le]; lia.
Qed.

Local Abbreviation sorted := DeferredEventManager.sortedByDueId.

Lemma sorted_cons (a : PersistedDeferredEvent) (l : list PersistedDeferredEvent) :
  sorted (a :: l) = true
  <-> match l with [] => True | b :: _ => dueIdLeb a b = true end /\ sorted l = true.
Proof.
  destruct l as [|b l]; cbn [DeferredEventManager.sortedByDueId].
  - tauto.
  - unfold DeferredEventManager.dueIdLe. rewrite andb_true_iff. tauto.
Qed.

Lemma sorted_tail (a : PersistedDeferredEvent) (l : list PersistedDeferredEvent) :
  sorted (a :: l) = true -> sorted l = true.
Proof. intros H. apply sorted_cons in H. tauto. Qed.

Lemma insertByDueId_sorted (e : PersistedDeferredEvent) (l : list PersistedDeferredEvent) :
  sorted l = true -> sorted (insertByDueId e l) = true.
Proof.
  induction l as [|x l IH]; intros Hl; [reflexivity|].
  cbn [insertByDueId]. destruct (dueIdLeb e x) eqn:Hex.
  - apply sorted_cons. split; assumption.
  - apply sorted_cons. apply sorted_cons in Hl as [Hhead Hl]. split; [|apply IH; exact Hl].
    destruct l as [|y l]; cbn [insertByDueId].
    + apply dueIdLeb_total. exact Hex.
    + destruct (dueIdLeb e y); [apply dueIdLeb_total; exact Hex|exact Hhead].
Qed.

Lemma orderByDueId_sorted (l : list PersistedDeferredEvent) :
  sorted (orderByDueId l) = true.
Proof.
  unfold orderByDueId. induction l as [|x l IH]; [reflexivity|].
  cbn [fold_right]. apply insertByDueId_sorted. exact IH.
Qed.

Lemma firstn_sorted (n : nat) (l : list PersistedDeferredEvent) :
  sorted l = true -> sorted (firstn n l) = true.
Proof.
  revert l. induction n as [|n IH]; intros l Hl; [reflexivity|].
  destruct l as [|a l]; [reflexivity|]. cbn [firstn].
  apply sorted_cons. apply sorted_cons in Hl as [Hhead Hl]. split; [|apply IH; exact Hl].
  destruct l as [|b l]; [destruct n; exact I|]. destruct n; [exact I|exact Hhead].
Qed.

Lemma map_sorted (f : PersistedDeferredEvent -> PersistedDeferredEvent)
    (l : list PersistedDeferredEvent) :
  (forall e, due (f e) = due e /\ id (f e) = id e) ->
  sorted l = true -> sorted (List.map f l) = true.
Proof.
  intros Hf. induction l as [|a l IH]; intros Hl; [reflexivity|].
  cbn [List.map]. apply sorted_cons. apply sorted_cons in Hl as [Hhead Hl].
  split; [|apply IH; exact Hl].
  destruct l as [|b l]; [exact I|]. cbn [List.map].
  unfold dueIdLeb in *. destruct (Hf a) as [-> ->]. destruct (Hf b) as [-> ->].
  exact Hhead.
Qed.

Lemma firstn_In {A} (n : nat) (l : list A) (x : A) : In x (firstn n l) -> In x l.
Proof.
  revert l. induction n as [|n IH]; intros l H; [destruct H|].
  destruct l as [|a l]; [destruct H|]. destruct H as [H|H]; [left; exact H|].
  right. apply IH. exact H.
Qed.

Lemma firstn_length_min {A} (n : nat) (l : list A) :
  length (firstn n l) = Nat.min n (length l).
Proof.
  revert l. induction n as [|n IH]; intros l; [reflexivity|].
  destruct l as [|a l]; [reflexivity|]. cbn [firstn length]. rewrite IH. reflexivity.
Qed.

(** The row [e] with the lock of instance [self]. *)
Definition lockedBy (self : string) (e : PersistedDeferredEvent) : PersistedDeferredEvent :=
  mkDeferred (id e) (ref e) (eventId e) (eventTo e) (event e)
             (timestamp e) (delay e) (due e) (Some self).

(** The batch and the rows it comes from. *)
Lemma takeUpcomingDeferredEvents_rows (now : Z) (self : string)
    (lookAhead batchSize : Z) (db : Db) :
  let db' := fst (takeUpcomingDeferredEvents now self lookAhead batchSize db) in
  let batch := snd (takeUpcomingDeferredEvents now self lookAhead batchSize db) in
  let horizon := now + 1000 * Z.quot lookAhead 1000 in
  (length batch <= Z.to_nat batchSize)%nat
  /\ DeferredEventManager.sortedByDueId batch = true
  /\ (forall e, In e batch ->
        In e (deferredEvents db')
        /\ exists e0, In e0 (deferredEvents db) /\ lock e0 = None /\ due e0 < horizon
                      /\ e = lockedBy self e0)
  /\ ((length batch < Z.to_nat batchSize)%nat ->
      forall e0, In e0 (deferredEvents db) -> lock e0 = None -> due e0 < horizon ->
                 In (lockedBy self e0) batch)
  /\ List.map id (deferredEvents db') = List.map id (deferredEvents db).
Proof.
  cbv zeta. unfold takeUpcomingDeferredEvents, readDeferredEventRowBatch. cbn [fst snd].
  set (horizon := now + 1000 * Z.quot lookAhead 1000).
  set (candidates := List.filter (fun e => (due e <? horizon) && isUnlocked e)
                                 (deferredEvents db)).
  set (selected := firstn (Z.to_nat batchSize) (orderByDueId candidates)).
  change (fun e => mkDeferred (id e) (ref e) (eventId e) (eventTo e) (event e)
                              (timestamp e) (delay e) (due e) (Some self))
    with (lockedBy self).
  assert (Hsel : forall e0, In e0 selected ->
                   In e0 (deferredEvents db) /\ lock e0 = None /\ due e0 < horizon).
  { intros e0 H0. apply firstn_In in H0. apply (proj1 (orderByDueId_In _ _)) in H0.
    apply List.filter_In in H0 as [Hin Hc]. apply andb_true_iff in Hc as [Hdue Hlock].
    apply Z.ltb_lt in Hdue. unfold isUnlocked in Hlock.
    destruct (lock e0); [discriminate|]. auto. }
  split.
  { rewrite List.length_map. subst selected. rewrite firstn_length_min. lia. }
  split.
  { apply map_sorted; [intros e; split; reflexivity|].
    apply firstn_sorted, orderByDueId_sorted. }
  split.
  { intros e He. apply in_map_iff in He as (e0 & <- & H0).
    destruct (Hsel e0 H0) as (Hin & Hlock & Hdue). split.
    - cbn [set_deferredEvents deferredEvents]. apply in_map_iff. exists e0.
      split; [|exact Hin].
      replace (existsb (fun s => id s =? id e0) selected) with true; [reflexivity|].
      symmetry. apply existsb_exists. exists e0. split; [exact H0|apply Z.eqb_refl].
    - exists e0. auto. }
  split.
  { intros Hshort e0 Hin Hlock Hdue. rewrite List.length_map in Hshort.
    apply in_map. subst selected.
    rewrite List.firstn_all2.
    - apply orderByDueId_In. apply List.filter_In. split; [exact Hin|].
      apply andb_true_iff. split; [apply Z.ltb_lt; exact Hdue|].
      unfold isUnlocked. rewrite Hlock. reflexivity.
    - rewrite firstn_length_min in Hshort. lia. }
  { cbn [set_deferredEvents deferredEvents]. rewrite List.map_map.
    apply List.map_ext. intros e. destruct (existsb _ selected); reflexivity. }
Qed.

(** X7.  A batch of [takeUpcomingDeferredEvents], for a look-ahead and a
    batch size from 0 to [Number.MAX_SAFE_INTEGER]: it holds at most
    [batchSize] events, ordered by due time and id; every event of it was an
    unlocked row due before the look-ahead horizon (the look-ahead cut down
    to whole seconds), and is returned, and stored, with the lock of the
    taking instance.  When the batch is not full, no such row was left
    behind.  No row is added or removed. *)
Theorem takeUpcomingDeferredEvents_batch (now : Z) (self : string)
    (lookAhead batchSize : Z) (db : Db) :
  inRange lookAhead -> inRange batchSize ->
  let db' := fst (takeUpcomingDeferredEvents now self lookAhead batchSize db) in
  let batch := snd (takeUpcomingDeferredEvents now self lookAhead batchSize db) in
  let horizon := now + 1000 * (lookAhead / 1000) in
  Z.of_nat (length batch) <= batchSize
  /\ DeferredEventManager.sortedByDueId batch = true
  /\ (forall e, In e batch ->
        In e (deferredEvents db')
        /\ exists e0, In e0 (deferredEvents db) /\ lock e0 = None /\ due e0 < horizon
                      /\ e = lockedBy self e0)
  /\ (Z.of_nat (length batch) < batchSize ->
      forall e0, In e0 (deferredEvents db) -> lock e0 = None -> due e0 < horizon ->
                 In (lockedBy self e0) batch)
  /\ List.map id (deferredEvents db') = List.map id (deferredEvents db).
Proof.
  intros [HlookAhead _] [HbatchSize _]. cbv zeta.
  rewrite <- (Z.quot_div_nonneg lookAhead 1000) by lia.
  destruct (takeUpcomingDeferredEvents_rows now self lookAhead batchSize db)
    as (Hlen & Hsorted & Hfrom & Hshort & Hids).
  split; [lia|]. split; [exact Hsorted|]. split; [exact Hfrom|].
  split; [|exact Hids].
  intros Hlt. apply Hshort. lia.
Qed.

Definition twoDueEventsDb : Db :=
  mkDb [] [] []
       [mkDeferred 1 (mkRef "door" "1") (IdString "close") None "{}" 0 1000 1000 None;
        mkDeferred 2 (mkRef "door" "2") (IdString "close") None "{}" 0 90000 90000 None]
       3.

Lemma takeUpcomingDeferredEvents_batch_witness :
  inRange 30000 /\ inRange 100
  /\ snd (takeUpcomingDeferredEvents 0 "A" 30000 100 twoDueEventsDb)
     = [mkDeferred 1 (mkRef "door" "1") (IdString "close") None "{}" 0 1000 1000 (Some "A")]
  /\ Z.of_nat (length (snd (takeUpcomingDeferredEvents 0 "A" 30000 100 twoDueEventsDb)))
     <= 100.
Proof.
  assert (H1 : inRange 30000) by (split; apply Z.leb_le; reflexivity).
  assert (H2 : inRange 100) by (split; apply Z.leb_le; reflexivity).
  split; [exact H1|]. split; [exact H2|]. split; [reflexivity|].
  exact (proj1 (takeUpcomingDeferredEvents_batch 0 "A" 30000 100 twoDueEventsDb H1 H2)).
Defined.

(** X8.  An event that one call of [takeUpcomingDeferredEvents] has handed
    out is not handed out by a later call, whichever instance makes it and
    whatever its time, and whatever look-ahead and batch size from 0 to
    [Number.MAX_SAFE_INTEGER] the two calls have: no id of the first batch
    occurs in the second. *)
Theorem taken_events_are_not_taken_again (now now' : Z) (self other : string)
    (lookAhead lookAhead' batchSize batchSize' : Z) (db : Db) :
  inRange lookAhead -> inRange batchSize -> inRange lookAhead' -> inRange batchSize' ->
  let first := takeUpcomingDeferredEvents now self lookAhead batchSize db in
  let second := takeUpcomingDeferredEvents now' other lookAhead' batchSize' (fst first) in
  forallb (fun e2 => negb (existsb (fun e1 => id e1 =? id e2) (snd first))) (snd second)
  = true.
Proof.
  intros _ _ _ _. cbv zeta. apply forallb_forall. intros e2 H2.
  destruct (takeUpcomingDeferredEvents_rows now' other lookAhead' batchSize'
              (fst (takeUpcomingDeferredEvents now self lookAhead batchSize db)))
    as (_ & _ & Hfrom & _).
  destruct (Hfrom e2 H2) as (_ & e0 & Hin & Hlock & _ & ->).
  change (id (lockedBy other e0)) with (id e0).
  apply negb_true_iff. apply not_true_is_false. intros Hex.
  unfold takeUpcomingDeferredEvents, readDeferredEventRowBatch in Hin, Hex.
  cbn [fst snd set_deferredEvents deferredEvents] in Hin, Hex.
  rewrite existsb_map_comp in Hex. cbn [id] in Hex.
  apply in_map_iff in Hin as (row & Hrow & _).
  destruct (existsb _ _) eqn:Hselected in Hrow.
  - subst e0. discriminate.
  - subst e0. rewrite Hselected in Hex. discriminate.
Qed.

Lemma taken_events_are_not_taken_again_witness :
  inRange 30000 /\ inRange 100 /\ inRange 120000 /\ inRange 5
  /\ snd (takeUpcomingDeferredEvents 10 "B" 120000 5
            (fst (takeUpcomingDeferredEvents 0 "A" 30000 100 twoDueEventsDb)))
     = [mkDeferred 2 (mkRef "door" "2") (IdString "close") None "{}" 0 90000 90000
                   (Some "B")]
  /\ forallb
       (fun e2 =>
          negb (existsb (fun e1 => id e1 =? id e2)
                        (snd (takeUpcomingDeferredEvents 0 "A" 30000 100 twoDueEventsDb))))
       (snd (takeUpcomingDeferredEvents 10 "B" 120000 5
               (fst (takeUpcomingDeferredEvents 0 "A" 30000 100 twoDueEventsDb))))
     = true.
Proof.
  assert (H1 : inRange 30000) by (split; apply Z.leb_le; reflexivity).
  assert (H2 : inRange 100) by (split; apply Z.leb_le; reflexivity).
  assert (H3 : inRange 120000) by (split; apply Z.leb_le; reflexivity).
  assert (H4 : inRange 5) by (split; apply Z.leb_le; reflexivity).
  split; [exact H1|]. split; [exact H2|]. split; [exact H3|]. split; [exact H4|].
  split; [reflexivity|].
  exact (taken_events_are_not_taken_again 0 10 "A" "B" 30000 120000 100 5 twoDueEventsDb
           H1 H2 H3 H4).
Defined.

(** X9.  [releaseAllDeferredEvents] leaves no row of any database locked,
    whichever instance holds the lock; and on a database in which no event
    is locked, releasing after a take gives the database back as it was. *)
Theorem releaseAllDeferredEvents_clears_every_lock (now : Z) (self : string)
    (lookAhead batchSize : Z) (db0 db : Db) :
  forallb isUnlocked (deferredEvents db) = true ->
  forallb isUnlocked (deferredEvents (releaseAllDeferredEvents db0)) = true
  /\ releaseAllDeferredEvents
       (fst (takeUpcomingDeferredEvents now self lookAhead batchSize db)) = db.
Proof.
  intros Hfree. split.
  - unfold releaseAllDeferredEvents, unmarkAllDeferredEventsForProcessing.
    unfold set_deferredEvents. cbn [deferredEvents].
    rewrite forallb_forall. intros e He. apply in_map_iff in He.
    destruct He as [e0 [<- _]]. reflexivity.
  - unfold releaseAllDeferredEvents, unmarkAllDeferredEventsForProcessing,
      takeUpcomingDeferredEvents, readDeferredEventRowBatch.
    cbn [fst]. unfold set_deferredEvents.
    cbn [deferredEvents instances charts ongoingActivities deferredEventSeq].
    rewrite List.map_map.
    rewrite (List.map_ext_in _ (fun e => e)).
    + rewrite List.map_id. destruct db; reflexivity.
    + intros e He.
      assert (Hlock : lock e = None).
      { rewrite forallb_forall in Hfree. specialize (Hfree e He).
        unfold isUnlocked in Hfree. destruct (lock e); [discriminate|reflexivity]. }
      destruct (existsb _ _); destruct e; cbn in *; subst; reflexivity.
Qed.

Lemma releaseAllDeferredEvents_clears_every_lock_witness :
  forallb isUnlocked (deferredEvents twoDueEventsDb) = true
  /\ forallb isUnlocked
       (deferredEvents
          (releaseAllDeferredEvents
             (fst (takeUpcomingDeferredEvents 0 "B" 30000 100 twoDueEventsDb)))) = true
  /\ releaseAllDeferredEvents
       (fst (takeUpcomingDeferredEvents 0 "A" 30000 100 twoDueEventsDb)) = twoDueEventsDb.
Proof.
  split; [reflexivity|].
  apply (releaseAllDeferredEvents_clears_every_lock 0 "A" 30000 100
           (fst (takeUpcomingDeferredEvents 0 "B" 30000 100 twoDueEventsDb))
           twoDueEventsDb).
  reflexivity.
Defined.

End DeferredEventRows.

(** ** The deferred-event manager *)

Section ScheduledEvents.

Import Persistence DeferredEventManager.
Local Open Scope Z_scope.

Local Abbreviation sorted := DeferredEventManager.sortedByDueId.

(** The first element satisfying [p], with what stands before and after it. *)
Lemma first_match {A} (p : A -> bool) (l : list A) :
  existsb p l = true ->
  exists l1 x l2, l = l1 ++ x :: l2 /\ existsb p l1 = false /\ p x = true.
Proof.
  induction l as [|a l IH]; simpl; [discriminate|].
  destruct (p a) eqn:Ha.
  - intros _. exists [], a, l. auto.
  - cbn [orb]. intros H. destruct (IH H) as (l1 & x & l2 & -> & H1 & Hx).
    exists (a :: l1), x, l2. cbn [existsb app]. rewrite Ha, H1. auto.
Qed.

Lemma findIndexFrom_first {A} (p : A -> bool) (l1 : list A) (x : A) (l2 : list A) (i : Z) :
  existsb p l1 = false -> p x = true ->
  JsArray.findIndexFrom p (l1 ++ x :: l2) i = i + Z.of_nat (length l1).
Proof.
  revert i. induction l1 as [|a l1 IH]; intros i H1 Hx; cbn [app JsArray.findIndexFrom].
  - rewrite Hx. cbn [length]. lia.
  - cbn [existsb] in H1. apply orb_false_iff in H1 as [Ha H1]. rewrite Ha.
    rewrite IH by assumption. cbn [length]. lia.
Qed.

Lemma findIndexFrom_absent {A} (p : A -> bool) (l : list A) (i : Z) :
  existsb p l = false -> JsArray.findIndexFrom p l i = -1.
Proof.
  revert i. induction l as [|a l IH]; intros i H; cbn [JsArray.findIndexFrom]; [reflexivity|].
  cbn [existsb] in H. apply orb_false_iff in H as [Ha H]. rewrite Ha. apply IH. exact H.
Qed.


Lemma splice_remove_at {A} (x : A) (l1 l2 : list A) :
  JsArray.splice (Z.of_nat (length l1)) 1 [] (l1 ++ x :: l2) = (l1 ++ l2, [x]).
Proof.
  unfold JsArray.splice, JsArray.actualStart.
  rewrite List.length_app. cbn [length].
  replace (Z.of_nat (length l1) <? 0) with false by (symmetry; apply Z.ltb_ge; lia).
  rewrite Z.min_l by lia. rewrite Nat2Z.id.
  replace (Z.to_nat (Z.min (Z.max 1 0) _)) with 1%nat by lia.
  rewrite List.firstn_app, Nat.sub_diag, List.firstn_all. cbn [firstn].
  rewrite List.app_nil_r.
  rewrite !List.skipn_app.
  replace (length l1 + 1 - length l1)%nat with 1%nat by lia.
  rewrite Nat.sub_diag.
  rewrite (List.skipn_all2 l1) by lia. rewrite List.skipn_all. cbn [skipn app firstn].
  reflexivity.
Qed.

Lemma splice_remove_last {A} (l : list A) :
  fst (JsArray.splice (-1) 1 [] l) = removelast l.
Proof.
  induction l as [|x l _] using List.rev_ind; [reflexivity|].
  rewrite List.removelast_last.
  unfold JsArray.splice, JsArray.actualStart. cbn [fst].
  rewrite List.length_app. cbn [length].
  change (-1 <? 0) with true. cbv iota.
  replace (Z.max (Z.of_nat (length l + 1) + -1) 0) with (Z.of_nat (length l)) by lia.
  rewrite Nat2Z.id.
  replace (Z.to_nat (Z.min (Z.max 1 0) _)) with 1%nat by lia.
  rewrite List.firstn_app, Nat.sub_diag, List.firstn_all. cbn [firstn].
  rewrite List.skipn_all2 by (rewrite List.length_app; cbn [length]; lia).
  rewrite !List.app_nil_r. reflexivity.
Qed.




Lemma sorted_remove_middle (l1 : list PersistedDeferredEvent)
    (x : PersistedDeferredEvent) (l2 : list PersistedDeferredEvent) :
  sorted (l1 ++ x :: l2) = true -> sorted (l1 ++ l2) = true.
Proof.
  induction l1 as [|a l1 IH]; cbn [app]; intros Hs.
  - apply sorted_tail in Hs. exact Hs.
  - apply sorted_cons in Hs as [Hhead Hs]. apply sorted_cons.
    split; [|apply IH; exact Hs].
    destruct l1 as [|b l1]; cbn [app] in *.
    + destruct l2 as [|c l2]; [exact I|].
      apply sorted_cons in Hs as [Hxc _].
      apply (dueIdLeb_trans a x c); assumption.
    + exact Hhead.
Qed.


Definition laterEvent : PersistedDeferredEvent :=
  mkDeferred 7 (mkRef "door" "1") (IdString "close") None "{}" 0 5000 5000 None.

Definition earlierEvent : PersistedDeferredEvent :=
  mkDeferred 9 (mkRef "door" "2") (IdString "open") None "{}" 0 2000 2000 None.


(** X11.  [unschedule] takes the first scheduled event with the given event
    id out of the list and drops its timer; the other events keep their
    order, so an ordered list stays ordered.  Without such an event it
    returns [null] and changes nothing. *)
Theorem unschedule_removes_the_first_match (eid : EventIdent) (m : Manager) :
  let m' := fst (unschedule eid m) in
  match snd (unschedule eid m) with
  | None =>
      m' = m
      /\ existsb (fun c => EventIdent_eqb (eventId c) eid) (deferredEvents m) = false
  | Some e =>
      EventIdent_eqb (eventId e) eid = true
      /\ (exists l1 l2,
             deferredEvents m = l1 ++ e :: l2
             /\ existsb (fun c => EventIdent_eqb (eventId c) eid) l1 = false
             /\ deferredEvents m' = l1 ++ l2)
      /\ deferredEventTimers m' = delete (id e) (deferredEventTimers m)
      /\ nextReadAt m' = nextReadAt m
      /\ deferredEventHandlerTimer m' = deferredEventHandlerTimer m
  end
  /\ (sortedByDueId (deferredEvents m) = true -> sortedByDueId (deferredEvents m') = true).
Proof.
  cbv zeta. unfold unschedule, JsArray.findIndex.
  destruct (existsb (fun c => EventIdent_eqb (eventId c) eid) (deferredEvents m)) eqn:Hex.
  - destruct (first_match _ _ Hex) as (l1 & x & l2 & Hl & H1 & Hx).
    rewrite Hl. rewrite (findIndexFrom_first _ l1 x l2 0 H1 Hx). rewrite Z.add_0_l.
    replace (Z.of_nat (length l1) =? -1) with false by (symmetry; apply Z.eqb_neq; lia).
    rewrite splice_remove_at. cbn [fst snd deferredEvents deferredEventTimers nextReadAt
                                   deferredEventHandlerTimer].
    split.
    + split; [exact Hx|]. split; [|auto]. exists l1, l2. auto.
    + apply sorted_remove_middle.
  - rewrite (findIndexFrom_absent _ _ 0 Hex). change (-1 =? -1) with true.
    cbv iota. cbn [fst snd]. auto.
Qed.

(** X12.  The clean-up at the end of an event's timer callback looks the
    event up by its row id and splices one element out at the index found.
    When the event is no longer in the list (it was unscheduled while it was
    being sent), the index is -1 and the element spliced out is the last
    scheduled event. *)
Theorem cleanUpAfterSending_drops_the_last_event_when_the_event_is_gone
    (e : PersistedDeferredEvent) (m : Manager) :
  existsb (fun candidate => id candidate =? id e) (deferredEvents m) = false ->
  deferredEvents (cleanUpAfterSending e m) = removelast (deferredEvents m)
  /\ deferredEventTimers (cleanUpAfterSending e m) = delete (id e) (deferredEventTimers m).
Proof.
  intros Hgone. unfold cleanUpAfterSending, JsArray.findIndex.
  cbn [deferredEvents deferredEventTimers].
  rewrite (findIndexFrom_absent _ _ 0 Hgone). split; [apply splice_remove_last|reflexivity].
Qed.

Lemma cleanUpAfterSending_drops_the_last_event_when_the_event_is_gone_witness :
  existsb (fun candidate => id candidate =? id earlierEvent)
          (deferredEvents (schedule 0 laterEvent initial)) = false
  /\ deferredEvents (cleanUpAfterSending earlierEvent (schedule 0 laterEvent initial)) = [].
Proof.
  split; [reflexivity|].
  apply (cleanUpAfterSending_drops_the_last_event_when_the_event_is_gone earlierEvent
           (schedule 0 laterEvent initial)).
  reflexivity.
Defined.

Lemma unschedule_absent (eid : EventIdent) (m : Manager) :
  existsb (fun c => EventIdent_eqb (eventId c) eid) (deferredEvents m) = false ->
  unschedule eid m = (m, None).
Proof.
  intros Hex. unfold unschedule, JsArray.findIndex.
  rewrite (findIndexFrom_absent _ _ 0 Hex). reflexivity.
Qed.

(** X13.  [cancel] deletes the row of an event only when this manager has
    the event scheduled.  For an event id that is not in the manager's list,
    the manager and the database are left as they are, a stored row with
    that event id included. *)
Theorem cancel_leaves_unscheduled_events_stored (eid : EventIdent) (m : Manager) (db : Db) :
  existsb (fun c => EventIdent_eqb (eventId c) eid) (deferredEvents m) = false ->
  cancel eid m db = (m, db).
Proof.
  intros Hex. unfold cancel. rewrite (unschedule_absent eid m Hex). reflexivity.
Qed.

Definition storedCloseEventDb : Db :=
  mkDb [] [] [] [laterEvent] 8.

Lemma cancel_leaves_unscheduled_events_stored_witness :
  existsb (fun c => EventIdent_eqb (eventId c) (IdString "close")) (deferredEvents initial)
  = false
  /\ List.map eventId (Persistence.deferredEvents storedCloseEventDb) = [IdString "close"]
  /\ cancel (IdString "close") initial storedCloseEventDb = (initial, storedCloseEventDb).
Proof.
  split; [reflexivity|]. split; [reflexivity|].
  apply (cancel_leaves_unscheduled_events_stored (IdString "close") initial
           storedCloseEventDb).
  reflexivity.
Defined.


End ScheduledEvents.

(** ** Stopping a chart *)

Section StoppingAChart.

Import Persistence DeferredEventManager DeferredEventCancellation.

Variable parseAuthority : string -> option string.
Variable parseSpecial : string -> string -> option Url.URL.

Lemma cancelAll_string_ids (ids : list Z) (m : Manager) (db : Db) :
  (forall e, In e (deferredEvents m) -> exists s, eventId e = IdString s) ->
  cancelAll ids (m, db) = (m, db).
Proof.
  intros Hstr. induction ids as [|i ids IH]; [reflexivity|].
  unfold cancelAll. cbn [fold_left fst snd].
  unfold cancel. rewrite unschedule_absent.
  - exact IH.
  - apply not_true_is_false. intros Hex. apply existsb_exists in Hex.
    destruct Hex as [e [He Heq]]. destruct (Hstr e He) as [s Hs].
    rewrite Hs in Heq. discriminate.
Qed.

(** X14.  [cancelAllForChart] hands the row ids of the chart's events to
    [cancel], which looks events up by their event id.  When the event ids
    of the scheduled events are strings, stopping a chart cancels nothing:
    the manager's list, its timers and the stored rows stay as they are. *)
Theorem cancelAllForChart_spares_events_named_by_strings (r : ChartReference)
    (m : Manager) (db : Db) :
  (forall e, In e (deferredEvents m) -> exists s, eventId e = IdString s) ->
  fst (cancelAllForChart parseAuthority parseSpecial r (m, db)) = (m, db).
Proof.
  intros Hstr. unfold cancelAllForChart. cbn [fst].
  destruct (eventIdsOf parseAuthority parseSpecial r (deferredEvents m)) as [ids|err];
    cbn [fst]; [|reflexivity].
  exact (cancelAll_string_ids ids m db Hstr).
Qed.

End StoppingAChart.

Definition doorOneManager : DeferredEventManager.Manager :=
  DeferredEventManager.schedule 0 laterEvent DeferredEventManager.initial.

Lemma cancelAllForChart_spares_events_named_by_strings_witness :
  (forall e, In e (DeferredEventManager.deferredEvents doorOneManager) ->
             exists s, Persistence.eventId e = Persistence.IdString s)
  /\ DeferredEventCancellation.eventIdsOf hostAsWritten noSpecialScheme (mkRef "door" "1")
       (DeferredEventManager.deferredEvents doorOneManager) = Returned [7%Z]
  /\ fst (DeferredEventCancellation.cancelAllForChart hostAsWritten noSpecialScheme
            (mkRef "door" "1") (doorOneManager, storedCloseEventDb))
     = (doorOneManager, storedCloseEventDb).
Proof.
  assert (H : forall e, In e (DeferredEventManager.deferredEvents doorOneManager) ->
                        exists s, Persistence.eventId e = Persistence.IdString s).
  { intros e [<-|[]]. exists "close"%string. reflexivity. }
  split; [exact H|]. split; [vm_compute; reflexivity|].
  exact (cancelAllForChart_spares_events_named_by_strings hostAsWritten noSpecialScheme
           (mkRef "door" "1") doorOneManager storedCloseEventDb H).
Defined.

(** ** Reading the journal *)

Section ReadingTheJournal.

Import JsonPatch Journal.
Local Open Scope Z_scope.

Lemma insertOrdered_In {A} (leb : A -> A -> bool) (x y : A) (l : list A) :
  In y (insertOrdered leb x l) <-> y = x \/ In y l.
Proof.
  induction l as [|z l IH]; cbn [insertOrdered].
  - cbn. intuition congruence.
  - destruct (leb x z); cbn [In]; [intuition congruence|].
    rewrite IH. cbn [In]. intuition congruence.
Qed.

Lemma orderBy_In {A} (leb : A -> A -> bool) (y : A) (l : list A) :
  In y (orderBy leb l) <-> In y l.
Proof.
  induction l as [|x l IH]; [reflexivity|].
  unfold orderBy in *. cbn [fold_right]. rewrite insertOrdered_In, IH.
  cbn [In]. intuition congruence.
Qed.

(** A query whose bounds are all different from 0 and that asks for no
    window of the result. *)
Definition isNonZero (bound : option Z) : bool :=
  match bound with Some 0 => false | _ => true end.

Definition isPlainQuery (query : JournalQuery) : bool :=
  match query with
  | QueryRefs _ => true
  | QueryFields q =>
      isNonZero (q_afterId q) && isNonZero (q_afterAndIncludingId q)
      && isNonZero (q_beforeId q) && isNonZero (q_beforeAndIncludingId q)
      && isNonZero (q_updatedAfterAndIncluding q)
      && isNonZero (q_updatedBeforeAndIncluding q)
      && match q_limit q with None => true | Some _ => false end
      && match q_offset q with None => true | Some _ => false end
  end.

Lemma whenDefined_unlessTruthy (bound : option Z) (holds fails : Z -> bool) :
  isNonZero bound = true ->
  (forall b, holds b = negb (fails b)) ->
  whenDefined bound holds = unlessTruthy bound fails.
Proof.
  intros Hnz Hneg. destruct bound as [b|]; [|reflexivity].
  cbn [whenDefined unlessTruthy]. destruct b; [discriminate| |]; apply Hneg.
Qed.

Lemma whereClause_is_the_filter (q : JournalQueryFields) (row : JournalRow) :
  isPlainQuery (QueryFields q) = true ->
  whereClause q row = journalFilterByQuery (Some (QueryFields q)) (parseSqlJournalRow row).
Proof.
  cbn [isPlainQuery]. intros Hplain.
  repeat (apply andb_prop in Hplain; destruct Hplain as [Hplain ?]).
  unfold whereClause, journalFilterByQuery.
  cbn [e_id e_timestamp e_ref parseSqlJournalRow machineId chartId].
  repeat f_equal.
  - destruct (q_ref q) as [r|]; [|reflexivity].
    destruct (String.eqb _ _), (String.eqb _ _); reflexivity.
  - apply whenDefined_unlessTruthy; [assumption|]. intros b.
    rewrite Z.gtb_ltb. apply Z.ltb_antisym.
  - apply whenDefined_unlessTruthy; [assumption|]. intros b.
    rewrite Z.geb_leb. apply Z.leb_antisym.
  - apply whenDefined_unlessTruthy; [assumption|]. intros b.
    rewrite Z.geb_leb. apply Z.ltb_antisym.
  - apply whenDefined_unlessTruthy; [assumption|]. intros b.
    rewrite Z.gtb_ltb. apply Z.leb_antisym.
  - apply whenDefined_unlessTruthy; [assumption|]. intros b.
    rewrite Z.geb_leb. apply Z.leb_antisym.
  - apply whenDefined_unlessTruthy; [assumption|]. intros b.
    rewrite Z.gtb_ltb. apply Z.leb_antisym.
Qed.

Lemma queryEntries_refs_In (refs : list ChartReference) (st : Store) (entry : JournalEntry) :
  In entry (queryEntries (QueryRefs refs) st)
  <-> In entry (List.map parseSqlJournalRow (journalEntries st))
      /\ journalFilterByQuery (Some (QueryRefs refs)) entry = true.
Proof.
  set (matching := fun (row : JournalRow) (r : ChartReference) =>
                     String.eqb (j_machineId row) (machineId r)
                     && String.eqb (j_chartId row) (chartId r)).
  assert (Hgen : In entry
                   (List.map parseSqlJournalRow
                      (flat_map (fun row => List.map (fun _ => row)
                                              (List.filter (matching row) refs))
                                (journalEntries st)))
                 <-> In entry (List.map parseSqlJournalRow (journalEntries st))
                     /\ journalFilterByQuery (Some (QueryRefs refs)) entry = true).
  { rewrite !in_map_iff. split.
    - intros [row [<- Hin]]. apply in_flat_map in Hin.
      destruct Hin as [row' [Hrow' Hin]]. apply in_map_iff in Hin.
      destruct Hin as [r [<- Hr]]. apply List.filter_In in Hr. destruct Hr as [Hr Hm].
      split; [exists row'; auto|].
      cbn [journalFilterByQuery]. apply existsb_exists. exists r. split; [exact Hr|].
      exact Hm.
    - intros [[row [<- Hrow]] Hf]. cbn [journalFilterByQuery] in Hf.
      apply existsb_exists in Hf. destruct Hf as [r [Hr Hm]].
      exists row. split; [reflexivity|]. apply in_flat_map. exists row.
      split; [exact Hrow|]. apply in_map_iff. exists r. split; [reflexivity|].
      apply List.filter_In. split; [exact Hr|exact Hm]. }
  destruct refs as [|r refs]; [|exact Hgen].
  cbn [queryEntries journalFilterByQuery existsb In]. intuition discriminate.
Qed.

(** X16.  A query with no limit, no offset and no bound equal to 0 selects
    the same entries from the table as from the stream of new entries:
    [queryEntries] returns exactly the stored entries that
    [journalFilterByQuery] lets through. *)
Theorem queryEntries_returns_what_the_stream_filter_passes (query : JournalQuery)
    (st : Store) (entry : JournalEntry) :
  isPlainQuery query = true ->
  (In entry (queryEntries query st)
   <-> In entry (List.map parseSqlJournalRow (journalEntries st))
       /\ journalFilterByQuery (Some query) entry = true).
Proof.
  intros Hplain. destruct query as [refs|q]; [apply queryEntries_refs_In|].
  assert (Hwindow : q_limit q = None /\ q_offset q = None).
  { cbn [isPlainQuery] in Hplain.
    apply andb_prop in Hplain. destruct Hplain as [Hplain Hoff].
    apply andb_prop in Hplain. destruct Hplain as [_ Hlim].
    destruct (q_limit q), (q_offset q); try discriminate. auto. }
  destruct Hwindow as [Hlim Hoff].
  cbn [queryEntries]. rewrite Hlim, Hoff. cbn [offsetAndLimit].
  rewrite !in_map_iff. split.
  - intros [row [<- Hin]]. apply orderBy_In in Hin. apply List.filter_In in Hin.
    destruct Hin as [Hin Hw]. split; [exists row; auto|].
    rewrite <- whereClause_is_the_filter by exact Hplain. exact Hw.
  - intros [[row [<- Hin]] Hf]. exists row. split; [reflexivity|].
    apply orderBy_In. apply List.filter_In. split; [exact Hin|].
    rewrite whereClause_is_the_filter by exact Hplain. exact Hf.
Qed.

Definition twoChartsJournal : Store :=
  mkStore
    [mkJournalRow 1 100 "door" "1" None None None [] [];
     mkJournalRow 2 200 "door" "2" None None None [] [];
     mkJournalRow 3 300 "door" "1" None None None [] []]
    4 ∅ [].

Definition doorOneAfterFirst : JournalQuery :=
  QueryFields (mkJournalQuery (Some (mkRef "door" "1")) (Some 1) None None None None None
                              None None None).

Lemma queryEntries_returns_what_the_stream_filter_passes_witness :
  isPlainQuery doorOneAfterFirst = true
  /\ (In (parseSqlJournalRow (mkJournalRow 3 300 "door" "1" None None None [] []))
         (queryEntries doorOneAfterFirst twoChartsJournal)
      <-> In (parseSqlJournalRow (mkJournalRow 3 300 "door" "1" None None None [] []))
             (List.map parseSqlJournalRow (journalEntries twoChartsJournal))
          /\ journalFilterByQuery (Some doorOneAfterFirst)
               (parseSqlJournalRow (mkJournalRow 3 300 "door" "1" None None None [] []))
             = true).
Proof.
  split; [reflexivity|].
  apply (queryEntries_returns_what_the_stream_filter_passes doorOneAfterFirst
           twoChartsJournal).
  reflexivity.
Defined.

(** *** The stream of new entries *)

Lemma insertOrdered_head {A} (leb : A -> A -> bool) (x : A) (l : list A) :
  (forall a b, leb a b = false -> leb b a = true) ->
  (forall a b c, leb a b = true -> leb b c = true -> leb a c = true) ->
  match l with
  | [] => True
  | first :: others => forall y, In y others -> leb first y = true
  end ->
  match insertOrdered leb x l with
  | [] => True
  | first :: others => forall y, In y others -> leb first y = true
  end.
Proof.
  intros Htotal Htrans Hl. destruct l as [|z l]; cbn [insertOrdered].
  - intros y [].
  - destruct (leb x z) eqn:Hxz.
    + intros y [<-|Hy]; [exact Hxz|]. apply (Htrans x z y Hxz). apply Hl, Hy.
    + intros y Hy. apply insertOrdered_In in Hy. destruct Hy as [->|Hy].
      * apply Htotal, Hxz.
      * apply Hl, Hy.
Qed.

Lemma orderBy_head {A} (leb : A -> A -> bool) (l : list A) :
  (forall a b, leb a b = false -> leb b a = true) ->
  (forall a b c, leb a b = true -> leb b c = true -> leb a c = true) ->
  match orderBy leb l with
  | [] => True
  | first :: others => forall y, In y others -> leb first y = true
  end.
Proof.
  intros Htotal Htrans. induction l as [|x l IH]; [exact I|].
  unfold orderBy in *. cbn [fold_right]. apply insertOrdered_head; assumption.
Qed.

Lemma insertOrdered_NoDup {A B} (f : A -> B) (leb : A -> A -> bool) (x : A) (l : list A) :
  List.NoDup (List.map f (x :: l)) -> List.NoDup (List.map f (insertOrdered leb x l)).
Proof.
  induction l as [|z l IH]; cbn [insertOrdered]; [auto|].
  destruct (leb x z); [auto|]. intros Hnd. cbn [List.map] in *.
  apply NoDup_cons_iff in Hnd. destruct Hnd as [Hx Hnd].
  apply NoDup_cons_iff in Hnd. destruct Hnd as [Hz Hnd].
  apply NoDup_cons_iff. split.
  - intros Hin. apply in_map_iff in Hin. destruct Hin as [y [Hfy Hy]].
    apply insertOrdered_In in Hy. destruct Hy as [->|Hy].
    + apply Hx. left. symmetry. exact Hfy.
    + apply Hz. rewrite <- Hfy. apply in_map, Hy.
  - apply IH. apply NoDup_cons_iff. split; [|exact Hnd].
    intros Hin. apply Hx. right. exact Hin.
Qed.

Lemma orderBy_NoDup {A B} (f : A -> B) (leb : A -> A -> bool) (l : list A) :
  List.NoDup (List.map f l) -> List.NoDup (List.map f (orderBy leb l)).
Proof.
  induction l as [|x l IH]; [auto|]. intros Hnd.
  unfold orderBy in *. cbn [fold_right]. apply insertOrdered_NoDup.
  cbn [List.map] in *. apply NoDup_cons_iff in Hnd. destruct Hnd as [Hx Hnd].
  apply NoDup_cons_iff. split; [|apply IH, Hnd].
  intros Hin. apply Hx. apply in_map_iff in Hin. destruct Hin as [y [Hfy Hy]].
  apply in_map_iff. exists y. split; [exact Hfy|]. apply (orderBy_In leb), Hy.
Qed.

Lemma filter_NoDup {A B} (f : A -> B) (p : A -> bool) (l : list A) :
  List.NoDup (List.map f l) -> List.NoDup (List.map f (List.filter p l)).
Proof.
  induction l as [|x l IH]; [auto|]. cbn [List.map List.filter]. intros Hnd.
  apply NoDup_cons_iff in Hnd. destruct Hnd as [Hx Hnd].
  destruct (p x); [|apply IH, Hnd]. cbn [List.map].
  apply NoDup_cons_iff. split; [|apply IH, Hnd].
  intros Hin. apply Hx. apply in_map_iff in Hin. destruct Hin as [y [Hfy Hy]].
  apply in_map_iff. exists y. split; [exact Hfy|]. apply List.filter_In in Hy. tauto.
Qed.

(** The rows that the handler's query selects, newest first. *)
Definition rowsAfter (startTime pointer : Z) (st : Store) : list JournalRow :=
  orderBy (idOrder (Some DESC))
    (List.filter (fun row => (j_id row >? pointer) && (j_timestamp row >=? startTime))
                 (journalEntries st)).

Lemma onNewJournalEntry_rows (startTime pointer : Z) (st : Store) :
  onNewJournalEntry startTime pointer st
  = yieldJournalEntries (List.map parseSqlJournalRow (rowsAfter startTime pointer st))
                        pointer.
Proof.
  unfold onNewJournalEntry, rowsAfter. cbn [queryEntries].
  unfold offsetAndLimit. cbn [q_offset q_limit q_order].
  assert (Hw : forall row,
             whereClause (mkJournalQuery None (Some pointer) None None None
                                         (Some startTime) None None None (Some DESC)) row
             = (j_id row >? pointer) && (j_timestamp row >=? startTime)).
  { intros row. unfold whereClause. cbn. rewrite !andb_true_r. reflexivity. }
  rewrite (List.filter_ext _ _ Hw).
  destruct (List.map parseSqlJournalRow _); reflexivity.
Qed.

(** X17.  When the ids of the stored entries are distinct, the handler of a
    notification passes on at most one entry.  If entries were written
    after the pointer (and since the start of the adapter), the one passed
    on is the newest of them, and the pointer moves to its id: the older
    ones are neither passed on now nor selected by a later query. *)
Theorem onNewJournalEntry_passes_on_only_the_newest (startTime pointer : Z) (st : Store) :
  List.NoDup (List.map j_id (journalEntries st)) ->
  (length (snd (onNewJournalEntry startTime pointer st)) <= 1)%nat
  /\ (forall row, In row (journalEntries st) ->
        pointer < j_id row -> startTime <= j_timestamp row ->
        exists newest,
          In newest (journalEntries st)
          /\ snd (onNewJournalEntry startTime pointer st) = [parseSqlJournalRow newest]
          /\ fst (onNewJournalEntry startTime pointer st) = j_id newest
          /\ j_id row <= j_id newest).
Proof.
  intros Hnd. rewrite onNewJournalEntry_rows.
  assert (Hin : forall row, In row (rowsAfter startTime pointer st)
                            <-> In row (journalEntries st)
                                /\ pointer < j_id row /\ startTime <= j_timestamp row).
  { intros row. unfold rowsAfter. rewrite orderBy_In, List.filter_In, andb_true_iff.
    rewrite Z.gtb_ltb, Z.geb_leb, Z.ltb_lt, Z.leb_le. reflexivity. }
  assert (Hhead := orderBy_head (idOrder (Some DESC))
                     (List.filter (fun row => (j_id row >? pointer)
                                              && (j_timestamp row >=? startTime))
                                  (journalEntries st))).
  assert (Hnd' : List.NoDup (List.map j_id (rowsAfter startTime pointer st))).
  { unfold rowsAfter. apply orderBy_NoDup, filter_NoDup, Hnd. }
  fold (rowsAfter startTime pointer st) in Hhead.
  destruct (rowsAfter startTime pointer st) as [|newest others] eqn:Hrows.
  - cbn [List.map yieldJournalEntries snd length]. split; [lia|].
    intros row Hrow Hp Ht. exfalso. apply (proj2 (Hin row)). auto.
  - assert (Hmax : forall y, In y others -> j_id y < j_id newest).
    { intros y Hy.
      assert (Hle : j_id y <= j_id newest).
      { apply Z.leb_le. apply (Hhead ltac:(cbn; intros a b H; apply Z.leb_gt in H;
                                           apply Z.leb_le; lia)
                                     ltac:(cbn; intros a b c H1 H2; apply Z.leb_le in H1, H2;
                                           apply Z.leb_le; lia) y Hy). }
      cbn [List.map] in Hnd'. apply NoDup_cons_iff in Hnd'. destruct Hnd' as [Hnew _].
      assert (j_id y <> j_id newest).
      { intros Heq. apply Hnew. rewrite <- Heq. apply in_map, Hy. }
      lia. }
    assert (Hnewest : In newest (journalEntries st) /\ pointer < j_id newest
                      /\ startTime <= j_timestamp newest).
    { apply Hin. left. reflexivity. }
    assert (Hyield : yieldJournalEntries
                       (List.map parseSqlJournalRow (newest :: others)) pointer
                     = (j_id newest, [parseSqlJournalRow newest])).
    { cbn [List.map yieldJournalEntries parseSqlJournalRow e_id].
      destruct (j_id newest <? pointer) eqn:Hlt; [apply Z.ltb_lt in Hlt; lia|].
      destruct others as [|second others]; [reflexivity|].
      cbn [List.map yieldJournalEntries parseSqlJournalRow e_id].
      assert (Hsecond : (j_id second <? j_id newest) = true).
      { apply Z.ltb_lt, Hmax. left. reflexivity. }
      rewrite Hsecond. reflexivity. }
    rewrite Hyield. cbn [fst snd length]. split; [lia|].
    intros row Hrow Hp Ht. exists newest. split; [tauto|].
    split; [reflexivity|]. split; [reflexivity|].
    assert (Hrow' : In row (newest :: others)) by (apply Hin; auto).
    destruct Hrow' as [<-|Hrow']; [lia|]. apply Hmax in Hrow'. lia.
Qed.

Lemma onNewJournalEntry_passes_on_only_the_newest_witness :
  List.NoDup (List.map j_id (journalEntries twoChartsJournal))
  /\ onNewJournalEntry 0 0 twoChartsJournal
     = (3, [parseSqlJournalRow (mkJournalRow 3 300 "door" "1" None None None [] [])])
  /\ (length (snd (onNewJournalEntry 0 0 twoChartsJournal)) <= 1)%nat.
Proof.
  assert (H : List.NoDup (List.map j_id (journalEntries twoChartsJournal))).
  { cbn. repeat constructor; cbn; intuition discriminate. }
  split; [exact H|]. split; [reflexivity|].
  exact (proj1 (onNewJournalEntry_passes_on_only_the_newest 0 0 twoChartsJournal H)).
Defined.

(** *** Deleting the journal of a chart *)

Definition isOf (r : ChartReference) (row : JournalRow) : bool :=
  String.eqb (j_machineId row) (machineId r) && String.eqb (j_chartId row) (chartId r).

Lemma queryEntries_single (r : ChartReference) (st : Store) :
  queryEntries (QueryRefs [r]) st
  = List.map parseSqlJournalRow (List.filter (isOf r) (journalEntries st)).
Proof.
  cbn [queryEntries]. f_equal.
  induction (journalEntries st) as [|row rows IH]; [reflexivity|].
  cbn [flat_map]. rewrite IH. cbn [List.filter]. unfold isOf at 2.
  destruct (String.eqb _ _ && String.eqb _ _); reflexivity.
Qed.

Lemma filter_negb_length {A} (p : A -> bool) (l : list A) :
  (length l - length (List.filter (fun x => negb (p x)) l))%nat
  = length (List.filter p l).
Proof.
  induction l as [|x l IH]; [reflexivity|]. cbn [List.filter length].
  pose proof (List.filter_length_le (fun x => negb (p x)) l) as Hle.
  destruct (p x); cbn [negb length]; lia.
Qed.

Lemma filter_of_the_rest {A} (p : A -> bool) (l : list A) :
  List.filter p (List.filter (fun x => negb (p x)) l) = [].
Proof.
  induction l as [|x l IH]; [reflexivity|]. cbn [List.filter].
  destruct (p x) eqn:Hp; cbn [negb List.filter]; [exact IH|]. rewrite Hp. exact IH.
Qed.

Lemma isOf_iff (r : ChartReference) (row : JournalRow) :
  isOf r row = true <-> (j_machineId row, j_chartId row) = (machineId r, chartId r).
Proof.
  unfold isOf. rewrite andb_true_iff, !String.eqb_eq. split.
  - intros [-> ->]. reflexivity.
  - intros H. injection H as -> ->. auto.
Qed.

Lemma filter_other_chart (r other : ChartReference) (rows : list JournalRow) :
  (machineId other, chartId other) <> (machineId r, chartId r) ->
  List.filter (isOf other) (List.filter (fun row => negb (isOf r row)) rows)
  = List.filter (isOf other) rows.
Proof.
  intros Hne. induction rows as [|row rows IH]; [reflexivity|].
  cbn [List.filter]. destruct (isOf r row) eqn:Hr; cbn [negb List.filter].
  - destruct (isOf other row) eqn:Ho; [|exact IH].
    apply isOf_iff in Hr, Ho. congruence.
  - destruct (isOf other row); [f_equal|]; exact IH.
Qed.

(** X18.  [deleteByChart] removes the full state and every journal entry of
    the chart and returns how many rows that were; the full states and the
    entries of every other chart stay as they are. *)
Theorem deleteByChart_forgets_that_chart_only (r : ChartReference) (st : Store) :
  let st' := fst (deleteByChart r st) in
  readFullState r st' = None
  /\ queryEntries (QueryRefs [r]) st' = []
  /\ snd (deleteByChart r st)
     = (match readFullState r st with Some _ => 1 | None => 0 end
        + length (queryEntries (QueryRefs [r]) st))%nat
  /\ (forall other,
        (machineId other, chartId other) <> (machineId r, chartId r) ->
        readFullState other st' = readFullState other st
        /\ queryEntries (QueryRefs [other]) st' = queryEntries (QueryRefs [other]) st).
Proof.
  cbv zeta. rewrite !queryEntries_single. unfold deleteByChart, readFullState.
  cbn [fst snd fullJournalStates journalEntries].
  fold (isOf r). repeat split.
  - rewrite lookup_delete_eq. reflexivity.
  - rewrite filter_of_the_rest. reflexivity.
  - rewrite List.length_map.
    rewrite (filter_negb_length (isOf r)).
    destruct (fullJournalStates st !! (machineId r, chartId r)); reflexivity.
  - rewrite lookup_delete_ne by congruence. reflexivity.
  - rewrite !queryEntries_single. cbn [journalEntries]. f_equal.
    apply (filter_other_chart r other); assumption.
Qed.

(** *** What an upsert of the full state leaves alone *)

Lemma updateFullState_first_write (entry : FullStateEntry) (st : Store)
    (key : string * string) (row : FullStateRow) :
  fullJournalStates st !! key = Some row ->
  exists row',
    fullJournalStates (fst (updateFullState entry st)) !! key = Some row'
    /\ f_created row' = f_created row
    /\ f_ownerId row' = f_ownerId row
    /\ f_parentMachineId row' = f_parentMachineId row
    /\ f_parentChartId row' = f_parentChartId row.
Proof.
  intros Hrow. unfold updateFullState.
  set (key' := (machineId (ref entry), chartId (ref entry))).
  destruct (decide (key' = key)) as [Heq|Hne].
  - rewrite Heq, Hrow. destruct (f_id row <? id entry).
    + cbn [fst fullJournalStates]. rewrite lookup_insert_eq.
      eexists. split; [reflexivity|]. cbn. auto.
    + exists row. cbn [fst]. auto.
  - destruct (fullJournalStates st !! key') as [existing|].
    + destruct (f_id existing <? id entry); cbn [fst fullJournalStates].
      * rewrite lookup_insert_ne by exact Hne. exists row. auto.
      * exists row. auto.
    + cbn [fst fullJournalStates]. rewrite lookup_insert_ne by exact Hne.
      exists row. auto.
Qed.

(** X19.  Once a chart has a full state, no later write changes the time
    of its creation, its owner or its parent: whatever owner and parent the
    later writes carry, the row keeps those of the first write. *)
Theorem full_state_keeps_creation_owner_and_parent (entries : list FullStateEntry)
    (st : Store) (r : ChartReference) (row : FullStateRow) :
  fullJournalStates st !! (machineId r, chartId r) = Some row ->
  exists row',
    fullJournalStates (upsertAll entries st) !! (machineId r, chartId r) = Some row'
    /\ f_created row' = f_created row
    /\ f_ownerId row' = f_ownerId row
    /\ f_parentMachineId row' = f_parentMachineId row
    /\ f_parentChartId row' = f_parentChartId row.
Proof.
  revert st row. induction entries as [|entry entries IH]; intros st row Hrow.
  - exists row. auto.
  - destruct (updateFullState_first_write entry st _ row Hrow)
      as (mid & Hmid & Hc & Ho & Hpm & Hpc).
    destruct (IH _ _ Hmid) as (row' & Hrow' & Hc' & Ho' & Hpm' & Hpc').
    exists row'. split; [exact Hrow'|]. repeat split; congruence.
Qed.

(** A write by another instance, for the same chart, with a parent. *)
Definition adoptedWrite : FullStateEntry :=
  mkFullStateEntry 9 900 "B" (mkRef "door" "1") (Some (mkRef "house" "1")) JNull
                   (JString "closed") JNull.

Lemma full_state_keeps_creation_owner_and_parent_witness :
  fullJournalStates snapshotStore !! ("door", "1")
  = Some (mkFullStateRow 5 100 500 "A" None None None (Some (JString "open")) None)
  /\ fullJournalStates (upsertAll [adoptedWrite] snapshotStore) !! ("door", "1")
     = Some (mkFullStateRow 9 100 900 "A" None None None (Some (JString "closed")) None)
  /\ exists row',
       fullJournalStates (upsertAll [adoptedWrite] snapshotStore) !! ("door", "1")
       = Some row'
       /\ f_created row' = 100
       /\ f_ownerId row' = "A"
       /\ f_parentMachineId row' = None
       /\ f_parentChartId row' = None.
Proof.
  split; [reflexivity|]. split; [reflexivity|].
  apply (full_state_keeps_creation_owner_and_parent [adoptedWrite] snapshotStore
           (mkRef "door" "1")
           (mkFullStateRow 5 100 500 "A" None None None (Some (JString "open")) None)).
  reflexivity.
Defined.

End ReadingTheJournal.

(** ** Reading a merged journal entry *)

Section MergedEntries.

Import JsonPatch Journal JournalReader.
Local Open Scope Z_scope.

(** [applyPatch] of the rfc6902 package. *)
Variable applyPatch : Json -> list Operation -> Json.

(** The deltas of [entries], newest first, lead from the state [s] and the
    context [c] back through the states and contexts of [older], one pair
    for each entry; every pair that a further delta is applied to is
    truthy. *)
Fixpoint walksBack (s c : Json) (entries : list JournalEntry) (older : list (Json * Json))
  : Prop :=
  match entries, older with
  | [], [] => True
  | e :: entries', (s', c') :: older' =>
      nullSafeApplyJsonDiff applyPatch s (e_stateDelta e) = Returned s'
      /\ nullSafeApplyJsonDiff applyPatch c (e_contextDelta e) = Returned c'
      /\ (entries' <> [] -> truthy s' = true /\ truthy c' = true)
      /\ walksBack s' c' entries' older'
  | _, _ => False
  end.

(** The state and context that the next pass of the loop starts from. *)
Definition startingState (merged : MergedJournalEntry) : Json :=
  if truthy (m_previousState merged) then m_previousState merged else m_state merged.

Definition startingContext (merged : MergedJournalEntry) : Json :=
  if truthy (m_previousContext merged) then m_previousContext merged else m_context merged.

Lemma mergeEntries_walk (entries : list JournalEntry) :
  forall (e : JournalEntry) (older : list (Json * Json)) (merged : MergedJournalEntry),
    walksBack (startingState merged) (startingContext merged) (e :: entries) older ->
    exists result,
      mergeEntries applyPatch (e :: entries) merged = Returned result
      /\ m_id result = m_id merged
      /\ m_created result = m_created merged
      /\ m_timestamp result = m_timestamp merged
      /\ m_ref result = m_ref merged
      /\ (forall front z, e :: entries = front ++ [z] -> m_event result = e_event z)
      /\ (forall front at_ before,
            (startingState merged, startingContext merged) :: older
            = front ++ [at_; before] ->
            (m_state result, m_context result) = at_
            /\ (m_previousState result, m_previousContext result) = before).
Proof.
  induction entries as [|e2 entries IH]; intros e older merged Hwalk.
  - destruct older as [|[s' c'] older]; [contradiction|].
    destruct Hwalk as (Hs & Hc & _ & Hrest).
    destruct older; [|contradiction].
    cbn [mergeEntries]. unfold mergeEntry.
    fold (startingState merged). fold (startingContext merged).
    rewrite Hs, Hc. eexists. split; [reflexivity|].
    cbn [m_id m_created m_timestamp m_ref m_event m_state m_context
         m_previousState m_previousContext].
    do 4 (split; [reflexivity|]). split.
    + intros front z H. destruct front as [|x front]; cbn in H; [congruence|].
      injection H as _ H. destruct front; discriminate.
    + intros front at_ before H. destruct front as [|x front]; cbn in H.
      * injection H as <- <-. split; reflexivity.
      * injection H as _ H. destruct front as [|y front]; [discriminate|].
        injection H as _ H. destruct front; discriminate.
  - destruct older as [|[s' c'] older]; [contradiction|].
    destruct Hwalk as (Hs & Hc & Htruthy & Hrest).
    destruct (Htruthy ltac:(discriminate)) as [Hts Htc].
    cbn [mergeEntries]. unfold mergeEntry at 1.
    fold (startingState merged). fold (startingContext merged).
    rewrite Hs, Hc.
    set (merged1 := mkMerged _ _ _ _ _ _ _ _ _ _ _ _ _).
    assert (Hss : startingState merged1 = s').
    { unfold startingState, merged1. cbn [m_previousState]. rewrite Hts. reflexivity. }
    assert (Hsc : startingContext merged1 = c').
    { unfold startingContext, merged1. cbn [m_previousContext]. rewrite Htc. reflexivity. }
    rewrite <- Hss, <- Hsc in Hrest.
    destruct (IH e2 older merged1 Hrest)
      as (result & Hresult & Hid & Hcr & Hts' & Href & Hevent & Hstate).
    exists result. split; [exact Hresult|].
    split; [exact Hid|]. split; [exact Hcr|]. split; [exact Hts'|]. split; [exact Href|].
    split.
    + intros front z Hfront. destruct front as [|x front]; cbn in Hfront; [discriminate|].
      injection Hfront as _ Hfront. apply (Hevent front z Hfront).
    + intros front at_ before Hfront. rewrite Hss, Hsc in Hstate.
      destruct front as [|x front]; cbn in Hfront.
      * injection Hfront as _ _ Hfront. subst older.
        destruct entries; cbn in Hrest; tauto.
      * injection Hfront as _ Hfront. apply (Hstate front at_ before Hfront).
Qed.

(** Every element of an ordered list comes before the ones after it. *)
Fixpoint ordered {A} (leb : A -> A -> bool) (l : list A) : Prop :=
  match l with
  | [] => True
  | x :: rest => (forall y, In y rest -> leb x y = true) /\ ordered leb rest
  end.

Lemma insertOrdered_ordered {A} (leb : A -> A -> bool) (x : A) (l : list A) :
  (forall a b, leb a b = false -> leb b a = true) ->
  (forall a b c, leb a b = true -> leb b c = true -> leb a c = true) ->
  ordered leb l -> ordered leb (insertOrdered leb x l).
Proof.
  intros Htotal Htrans. induction l as [|z l IH]; intros Hl; cbn [insertOrdered].
  - split; [intros y []|exact I].
  - destruct Hl as [Hz Hl]. destruct (leb x z) eqn:Hxz.
    + split; [|split; assumption].
      intros y [<-|Hy]; [exact Hxz|]. apply (Htrans x z y Hxz), Hz, Hy.
    + split; [|apply IH, Hl].
      intros y Hy. apply insertOrdered_In in Hy. destruct Hy as [->|Hy].
      * apply Htotal, Hxz.
      * apply Hz, Hy.
Qed.

Lemma orderBy_ordered {A} (leb : A -> A -> bool) (l : list A) :
  (forall a b, leb a b = false -> leb b a = true) ->
  (forall a b c, leb a b = true -> leb b c = true -> leb a c = true) ->
  ordered leb (orderBy leb l).
Proof.
  intros Htotal Htrans. induction l as [|x l IH]; [exact I|].
  unfold orderBy in *. cbn [fold_right]. apply insertOrdered_ordered; assumption.
Qed.

Lemma ordered_last {A} (leb : A -> A -> bool) (front : list A) (z y : A) :
  ordered leb (front ++ [z]) -> In y front -> leb y z = true.
Proof.
  induction front as [|x front IH]; intros Hord Hy; [destruct Hy|].
  destruct Hord as [Hx Hord]. destruct Hy as [<-|Hy].
  - apply Hx. apply in_or_app. right. left. reflexivity.
  - apply IH; assumption.
Qed.

Lemma same_id_same_row {A B} (f : A -> B) (l : list A) (a b : A) :
  List.NoDup (List.map f l) -> In a l -> In b l -> f a = f b -> a = b.
Proof.
  induction l as [|x l IH]; intros Hnd Ha Hb Heq; [destruct Ha|].
  cbn [List.map] in Hnd. apply NoDup_cons_iff in Hnd. destruct Hnd as [Hx Hnd].
  destruct Ha as [<-|Ha], Hb as [<-|Hb].
  - reflexivity.
  - exfalso. apply Hx. rewrite Heq. apply in_map, Hb.
  - exfalso. apply Hx. rewrite <- Heq. apply in_map, Ha.
  - apply IH; assumption.
Qed.

Lemma entriesBackTo_rows (r : ChartReference) (i : Z) (st : Store) :
  queryEntries (entriesBackTo r i) st
  = List.map parseSqlJournalRow
      (orderBy (idOrder (Some DESC))
         (List.filter (fun row => isOf r row && (j_id row >=? i)) (journalEntries st))).
Proof.
  unfold entriesBackTo. cbn [queryEntries]. unfold offsetAndLimit.
  cbn [q_offset q_limit q_order]. do 2 f_equal. apply List.filter_ext. intros row.
  unfold whereClause, isOf. cbn. rewrite !andb_true_r. reflexivity.
Qed.

(** X20.  [readMergedJournalEntry(id)] walks the deltas back from the full
    state of the chart to the entry asked for.  When the ids of the stored
    entries are distinct and the deltas of the chart's entries from the
    newest down to [id] lead from the full state back through a chain of
    states and contexts, the merged entry has the event of the entry asked
    for, the last but one state and context of the chain as its state and
    context, and the last as its previous state and context; its id and
    timestamp are those of the full state. *)
Theorem readMergedJournalEntry_walks_the_deltas_back (i : Z) (st : Store)
    (entry : JournalEntry) (full : FullState)
    (older front : list (Json * Json)) (at_ before : Json * Json) :
  List.NoDup (List.map j_id (journalEntries st)) ->
  readEntry i st = Some entry ->
  readFullState (e_ref entry) st = Some full ->
  walksBack (fs_state full) (fs_context full)
            (queryEntries (entriesBackTo (e_ref entry) i) st) older ->
  (fs_state full, fs_context full) :: older = front ++ [at_; before] ->
  exists merged,
    readMergedJournalEntry applyPatch i st = Returned (Some merged)
    /\ m_event merged = e_event entry
    /\ (m_state merged, m_context merged) = at_
    /\ (m_previousState merged, m_previousContext merged) = before
    /\ m_id merged = fs_id full
    /\ m_timestamp merged = fs_timestamp full.
Proof.
  intros Hnd Hentry Hfull Hwalk Hchain.
  unfold readMergedJournalEntry. rewrite Hentry, Hfull.
  unfold readEntry in Hentry.
  destruct (List.find _ (journalEntries st)) as [row0|] eqn:Hfind; [|discriminate].
  injection Hentry as <-. apply List.find_some in Hfind. destruct Hfind as [Hrow0 Hid0].
  apply Z.eqb_eq in Hid0.
  rewrite entriesBackTo_rows in *.
  set (r := e_ref (parseSqlJournalRow row0)) in *.
  set (rows := orderBy (idOrder (Some DESC))
                 (List.filter (fun row => isOf r row && (j_id row >=? i))
                              (journalEntries st))) in *.
  assert (Hin : forall row, In row rows
                            <-> In row (journalEntries st)
                                /\ isOf r row = true /\ i <= j_id row).
  { intros row. unfold rows. rewrite orderBy_In, List.filter_In, andb_true_iff.
    rewrite Z.geb_leb, Z.leb_le. reflexivity. }
  assert (Hrow0' : In row0 rows).
  { apply Hin. split; [exact Hrow0|]. split; [|lia].
    unfold isOf, r. cbn. rewrite !String.eqb_refl. reflexivity. }
  assert (Hord : ordered (idOrder (Some DESC)) rows).
  { apply orderBy_ordered; cbn.
    - intros a b H. apply Z.leb_gt in H. apply Z.leb_le. lia.
    - intros a b c H1 H2. apply Z.leb_le in H1, H2. apply Z.leb_le. lia. }
  assert (Hne : rows <> []) by (intros Heq; rewrite Heq in Hrow0'; destruct Hrow0').
  destruct (exists_last Hne) as [rowsFront [z Hrows]].
  assert (Hz : z = row0).
  { assert (Hzin : In z rows) by (rewrite Hrows; apply in_or_app; right; left; reflexivity).
    apply (same_id_same_row j_id (journalEntries st)); [exact Hnd| |exact Hrow0|].
    - apply Hin, Hzin.
    - assert (i <= j_id z) by (apply Hin, Hzin).
      rewrite Hrows in Hrow0', Hord. apply in_app_or in Hrow0'.
      destruct Hrow0' as [Hfront|[Heq|[]]]; [|rewrite Heq; reflexivity].
      pose proof (ordered_last _ _ _ _ Hord Hfront) as Hle. cbn in Hle.
      apply Z.leb_le in Hle. lia. }
  subst z.
  assert (Hstart : startingState (mergedFrom full) = fs_state full
                   /\ startingContext (mergedFrom full) = fs_context full).
  { split; reflexivity. }
  destruct Hstart as [Hss Hsc].
  destruct rows as [|newest others] eqn:Hrows'; [congruence|].
  cbn [List.map] in *.
  rewrite <- Hss, <- Hsc in Hwalk.
  destruct (mergeEntries_walk _ _ _ _ Hwalk)
    as (result & Hresult & Hid & _ & Hts & _ & Hevent & Hstate).
  rewrite Hresult. exists result. split; [reflexivity|].
  split.
  { apply (Hevent (List.map parseSqlJournalRow rowsFront)).
    change (parseSqlJournalRow newest :: List.map parseSqlJournalRow others)
      with (List.map parseSqlJournalRow (newest :: others)).
    rewrite Hrows, List.map_app. reflexivity. }
  rewrite Hss, Hsc in Hstate. destruct (Hstate front at_ before Hchain) as [Hat Hbefore].
  split; [exact Hat|]. split; [exact Hbefore|].
  split; [exact Hid|exact Hts].
Qed.

End MergedEntries.

(** The journal of chart [door/1] after three recorded changes: created
    closed, opened, closed again, with a counter in the context. *)
Definition counter (n : Z) : JsonPatch.Json :=
  JsonPatch.JObject [("n", JsonPatch.JNumber n)].

Definition threeChangesJournal : Journal.Store :=
  let r := mkRef "door" "1" in
  let st1 := fst (Journal.record rootPatch 100 "A" r None (JsonPatch.JString "xstate.init")
                    JsonPatch.JNull JsonPatch.JNull
                    (JsonPatch.JString "closed") (counter 0) Journal.emptyStore) in
  let st2 := fst (Journal.record rootPatch 200 "A" r None (JsonPatch.JString "open")
                    (JsonPatch.JString "closed") (counter 0)
                    (JsonPatch.JString "opened") (counter 1) st1) in
  fst (Journal.record rootPatch 300 "A" r None (JsonPatch.JString "close")
         (JsonPatch.JString "opened") (counter 1)
         (JsonPatch.JString "closed") (counter 2) st2).

Lemma readMergedJournalEntry_walks_the_deltas_back_witness :
  List.NoDup (List.map Journal.j_id (Journal.journalEntries threeChangesJournal))
  /\ option_map Journal.e_id (Journal.readEntry 2 threeChangesJournal) = Some 2%Z
  /\ option_map Journal.fs_id (Journal.readFullState (mkRef "door" "1") threeChangesJournal)
     = Some 3%Z
  /\ exists merged,
       JournalReader.readMergedJournalEntry (fun doc _ => doc) 2 threeChangesJournal
       = Returned (Some merged)
       /\ JournalReader.m_event merged = JsonPatch.JString "open"
       /\ (JournalReader.m_state merged, JournalReader.m_context merged)
          = (JsonPatch.JString "opened", counter 1)
       /\ (JournalReader.m_previousState merged, JournalReader.m_previousContext merged)
          = (JsonPatch.JString "closed", counter 0)
       /\ JournalReader.m_id merged = 3%Z
       /\ JournalReader.m_timestamp merged = 300%Z.
Proof.
  assert (Hnd : List.NoDup
                  (List.map Journal.j_id (Journal.journalEntries threeChangesJournal))).
  { vm_compute. repeat constructor; cbn; intuition discriminate. }
  split; [exact Hnd|]. split; [reflexivity|]. split; [reflexivity|].
  destruct (Journal.readEntry 2 threeChangesJournal) as [entry|] eqn:Hentry;
    [|vm_compute in Hentry; discriminate].
  destruct (Journal.readFullState (Journal.e_ref entry) threeChangesJournal)
    as [full|] eqn:Hfull;
    [|vm_compute in Hentry; injection Hentry as <-; vm_compute in Hfull; discriminate].
  assert (Hentry' := Hentry). vm_compute in Hentry'. injection Hentry' as He.
  assert (Hfull' := Hfull). rewrite <- He in Hfull'. vm_compute in Hfull'.
  injection Hfull' as Hf.
  pose proof (readMergedJournalEntry_walks_the_deltas_back (fun doc _ => doc) 2
                threeChangesJournal entry full
                [(JsonPatch.JString "opened", counter 1);
                 (JsonPatch.JString "closed", counter 0)]
                [(JsonPatch.JString "closed", counter 2)]
                (JsonPatch.JString "opened", counter 1)
                (JsonPatch.JString "closed", counter 0) Hnd Hentry Hfull) as H.
  rewrite <- He, <- Hf in H. cbn [Journal.e_event Journal.fs_id Journal.fs_timestamp] in H.
  apply H.
  - vm_compute. repeat split; intros; reflexivity.
  - reflexivity.
Defined.

(** ** The journal writer *)

Section WritingTheJournal.

Import JsonPatch Chart.
Local Open Scope Z_scope.

Variable transition : State -> ScxmlEvent -> Json -> Outcome State.
Variable stringify : State -> string.
Variable stringifyEvent : ScxmlEvent -> string.
Variable executeActions : State -> Persistence.Db -> Persistence.Db * Outcome unit.
Variable resolveDoneData : State -> Json.
Variable createPatch : Json -> Json -> list Operation.
Variable eventJson : ScxmlEvent -> Json.

Local Abbreviation send' :=
  (@send Journal.Store transition stringify stringifyEvent executeActions resolveDoneData).

(** X21.  With the journal writer as the only update hook, a [send] whose
    transition succeeds, and which does not take a chart with a parent to a
    final state, appends exactly one entry to the journal, for the chart and
    with the two deltas that lead from the new state and context back to the
    ones before the event.  A failure of the journal write does not stop the
    chart: the new state is stored in the [charts] table, the actions are
    executed on the database after that update, and when they return, [send]
    returns the new state.  (A chart with a parent that reaches a final state
    also sends the done event to its parent before it returns; what the
    parent then writes is not covered here.) *)
Theorem send_writes_one_journal_entry (now journalNow : Z) (owner : string)
    (actionId : Persistence.EventIdent) (ev : ScxmlEvent) (next : State)
    (w : World Journal.Store) :
  stopping w = false ->
  engineDying w = false ->
  updateHooks w = [JournalWriter.updateHook createPatch eventJson owner journalNow] ->
  transition (state w) ev (context (state w)) = Returned next ->
  done next = false \/ chartParentRef w = None ->
  let w' := fst (send' now actionId ev None w) in
  let updated := Persistence.updateChart (chartRef w) (stringify next) (db w) in
  (exists entry,
     Journal.journalEntries (hookStore w') = Journal.journalEntries (hookStore w) ++ [entry]
     /\ Journal.j_id entry = Journal.journalSeq (hookStore w)
     /\ Journal.stateDelta entry = createPatch (value next) (value (state w))
     /\ Journal.contextDelta entry = createPatch (context next) (context (state w)))
  /\ db w' = fst (executeActions next updated)
  /\ state w' = next
  /\ (snd (executeActions next updated) = Returned tt ->
      snd (send' now actionId ev None w) = Returned (Some next)).
Proof.
  intros Hstop Hdying Hhooks Htrans Hbranch. cbv zeta.
  destruct w as [cr cp st0 stp dy hooks hs d0 dm eff].
  cbn [stopping engineDying updateHooks state chartRef chartParentRef hookStore db]
    in Hstop, Hdying, Hhooks, Htrans, Hbranch |- *.
  subst stp dy hooks.
  destruct (record_appends_entry createPatch journalNow owner cr cp (eventJson ev)
              (value st0) (context st0) (value next) (context next) hs)
    as (entry & Happ & Hid & Hs & Hc).
  unfold send, sendTry, JournalWriter.updateHook.
  cbn [stopping engineDying orb patchContext emit withState withHookStore withDb
       updateHooks chartRef chartParentRef state hookStore db deferredEventManager
       effects callHooks fst snd
       Chart.ref Chart.parentRef Chart.event Chart.old Chart.new
       JournalWriter.valueOf JournalWriter.contextOf change_value change_context].
  rewrite Htrans.
  cbn [stopping engineDying orb patchContext emit withState withHookStore withDb
       updateHooks chartRef chartParentRef state hookStore db deferredEventManager
       effects callHooks fst snd
       Chart.ref Chart.parentRef Chart.event Chart.old Chart.new
       JournalWriter.valueOf JournalWriter.contextOf change_value change_context].
  destruct (executeActions next (Persistence.updateChart cr (stringify next) d0))
    as [d [u|err]] eqn:Hexec;
    cbn [emit withState withHookStore withDb updateHooks chartRef chartParentRef state
         hookStore db deferredEventManager effects stopping engineDying fst snd].
  - destruct cp as [parent|];
      [destruct Hbranch as [Hbranch|Hbranch]; [rewrite Hbranch|discriminate]|];
      cbn [emit withState withHookStore withDb updateHooks chartRef chartParentRef state
           hookStore db deferredEventManager effects stopping engineDying fst snd];
      (split; [exists entry; auto|]);
      (split; [reflexivity|]); (split; [reflexivity|]); intros _; destruct u; reflexivity.
  - split; [exists entry; auto|]. split; [reflexivity|].
    split; [reflexivity|]. intros H. discriminate.
Qed.

End WritingTheJournal.

Definition eventName (ev : Chart.ScxmlEvent) : JsonPatch.Json :=
  JsonPatch.JString (Chart.name ev).

(** The chart [parent/1], which has no parent itself, with the journal
    writer as its one update hook. *)
Definition parentWaiting : Chart.State :=
  Chart.mkState (JsonPatch.JString "waiting")
                (JsonPatch.JObject [("calls", JsonPatch.JNumber 0)]) false EmptyString.

Definition journaledWorld : Chart.World Journal.Store :=
  Chart.mkWorld (mkRef "parent" "1") None parentWaiting false false
                [JournalWriter.updateHook rootPatch eventName "A" 500]
                Journal.emptyStore childDb DeferredEventManager.initial [].

Definition finished : Chart.State :=
  Chart.mkState (JsonPatch.JString "finished")
                (JsonPatch.JObject [("calls", JsonPatch.JNumber 0)]) true EmptyString.

Definition journaledSend :=
  @Chart.send Journal.Store childTransition showState Chart.name noActions noDoneData 0
              (Persistence.IdString "send-1") (Chart.mkEvent "finish" JsonPatch.JNull) None.

Lemma send_writes_one_journal_entry_witness :
  Chart.stopping journaledWorld = false
  /\ Chart.engineDying journaledWorld = false
  /\ Chart.chartParentRef journaledWorld = None
  /\ List.map Journal.stateDelta
       (Journal.journalEntries (Chart.hookStore (fst (journaledSend journaledWorld))))
     = [rootPatch (JsonPatch.JString "finished") (JsonPatch.JString "waiting")]
  /\ Chart.state (fst (journaledSend journaledWorld)) = finished
  /\ snd (journaledSend journaledWorld) = Returned (Some finished).
Proof.
  split; [reflexivity|]. split; [reflexivity|]. split; [reflexivity|].
  split; [reflexivity|].
  destruct (send_writes_one_journal_entry childTransition showState Chart.name noActions
              noDoneData rootPatch eventName 0 500 "A" (Persistence.IdString "send-1")
              (Chart.mkEvent "finish" JsonPatch.JNull) finished journaledWorld
              eq_refl eq_refl eq_refl eq_refl (or_intror eq_refl))
    as (_ & _ & Hstate & Hresult).
  split; [exact Hstate|]. apply Hresult. reflexivity.
Defined.

(** ** The batch cycle of the deferred-event manager *)

Section BatchCycle.

Import Persistence DeferredEventManager.
Local Open Scope Z_scope.







End BatchCycle.

(** ** Options *)

Section ResolvedOptions.

Import XJogOptions.
Local Open Scope Z_scope.

(** The resolved options, given as options again. *)
Definition asGiven (r : ResolvedXJogOptions) : XJogOptions :=
  mkXJogOptions (Some (chartMutexTimeout r))
                (Some (Engine.adoptionFrequency (startup r)))
                (Some (Engine.gracePeriod (startup r)))
                (Some (DeferredEventManager.batchSize (deferredEvents r)))
                (Some (DeferredEventManager.interval (deferredEvents r)))
                (Some (DeferredEventManager.lookAhead (deferredEvents r)))
                (Some (shutdown_ownChartPollingFrequency r)).

(** An option that is absent, or an integer of magnitude at most [bound]. *)
Definition within (bound : Z) (value : option Z) : Prop :=
  match value with Some v => - bound <= v <= bound | None => True end.

Definition givenWithin (bound : Z) (o : XJogOptions) : Prop :=
  within bound (o_chartMutexTimeout o)
  /\ within bound (o_adoptionFrequency o)
  /\ within bound (o_gracePeriod o)
  /\ within bound (o_batchSize o)
  /\ within bound (o_interval o)
  /\ within bound (o_lookAhead o)
  /\ within bound (o_ownChartPollingFrequency o).

(** X23.  Whatever integers of magnitude up to 2^48 are given, the resolved
    options are within their bounds: timeouts and polling of at least 50 ms,
    an adoption frequency of at least 10 ms with a grace period of at least
    two and a half times that (rounded down), a batch of at least one event,
    and a look-ahead that is no shorter than the read interval.  The
    resolved options are integers of magnitude up to 2^50, and resolving
    them again changes nothing. *)
Theorem resolveXJogOptions_is_within_bounds (options : XJogOptions) :
  givenWithin (2 ^ 48) options ->
  let r := resolveXJogOptions options in
  50 <= chartMutexTimeout r
  /\ 10 <= Engine.adoptionFrequency (startup r)
  /\ 5 * Engine.adoptionFrequency (startup r) <= 2 * Engine.gracePeriod (startup r) + 1
  /\ 1 <= DeferredEventManager.batchSize (deferredEvents r)
  /\ 50 <= DeferredEventManager.interval (deferredEvents r)
  /\ DeferredEventManager.interval (deferredEvents r)
     <= DeferredEventManager.lookAhead (deferredEvents r)
  /\ 50 <= shutdown_ownChartPollingFrequency r
  /\ 10 <= cacheSize (resolveXJogMachineOptions r None None)
  /\ machine_chartMutexTimeout (resolveXJogMachineOptions r None None)
     = chartMutexTimeout r
  /\ givenWithin (2 ^ 50) (asGiven r)
  /\ resolveXJogOptions (asGiven r) = r.
Proof.
  intros Hgiven. cbv zeta. destruct options as [mt af gp bs iv la pf].
  unfold givenWithin, within in Hgiven |- *.
  unfold resolveXJogOptions, resolveXJogMachineOptions, resolveXJogDeferredEventOptions,
    resolveShutdownOptions, Engine.resolveXJogStartupOptions, Engine.pickIntegerOption,
    asGiven.
  cbn [o_chartMutexTimeout o_adoptionFrequency o_gracePeriod o_batchSize o_interval
       o_lookAhead o_ownChartPollingFrequency chartMutexTimeout startup deferredEvents
       shutdown_ownChartPollingFrequency cacheSize machine_chartMutexTimeout
       Engine.adoptionFrequency Engine.gracePeriod
       DeferredEventManager.batchSize DeferredEventManager.interval
       DeferredEventManager.lookAhead] in Hgiven |- *.
  change (2 ^ 48) with 281474976710656 in Hgiven.
  change (2 ^ 50) with 1125899906842624.
  destruct Hgiven as (Hmt & Haf & Hgp & Hbs & Hiv & Hla & Hpf).
  set (mt' := match mt with Some v => v | None => 2000 end).
  set (af' := match af with Some v => v | None => 2000 end).
  set (gp' := match gp with Some v => v | None => 30000 end).
  set (bs' := match bs with Some v => v | None => 100 end).
  set (iv' := match iv with Some v => v | None => 30 * 1000 end).
  set (la' := match la with Some v => v | None => 30 * 1000 end).
  set (pf' := match pf with Some v => v | None => 500 end).
  assert (Hmt' : - 281474976710656 <= mt' <= 281474976710656)
    by (subst mt'; destruct mt; lia).
  assert (Haf' : - 281474976710656 <= af' <= 281474976710656)
    by (subst af'; destruct af; lia).
  assert (Hgp' : - 281474976710656 <= gp' <= 281474976710656)
    by (subst gp'; destruct gp; lia).
  assert (Hbs' : - 281474976710656 <= bs' <= 281474976710656)
    by (subst bs'; destruct bs; lia).
  assert (Hiv' : - 281474976710656 <= iv' <= 281474976710656)
    by (subst iv'; destruct iv; lia).
  assert (Hla' : - 281474976710656 <= la' <= 281474976710656)
    by (subst la'; destruct la; lia).
  assert (Hpf' : - 281474976710656 <= pf' <= 281474976710656)
    by (subst pf'; destruct pf; lia).
  clearbody mt' af' gp' bs' iv' la' pf'.
  repeat split; try lia; try (Z.div_mod_to_equations; lia).
  f_equal; try lia; f_equal; try lia. Z.div_mod_to_equations. lia.
Qed.

(** Options below their minimums. *)
Definition smallOptions : XJogOptions :=
  mkXJogOptions (Some 5) (Some 3) (Some 7) (Some 0) (Some 20) (Some 10) None.

Lemma resolveXJogOptions_is_within_bounds_witness :
  givenWithin (2 ^ 48) smallOptions
  /\ resolveXJogOptions smallOptions
     = mkResolved 50 (Engine.mkStartupOptions 10 25)
                  (DeferredEventManager.mkOptions 1 50 50) 500
  /\ 5 * Engine.adoptionFrequency (startup (resolveXJogOptions smallOptions))
     <= 2 * Engine.gracePeriod (startup (resolveXJogOptions smallOptions)) + 1.
Proof.
  assert (Hgiven : givenWithin (2 ^ 48) smallOptions).
  { unfold givenWithin, within, smallOptions.
    cbn [o_chartMutexTimeout o_adoptionFrequency o_gracePeriod o_batchSize o_interval
         o_lookAhead o_ownChartPollingFrequency].
    change (2 ^ 48) with 281474976710656. lia. }
  split; [exact Hgiven|]. split; [reflexivity|].
  exact (proj1 (proj2 (proj2 (resolveXJogOptions_is_within_bounds smallOptions Hgiven)))).
Defined.

End ResolvedOptions.

(** ** Chart identifiers: construction and matching *)

Section MatchingIdentifiers.

Import ChartIdentifier.

Variable parseAuthority : string -> option string.
Variable parseSpecial : string -> string -> option Url.URL.

Local Abbreviation from' := (from parseAuthority parseSpecial).
Local Abbreviation new' := (new_ parseAuthority parseSpecial).
Local Abbreviation referencesMatch' := (referencesMatch parseAuthority parseSpecial).

Lemma segmentOrThrow_truthy (u : Url.URL) (index : Z) (seg : string) :
  segmentOrThrow u index = Returned seg -> JsString.truthy seg = true.
Proof.
  unfold segmentOrThrow, invalidPath.
  destruct (getPathSegment u index) as [[s|]|e]; try discriminate.
  - destruct (JsString.truthy s) eqn:Ht.
    + intros H. injection H as <-. exact Ht.
    + destruct (pathSegments u); discriminate.
  - destruct (pathSegments u); discriminate.
Qed.

Lemma truthy_not_empty (s : string) : JsString.truthy s = true -> s <> EmptyString.
Proof. intros H ->. discriminate. Qed.

Lemma from_ids (input : Input) (identifier : ChartIdentifier) :
  from' input = Some identifier ->
  new' input = Returned identifier
  /\ Url.protocol (uri identifier) = String.append protocol ":"
  /\ exists m c, machineId (uri identifier) = Returned m
                 /\ chartId (uri identifier) = Returned c
                 /\ JsString.truthy m = true /\ JsString.truthy c = true.
Proof.
  unfold from. destruct (new' input) as [i|e] eqn:Hnew; [|discriminate].
  intros H. injection H as ->. split; [reflexivity|].
  unfold new_ in Hnew. destruct (uriOf parseAuthority parseSpecial input) as [u|e];
    [|discriminate].
  destruct (String.eqb (Url.protocol u) (String.append protocol ":")) eqn:Hp;
    cbn [negb] in Hnew; [|discriminate].
  destruct (machineId u) as [m|e] eqn:Hm; [|discriminate].
  destruct (chartId u) as [c|e] eqn:Hc; [|discriminate].
  injection Hnew as <-. cbn [uri]. split; [apply String.eqb_eq, Hp|].
  exists m, c. rewrite Hm, Hc. split; [reflexivity|]. split; [reflexivity|].
  split; [apply (segmentOrThrow_truthy u (-2)), Hm|apply (segmentOrThrow_truthy u (-1)), Hc].
Qed.

(** X24.  An identifier that the constructor or [from] gives back is a
    chart URI with both ids: its protocol is [xjog+chart:], and its getters
    [machineId], [chartId] and [ref] return, never throw, with a machine id
    and a chart id that are not empty. *)
Theorem from_gives_an_identifier_with_both_ids (input : Input)
    (identifier : ChartIdentifier) :
  from' input = Some identifier ->
  new' input = Returned identifier
  /\ Url.protocol (uri identifier) = "xjog+chart:"
  /\ exists m c,
       m <> EmptyString /\ c <> EmptyString
       /\ machineId (uri identifier) = Returned m
       /\ chartId (uri identifier) = Returned c
       /\ ref identifier = Returned (mkRef m c).
Proof.
  intros Hfrom.
  destruct (from_ids input identifier Hfrom)
    as (Hnew & Hp & m & c & Hm & Hc & Htm & Htc).
  split; [exact Hnew|]. split; [exact Hp|]. exists m, c.
  split; [apply truthy_not_empty, Htm|]. split; [apply truthy_not_empty, Htc|].
  split; [exact Hm|]. split; [exact Hc|].
  unfold ref. rewrite Hm, Hc. reflexivity.
Qed.

Lemma matches_constructed (this other : ChartIdentifier) (a b : Input) :
  from' a = Some this -> from' b = Some other ->
  exists m c m' c',
    ref this = Returned (mkRef m c) /\ ref other = Returned (mkRef m' c')
    /\ matches parseAuthority parseSpecial this b
       = Returned (String.eqb m' m && String.eqb c' c).
Proof.
  intros Ha Hb.
  destruct (from_ids a this Ha) as (_ & _ & m & c & Hm & Hc & _ & _).
  destruct (from_ids b other Hb) as (_ & _ & m' & c' & Hm' & Hc' & _ & _).
  exists m, c, m', c'. unfold ref, matches. rewrite Hb, Hm, Hc, Hm', Hc'.
  cbn [option_map uri strictEqual]. rewrite Hm', Hc'.
  split; [reflexivity|]. split; [reflexivity|].
  destruct (String.eqb m' m); reflexivity.
Qed.

Lemma matches_unconstructed (this : ChartIdentifier) (a b : Input) :
  from' a = Some this -> from' b = None ->
  matches parseAuthority parseSpecial this b = Returned false.
Proof.
  intros Ha Hb.
  destruct (from_ids a this Ha) as (_ & _ & m & c & Hm & Hc & _ & _).
  unfold matches. rewrite Hb, Hm. reflexivity.
Qed.

(** X25.  [referencesMatch] never throws and does not depend on the order
    of its arguments.  It is true exactly when both arguments are chart
    identifiers (or can be made into one) with the same machine id and the
    same chart id; nothing else of the URIs, such as a host, is compared. *)
Theorem referencesMatch_compares_the_two_ids (a b : Input) :
  exists result,
    referencesMatch' a b = Returned result
    /\ referencesMatch' b a = Returned result
    /\ (result = true
        <-> exists ia ib m c,
              from' a = Some ia /\ from' b = Some ib
              /\ ref ia = Returned (mkRef m c) /\ ref ib = Returned (mkRef m c)).
Proof.
  unfold referencesMatch.
  destruct (from' a) as [ia|] eqn:Ha, (from' b) as [ib|] eqn:Hb.
  - destruct (matches_constructed ia ib a b Ha Hb) as (m & c & m' & c' & Hra & Hrb & Hab).
    destruct (matches_constructed ib ia b a Hb Ha)
      as (m2 & c2 & m2' & c2' & Hrb' & Hra' & Hba).
    rewrite Hrb in Hrb'. injection Hrb' as <- <-.
    rewrite Hra in Hra'. injection Hra' as <- <-.
    exists (String.eqb m' m && String.eqb c' c). split; [exact Hab|].
    split; [rewrite Hba, (String.eqb_sym m m'), (String.eqb_sym c c'); reflexivity|].
    rewrite andb_true_iff, !String.eqb_eq. split.
    + intros [-> ->]. exists ia, ib, m, c. auto.
    + intros (ia' & ib' & m0 & c0 & Hia & Hib & Hria & Hrib).
      injection Hia as <-. injection Hib as <-.
      rewrite Hra in Hria. rewrite Hrb in Hrib. split; congruence.
  - exists false. split; [apply (matches_unconstructed ia a b Ha Hb)|].
    split; [reflexivity|]. split; [discriminate|].
    intros (ia' & ib' & m0 & c0 & _ & Hib & _). discriminate.
  - exists false. split; [reflexivity|].
    split; [apply (matches_unconstructed ib b a Hb Ha)|]. split; [discriminate|].
    intros (ia' & ib' & m0 & c0 & Hia & _). discriminate.
  - exists false. split; [reflexivity|]. split; [reflexivity|]. split; [discriminate|].
    intros (ia' & ib' & m0 & c0 & Hia & _). discriminate.
Qed.

End MatchingIdentifiers.

Lemma from_gives_an_identifier_with_both_ids_witness :
  exists identifier,
    ChartIdentifier.from hostAsWritten noSpecialScheme
      (ChartIdentifier.FromReference None (mkRef "door" "1")) = Some identifier
    /\ Url.protocol (ChartIdentifier.uri identifier) = "xjog+chart:"
    /\ ChartIdentifier.ref identifier = Returned (mkRef "door" "1").
Proof.
  destruct (ChartIdentifier.from hostAsWritten noSpecialScheme
              (ChartIdentifier.FromReference None (mkRef "door" "1")))
    as [identifier|] eqn:Hfrom; [|vm_compute in Hfrom; discriminate].
  exists identifier. split; [reflexivity|].
  destruct (from_gives_an_identifier_with_both_ids hostAsWritten noSpecialScheme
              (ChartIdentifier.FromReference None (mkRef "door" "1")) identifier Hfrom)
    as (_ & Hp & m & c & _ & _ & _ & _ & Href).
  split; [exact Hp|].
  vm_compute in Hfrom. injection Hfrom as <-. reflexivity.
Defined.

(** ** Shutting the engine down *)

Section ShuttingDown.

Import Engine.

Variable runStep : ChartReference -> Runtime -> Runtime.
Variable others : Persistence.Db -> Persistence.Db.

Lemma waitForAdoption_done (fuel : nat) (self : string) (db db' : Persistence.Db) :
  waitForAdoption others fuel self db = Some db' ->
  Persistence.countOwnCharts self db' = 0%nat.
Proof.
  revert db. induction fuel as [|fuel IH]; intros db; cbn [waitForAdoption];
    destruct (Nat.ltb_spec 0 (Persistence.countOwnCharts self db)) as [Hlt|Hge].
  - discriminate.
  - intros H. injection H as <-. lia.
  - apply IH.
  - intros H. injection H as <-. lia.
Qed.

Lemma unregisterAll_charts (acts : list (ChartReference * string)) (db : Persistence.Db) :
  Persistence.charts
    (fold_left (fun acc a => Persistence.unregisterActivity (fst a) (snd a) acc) acts db)
  = Persistence.charts db.
Proof.
  revert db. induction acts as [|a acts IH]; intros db; simpl; [reflexivity|].
  rewrite IH. reflexivity.
Qed.

(** The database after the clean-up of [shutdown], before the polling
    loop. *)
Definition cleanedUp (x : XJog) (db : Persistence.Db) : Persistence.Db :=
  fold_left (fun acc a => Persistence.unregisterActivity (fst a) (snd a) acc)
            (activities x)
            (Persistence.releaseAllDeferredEvents db).

Lemma cleanedUp_facts (x : XJog) (db : Persistence.Db) :
  Persistence.instances (cleanedUp x db) = Persistence.instances db
  /\ Persistence.charts (cleanedUp x db) = Persistence.charts db.
Proof.
  unfold cleanedUp. rewrite unregisterAll_instances, unregisterAll_charts.
  split; reflexivity.
Qed.

(** X26.  What a completed [shutdown] of a started engine leaves behind.
    The engine is dying and has signalled readiness and emitted [halt] once;
    its list of scheduled events, its timers and its activity registry are
    empty.  If an instance row was alive, the call has waited until no chart
    of the database is owned by this instance; otherwise the database is the
    one after the clean-up (locks released, activities unregistered).
    After that, another [shutdown] does nothing and [start] throws. *)
Theorem shutdown_leaves_a_dying_engine_without_charts (fuel : nat)
    (x x' : XJog) (db db' : Persistence.Db) :
  isDying x = false ->
  isStarted (startupManager x) = true ->
  shutdown others fuel (x, db) = Some (x', db') ->
  isDying x' = true
  /\ id x' = id x
  /\ haltEvents x' = S (haltEvents x)
  /\ isReady (startupManager x') = true
  /\ activities x' = []
  /\ DeferredEventManager.deferredEvents (deferredEventManager x') = []
  /\ DeferredEventManager.deferredEventTimers (deferredEventManager x') = ∅
  /\ DeferredEventManager.deferredEventHandlerTimer (deferredEventManager x') = None
  /\ (if Nat.ltb 0 (Persistence.countAliveInstances db)
      then Persistence.countOwnCharts (id x) db' = 0%nat
      else db' = cleanedUp x db)
  /\ shutdown others fuel (x', db') = Some (x', db')
  /\ (forall opts now,
        start runStep opts now (x', db')
        = (x', db', Thrown "Cannot start because already dying")).
Proof.
  intros Hdying Hstarted. unfold shutdown at 1. rewrite Hdying, Hstarted. cbn [negb].
  rewrite removeInstance_noop. cbn [DeferredEventManager.releaseAll].
  unfold stopAllActivities. cbn [activities withDeferred].
  fold (cleanedUp x db).
  cbn [withDeferred isReady startupManager id startupOptions ownChartPollingFrequency
       isDying deferredEventManager activities deathNoteListener readyEvents haltEvents
       forciblyAdoptCalls].
  assert (Hcount : Persistence.countAliveInstances (cleanedUp x db)
                   = Persistence.countAliveInstances db).
  { unfold Persistence.countAliveInstances.
    rewrite (proj1 (cleanedUp_facts x db)). reflexivity. }
  rewrite Hcount.
  assert (Hdone : forall y d,
             isDying y = true ->
             shutdown others fuel (y, d) = Some (y, d)
             /\ (forall opts now,
                   start runStep opts now (y, d)
                   = (y, d, Thrown "Cannot start because already dying"))).
  { intros y d Hy. unfold shutdown, start. cbn [fst]. rewrite Hy. auto. }
  destruct (isReady (startupManager x)) eqn:Hready; cbn [negb];
    destruct (Nat.ltb 0 (Persistence.countAliveInstances db)).
  - cbn [id startupStop signalReadiness stopAdoptionLoop exitAdoptionGracePeriod
         withStartup].
    destruct (waitForAdoption others fuel (id x) (cleanedUp x db)) as [dbW|] eqn:HW;
      [|discriminate].
    apply waitForAdoption_done in HW.
    intros H; injection H as <- <-;
      do 9 (split; [first [reflexivity|exact HW|exact Hready]|]); apply Hdone; reflexivity.
  - intros H; injection H as <- <-;
      do 9 (split; [first [reflexivity|exact Hready]|]); apply Hdone; reflexivity.
  - cbn [id startupStop signalReadiness stopAdoptionLoop exitAdoptionGracePeriod
         withStartup].
    destruct (waitForAdoption others fuel (id x) (cleanedUp x db)) as [dbW|] eqn:HW;
      [|discriminate].
    apply waitForAdoption_done in HW.
    intros H; injection H as <- <-;
      do 9 (split; [first [reflexivity|exact HW|exact Hready]|]); apply Hdone; reflexivity.
  - intros H; injection H as <- <-;
      do 9 (split; [first [reflexivity|exact Hready]|]); apply Hdone; reflexivity.
Qed.

Lemma cleanedUp_own_charts (x : XJog) (db : Persistence.Db) :
  Persistence.countOwnCharts (id x) (cleanedUp x db) = Persistence.countOwnCharts (id x) db.
Proof.
  unfold Persistence.countOwnCharts. rewrite (proj2 (cleanedUp_facts x db)). reflexivity.
Qed.

(** X27.  [shutdown] of a started engine does not return while an instance
    row is alive and the charts of this instance stay its own: as long as
    what happens to the database between two polls leaves the number of
    charts owned by the instance unchanged, the polling loop goes on,
    however many rounds it is given. *)
Theorem shutdown_waits_while_its_charts_are_not_adopted (fuel : nat)
    (x : XJog) (db : Persistence.Db) :
  isDying x = false ->
  isStarted (startupManager x) = true ->
  (0 < Persistence.countAliveInstances db)%nat ->
  (0 < Persistence.countOwnCharts (id x) db)%nat ->
  (forall d, Persistence.countOwnCharts (id x) (others d)
             = Persistence.countOwnCharts (id x) d) ->
  shutdown others fuel (x, db) = None.
Proof.
  intros Hdying Hstarted Halive Hown Hothers.
  unfold shutdown. rewrite Hdying, Hstarted. cbn [negb].
  rewrite removeInstance_noop. cbn [DeferredEventManager.releaseAll].
  unfold stopAllActivities. cbn [activities withDeferred].
  fold (cleanedUp x db).
  cbn [withDeferred isReady startupManager id startupOptions ownChartPollingFrequency
       isDying deferredEventManager activities deathNoteListener readyEvents haltEvents
       forciblyAdoptCalls].
  assert (Hcount : Persistence.countAliveInstances (cleanedUp x db)
                   = Persistence.countAliveInstances db).
  { unfold Persistence.countAliveInstances.
    rewrite (proj1 (cleanedUp_facts x db)). reflexivity. }
  rewrite Hcount. apply Nat.ltb_lt in Halive. rewrite Halive.
  assert (Hstuck : forall y, id y = id x ->
                             waitForAdoption others fuel (id y) (cleanedUp x db) = None).
  { intros y Hy. rewrite Hy. apply waitForAdoption_stuck; [exact Hothers|].
    rewrite cleanedUp_own_charts. exact Hown. }
  destruct (isReady (startupManager x)); cbn [negb]; rewrite Hstuck; reflexivity.
Qed.

End ShuttingDown.

(** The sole engine of an empty database, started. *)
Definition startedEngine : Engine.XJog :=
  fst (fst (Engine.start idleRunStep defaultDeferredOptions 0 (soleEngine, emptyDb))).

Definition startedDb : Persistence.Db :=
  snd (fst (Engine.start idleRunStep defaultDeferredOptions 0 (soleEngine, emptyDb))).

Lemma shutdown_leaves_a_dying_engine_without_charts_witness :
  Engine.isDying startedEngine = false
  /\ Engine.isStarted (Engine.startupManager startedEngine) = true
  /\ exists x' db',
       Engine.shutdown nobodyElse 0 (startedEngine, startedDb) = Some (x', db')
       /\ Engine.isDying x' = true
       /\ Engine.haltEvents x' = 1%nat
       /\ Engine.shutdown nobodyElse 0 (x', db') = Some (x', db').
Proof.
  split; [reflexivity|]. split; [reflexivity|].
  destruct (Engine.shutdown nobodyElse 0 (startedEngine, startedDb))
    as [[x' db']|] eqn:Hshutdown; [|vm_compute in Hshutdown; discriminate].
  exists x', db'. split; [reflexivity|].
  destruct (shutdown_leaves_a_dying_engine_without_charts idleRunStep nobodyElse 0
              startedEngine x' startedDb db' eq_refl eq_refl Hshutdown)
    as (Hdying & _ & Hhalt & _ & _ & _ & _ & _ & _ & Hagain & _).
  split; [exact Hdying|]. split; [exact Hhalt|exact Hagain].
Defined.

Lemma shutdown_waits_while_its_charts_are_not_adopted_witness :
  Engine.isDying startedEngine = false
  /\ Engine.isStarted (Engine.startupManager startedEngine) = true
  /\ (0 < Persistence.countAliveInstances childDb)%nat
  /\ (0 < Persistence.countOwnCharts (Engine.id startedEngine) childDb)%nat
  /\ Engine.shutdown nobodyElse 5 (startedEngine, childDb) = None.
Proof.
  assert (Halive : (0 < Persistence.countAliveInstances childDb)%nat)
    by (vm_compute; lia).
  assert (Hown : (0 < Persistence.countOwnCharts (Engine.id startedEngine) childDb)%nat)
    by (vm_compute; lia).
  split; [reflexivity|]. split; [reflexivity|]. split; [exact Halive|].
  split; [exact Hown|].
  apply (shutdown_waits_while_its_charts_are_not_adopted nobodyElse 5 startedEngine
           childDb eq_refl eq_refl Halive Hown).
  intros d. reflexivity.
Defined.

(** ** The chart cache of a machine *)

Section ChartCache.

Import MachineCache.
Local Open Scope Z_scope.

Variable XJogChart : Type.
Variable chartIdOf : XJogChart -> string.

(** The keys are the ids of the stored charts, each once. *)
Definition consistent (c : Cache XJogChart) : Prop :=
  List.NoDup (chartCacheKeys c)
  /\ forall k, In k (chartCacheKeys c) <-> is_Some (chartCacheStore c !! k).

Lemma existsb_eqb_In (key : string) (keys : list string) :
  existsb (String.eqb key) keys = true <-> In key keys.
Proof.
  rewrite existsb_exists. split.
  - intros [k [Hk Heq]]. apply String.eqb_eq in Heq. subst. exact Hk.
  - intros Hk. exists key. split; [exact Hk|apply String.eqb_refl].
Qed.

Lemma setAdd_In (key k : string) (keys : list string) :
  In k (setAdd key keys) <-> k = key \/ In k keys.
Proof.
  unfold setAdd. destruct (existsb (String.eqb key) keys) eqn:Hex.
  - apply existsb_eqb_In in Hex. split; [auto|]. intros [->|H]; assumption.
  - rewrite in_app_iff. cbn [In]. intuition congruence.
Qed.

Lemma setAdd_NoDup (key : string) (keys : list string) :
  List.NoDup keys -> List.NoDup (setAdd key keys).
Proof.
  intros Hnd. unfold setAdd. destruct (existsb (String.eqb key) keys) eqn:Hex; [exact Hnd|].
  assert (Hnot : ~ In key keys).
  { intros Hin. apply existsb_eqb_In in Hin. congruence. }
  clear Hex. induction keys as [|k keys IH]; cbn [app].
  - constructor; [intros []|constructor].
  - apply NoDup_cons_iff in Hnd. destruct Hnd as [Hk Hnd].
    apply NoDup_cons_iff. split.
    + rewrite in_app_iff. cbn [In]. intros [H|[H|[]]]; [contradiction|].
      apply Hnot. left. symmetry. exact H.
    + apply IH; [exact Hnd|]. intros H. apply Hnot. right. exact H.
Qed.

Lemma setDelete_head (key : string) (keys : list string) :
  ~ In key keys -> setDelete key (key :: keys) = keys.
Proof.
  intros Hnot. unfold setDelete. cbn [List.filter]. rewrite String.eqb_refl. cbn [negb].
  induction keys as [|k keys IH]; [reflexivity|]. cbn [List.filter].
  destruct (String.eqb k key) eqn:Heq.
  - apply String.eqb_eq in Heq. exfalso. apply Hnot. left. exact Heq.
  - cbn [negb]. f_equal. apply IH. intros H. apply Hnot. right. exact H.
Qed.

(** X28.  The cache holds at most [cacheSize] charts and is first in, first
    out, as long as no chart id is the name of a property of
    [Object.prototype].  On a cache within its size whose keys are the
    non-empty ids of the stored charts, none of them such a name,
    [refreshCache] with a chart of non-empty id that is no such name either
    keeps all that; the chart is in the cache afterwards, so that the next
    [getChart] for it is a hit that loads nothing.  When the cache was full
    and the chart new, the key that goes is the one added first; refreshing
    a chart that is cached already does not move its key. *)
Theorem refreshCache_keeps_the_cache_within_its_size (cacheSize : Z)
    (chart : XJogChart) (c : Cache XJogChart) :
  consistent c ->
  forallb JsString.truthy (chartCacheKeys c) = true ->
  forallb plainKey (chartCacheKeys c) = true ->
  JsString.truthy (chartIdOf chart) = true ->
  plainKey (chartIdOf chart) = true ->
  1 <= cacheSize ->
  Z.of_nat (length (chartCacheKeys c)) <= cacheSize ->
  let c' := refreshCache chartIdOf cacheSize chart c in
  consistent c'
  /\ forallb JsString.truthy (chartCacheKeys c') = true
  /\ forallb plainKey (chartCacheKeys c') = true
  /\ Z.of_nat (length (chartCacheKeys c')) <= cacheSize
  /\ chartCacheStore c' !! chartIdOf chart = Some chart
  /\ (forall load,
        getChart chartIdOf load cacheSize (chartIdOf chart) c' = (c', Returned (Some chart)))
  /\ (chartCacheStore c !! chartIdOf chart = None ->
      Z.of_nat (length (chartCacheKeys c)) = cacheSize ->
      chartCacheKeys c' = tl (chartCacheKeys c) ++ [chartIdOf chart])
  /\ (is_Some (chartCacheStore c !! chartIdOf chart) ->
      chartCacheKeys c' = chartCacheKeys c).
Proof.
  intros [Hnd Hkeys] Htruthy Hplain Hid Hplainid Hsize Hlen. cbv zeta.
  destruct c as [keys store]. cbn [chartCacheKeys chartCacheStore] in *.
  set (key := chartIdOf chart) in *.
  set (c1 := mkCache (setAdd key keys) (<[key := chart]> store)).
  assert (Hc1 : consistent c1).
  { split; cbn [c1 chartCacheKeys chartCacheStore]; [apply setAdd_NoDup, Hnd|].
    intros k. rewrite setAdd_In. destruct (decide (k = key)) as [->|Hne].
    - rewrite lookup_insert_eq. split; [eauto|auto].
    - rewrite lookup_insert_ne by congruence. rewrite <- Hkeys. intuition. }
  assert (Htruthy1 : forallb JsString.truthy (setAdd key keys) = true).
  { apply forallb_forall. intros k Hk. apply setAdd_In in Hk. destruct Hk as [->|Hk];
      [exact Hid|]. rewrite forallb_forall in Htruthy. apply Htruthy, Hk. }
  assert (Hplain1 : forallb plainKey (setAdd key keys) = true).
  { apply forallb_forall. intros k Hk. apply setAdd_In in Hk. destruct Hk as [->|Hk];
      [exact Hplainid|]. rewrite forallb_forall in Hplain. apply Hplain, Hk. }
  assert (Hstored : is_Some (store !! key) <-> setAdd key keys = keys).
  { rewrite <- Hkeys, <- existsb_eqb_In. unfold setAdd.
    destruct (existsb (String.eqb key) keys); split; try reflexivity; try discriminate.
    intros H. apply (f_equal (@length string)) in H. rewrite List.length_app in H.
    cbn in H. lia. }
  assert (Hnew : store !! key = None -> setAdd key keys = keys ++ [key]).
  { intros Hnone. unfold setAdd. destruct (existsb (String.eqb key) keys) eqn:Hex;
      [|reflexivity].
    apply existsb_eqb_In, Hkeys in Hex. rewrite Hnone in Hex. destruct Hex; discriminate. }
  unfold refreshCache. fold key. unfold cleanCache.
  unfold consistent in Hc1 |- *. subst c1.
  cbn [chartCacheKeys chartCacheStore] in Hc1 |- *.
  destruct (Z.of_nat (length (setAdd key keys)) >? cacheSize) eqn:Hover.
  - (* the cache was full and the chart is new *)
    rewrite Z.gtb_ltb in Hover. apply Z.ltb_lt in Hover.
    destruct (store !! key) as [old|] eqn:Hold.
    { exfalso. rewrite (proj1 Hstored) in Hover by eauto. lia. }
    rewrite (Hnew eq_refl) in *. rewrite List.length_app in Hover. cbn [length] in Hover.
    destruct keys as [|oldest keys]; [cbn in Hover; lia|].
    cbn [app]. cbn [app forallb] in Htruthy1, Hplain1.
    apply andb_prop in Htruthy1. destruct Htruthy1 as [Holdest Hrest].
    apply andb_prop in Hplain1. destruct Hplain1 as [_ Hplainrest].
    rewrite Holdest. unfold evictCacheEntry. cbn [chartCacheStore chartCacheKeys].
    assert (Hne : oldest <> key).
    { intros ->. assert (Hin : is_Some (store !! key)) by (apply Hkeys; left; reflexivity).
      rewrite Hold in Hin. destruct Hin; discriminate. }
    rewrite lookup_insert_ne by congruence.
    assert (Hin : is_Some (store !! oldest)) by (apply Hkeys; left; reflexivity).
    destruct Hin as [oldChart HoldChart]. rewrite HoldChart.
    cbn [chartCacheStore chartCacheKeys].
    destruct Hc1 as [Hnd1 Hkeys1]. cbn [app] in Hnd1, Hkeys1.
    apply NoDup_cons_iff in Hnd1. destruct Hnd1 as [Hfirst Hnd1].
    rewrite (setDelete_head oldest _ Hfirst).
    assert (Hlookup : delete oldest (<[key := chart]> store) !! key = Some chart).
    { rewrite lookup_delete_ne by congruence. apply lookup_insert_eq. }
    split; [split; [exact Hnd1|]|].
    { intros k. destruct (decide (k = oldest)) as [->|Hk].
      - rewrite lookup_delete_eq. split; [contradiction|]. intros [? H]. discriminate.
      - rewrite lookup_delete_ne by congruence. rewrite <- Hkeys1. cbn [In].
        intuition congruence. }
    split; [exact Hrest|]. split; [exact Hplainrest|].
    split; [rewrite List.length_app; cbn [length] in *; lia|].
    split; [exact Hlookup|].
    split; [intros load; unfold getChart; cbn [chartCacheStore]; rewrite Hlookup;
            reflexivity|].
    split; [intros _ _; reflexivity|]. intros [? H]. discriminate.
  - rewrite Z.gtb_ltb in Hover. apply Z.ltb_ge in Hover.
    assert (Hlookup : <[key := chart]> store !! key = Some chart) by apply lookup_insert_eq.
    split; [exact Hc1|]. split; [exact Htruthy1|]. split; [exact Hplain1|].
    split; [exact Hover|].
    split; [exact Hlookup|].
    split; [intros load; unfold getChart; cbn [chartCacheStore]; rewrite Hlookup;
            reflexivity|].
    split.
    + intros Hnone Hfull. rewrite (Hnew Hnone) in Hover. rewrite List.length_app in Hover.
      cbn [length] in Hover. lia.
    + intros Hsome. apply Hstored, Hsome.
Qed.

End ChartCache.

(** A full cache of size two; a chart stands for its own id. *)
Definition fullCache : MachineCache.Cache string :=
  MachineCache.mkCache ["a"; "b"] (<["a" := "a"]> (<["b" := "b"]> ∅)).

Lemma refreshCache_keeps_the_cache_within_its_size_witness :
  consistent string fullCache
  /\ forallb MachineCache.plainKey ("c" :: MachineCache.chartCacheKeys fullCache) = true
  /\ MachineCache.chartCacheKeys (MachineCache.refreshCache (fun chart => chart) 2 "c" fullCache)
     = ["b"; "c"]
  /\ MachineCache.chartCacheStore (MachineCache.refreshCache (fun chart => chart) 2 "c" fullCache)
     !! "c" = Some "c".
Proof.
  assert (Hconsistent : consistent string fullCache).
  { split; cbn [fullCache MachineCache.chartCacheKeys MachineCache.chartCacheStore].
    - repeat constructor; cbn; intuition discriminate.
    - intros k. destruct (decide (k = "a")) as [->|Ha].
      + rewrite lookup_insert_eq. split; [eauto|]. intros _. left. reflexivity.
      + rewrite lookup_insert_ne by congruence.
        destruct (decide (k = "b")) as [->|Hb].
        * rewrite lookup_insert_eq. split; [eauto|]. intros _. right. left. reflexivity.
        * rewrite lookup_insert_ne by congruence. rewrite lookup_empty.
          split; [|intros [? H]; discriminate].
          intros [H|[H|[]]]; congruence. }
  assert (Hnew : MachineCache.chartCacheStore fullCache !! "c" = None).
  { cbn [fullCache MachineCache.chartCacheStore].
    rewrite !lookup_insert_ne by discriminate. apply lookup_empty. }
  destruct (refreshCache_keeps_the_cache_within_its_size string (fun chart => chart) 2 "c"
              fullCache Hconsistent eq_refl eq_refl eq_refl eq_refl ltac:(lia)
              ltac:(cbn; lia))
    as (_ & _ & _ & _ & Hstored & _ & Hfifo & _).
  split; [exact Hconsistent|]. split; [reflexivity|]. split; [|exact Hstored].
  rewrite (Hfifo Hnew eq_refl). reflexivity.
Defined.

(** ** External identifiers *)

Section ExternalIdentifiers.

Import Persistence.

Lemma find_filter_keeps {A} (p q : A -> bool) (l : list A) :
  (forall x, p x = true -> q x = true) ->
  List.find p (List.filter q l) = List.find p l.
Proof.
  intros Himp. induction l as [|x l IH]; [reflexivity|]. cbn [List.filter List.find].
  destruct (p x) eqn:Hp.
  - rewrite (Himp x Hp). cbn [List.find]. rewrite Hp. reflexivity.
  - destruct (q x); cbn [List.find]; [rewrite Hp|]; exact IH.
Qed.

Lemma find_filter_drops {A} (p : A -> bool) (l : list A) :
  List.find p (List.filter (fun x => negb (p x)) l) = None.
Proof.
  induction l as [|x l IH]; [reflexivity|]. cbn [List.filter].
  destruct (p x) eqn:Hp; cbn [negb List.find]; [exact IH|]. rewrite Hp. exact IH.
Qed.

Lemma filter_filter_keeps {A} (p q : A -> bool) (l : list A) :
  (forall x, p x = true -> q x = true) ->
  List.filter p (List.filter q l) = List.filter p l.
Proof.
  intros Himp. induction l as [|x l IH]; [reflexivity|]. cbn [List.filter].
  destruct (p x) eqn:Hp.
  - rewrite (Himp x Hp). cbn [List.filter]. rewrite Hp, IH. reflexivity.
  - destruct (q x); cbn [List.filter]; [rewrite Hp|]; exact IH.
Qed.

(** X29.  [dropExternalId] removes every row with the given key and value
    and returns their number: a look-up of that key and value finds no chart
    afterwards, while a look-up of any other key or value, and the values
    that a chart has under any other key, are as before. *)
Theorem dropExternalId_forgets_that_identifier_only (key value : string)
    (xs : list ExternalIdRow) :
  let xs' := fst (dropExternalId key value xs) in
  getChartByExternalIdentifier key value xs' = None
  /\ snd (dropExternalId key value xs)
     = length (List.filter (fun x => String.eqb (x_key x) key
                                     && String.eqb (x_value x) value) xs)
  /\ (forall k v, (k, v) <> (key, value) ->
        getChartByExternalIdentifier k v xs' = getChartByExternalIdentifier k v xs)
  /\ (forall k r, k <> key -> getExternalIdentifiers k r xs' = getExternalIdentifiers k r xs).
Proof.
  cbv zeta. unfold dropExternalId, getChartByExternalIdentifier, getExternalIdentifiers.
  cbn [fst snd]. split; [|split; [|split]].
  - rewrite (find_filter_drops (fun x => String.eqb (x_key x) key
                                         && String.eqb (x_value x) value)).
    reflexivity.
  - induction xs as [|x xs IH]; [reflexivity|]. cbn [List.filter length].
    pose proof (List.filter_length_le
                  (fun x => negb (String.eqb (x_key x) key && String.eqb (x_value x) value))
                  xs) as Hle.
    destruct (String.eqb (x_key x) key && String.eqb (x_value x) value);
      cbn [negb length]; lia.
  - intros k v Hne. f_equal. apply find_filter_keeps. intros x Hx.
    apply andb_prop in Hx. destruct Hx as [Hk Hv].
    apply String.eqb_eq in Hk, Hv. apply negb_true_iff, andb_false_iff.
    destruct (String.eqb (x_key x) key) eqn:Hk'; [|auto]. right.
    apply String.eqb_eq in Hk'. apply String.eqb_neq. congruence.
  - intros k r Hne. f_equal. apply filter_filter_keeps. intros x Hx.
    apply andb_prop in Hx. destruct Hx as [_ Hk]. apply String.eqb_eq in Hk.
    apply negb_true_iff, andb_false_iff. left. apply String.eqb_neq. congruence.
Qed.

End ExternalIdentifiers.
